(** * dz_smarthome: the Alexa Smart Home directive router and its Domoticz adapter

    A shallow embedding of [AlexaSmartHome.py] (capabilities, endpoints,
    envelopes, the directive router and its handler groups) and of
    [DomoticzHandler.py] (the Domoticz endpoints and handler), followed by
    the properties of the router proved over it.

    Python values are the JSON values the program exchanges; dictionaries
    keep their insertion order.  A computation takes the mutable state it
    works on and returns either a value or the exception it raised, together
    with the state it left behind: state changes survive an exception, as
    they do in Python. *)

From Stdlib Require Import ZArith List String Ascii Bool Lia Floats.
Import ListNotations.

Set Implicit Arguments.
Set Warnings "-register-all,-inexact-float".

Open Scope string_scope.
Open Scope list_scope.
Open Scope Z_scope.

(** ** Python values and built-ins *)
Module Py.

(** Instances of [Exception]: what an [except Exception] clause catches. *)
Inductive exn : Type :=
| KeyError (key : string)
| TypeError
| ValueError
| AttributeError (attr : string)
| IndexError
| NameError (var : string)
| OverflowError
| ZeroDivisionError
| Exception (msg : string).

Inductive outcome (A : Type) : Type :=
| Return (a : A)
| Raise (e : exn).
Arguments Return {A} a.
Arguments Raise {A} e.

(** JSON-shaped values: [None], [bool], [int], [float], [str], [list] and
    [dict] with string keys, in insertion order. *)
Inductive value : Type :=
| VNone
| VBool (b : bool)
| VInt (z : Z)
| VFloat (f : float)
| VStr (s : string)
| VList (l : list value)
| VDict (d : list (string * value)).

Definition dict := list (string * value).

(** [d.get(k)] on the entries of a dictionary. *)
Fixpoint assoc (k : string) (d : dict) : option value :=
  match d with
  | [] => None
  | (k', v) :: d' => if String.eqb k k' then Some v else assoc k d'
  end.

(** [d[k] = v]: an existing key keeps its place, a new one goes last. *)
Fixpoint dict_set (k : string) (v : value) (d : dict) : dict :=
  match d with
  | [] => [(k, v)]
  | (k', v') :: d' =>
      if String.eqb k k' then (k', v) :: d' else (k', v') :: dict_set k v d'
  end.

(** Truth value of an object, as [if x:], [x or y] and [not x] test it. *)
Definition truthy (v : value) : bool :=
  match v with
  | VNone => false
  | VBool b => b
  | VInt z => negb (z =? 0)
  | VFloat f => negb (PrimFloat.eqb f 0)
  | VStr s => negb (String.eqb s "")
  | VList l => match l with [] => false | _ => true end
  | VDict d => match d with [] => false | _ => true end
  end.

(** [x or y] *)
Definition or_else (x y : value) : value := if truthy x then x else y.

(** [x == s] for a string literal [s]. *)
Definition eq_str (x : value) (s : string) : bool :=
  match x with
  | VStr t => String.eqb t s
  | _ => false
  end.

(** [x[k]] for a string key. *)
Definition subscript (x : value) (k : string) : outcome value :=
  match x with
  | VDict d => match assoc k d with
               | Some v => Return v
               | None => Raise (KeyError k)
               end
  | _ => Raise TypeError
  end.

(** [x.get(k, default)] *)
Definition get (x : value) (k : string) (default : value) : outcome value :=
  match x with
  | VDict d => Return (match assoc k d with Some v => v | None => default end)
  | _ => Raise (AttributeError "get")
  end.

(** [x.copy()] *)
Definition copy (x : value) : outcome value :=
  match x with
  | VDict _ | VList _ => Return x
  | _ => Raise (AttributeError "copy")
  end.

(** *** Strings *)

(** [needle in s] for two strings. *)
Fixpoint substring_of (needle s : string) : bool :=
  String.prefix needle s
  || match s with
     | EmptyString => false
     | String _ s' => substring_of needle s'
     end.

(** [s.split(sep)] for a one-character separator: never empty. *)
Fixpoint split (sep : ascii) (s : string) : list string :=
  match s with
  | EmptyString => [""]
  | String c s' =>
      if Ascii.eqb c sep then "" :: split sep s'
      else match split sep s' with
           | w :: ws => String c w :: ws
           | [] => [String c ""]
           end
  end.

(** [s.split(sep, 1)]: cut at the first separator only. *)
Fixpoint split1 (sep : ascii) (s : string) : list string :=
  match s with
  | EmptyString => [""]
  | String c s' =>
      if Ascii.eqb c sep then [""; s']
      else match split1 sep s' with
           | w :: ws => String c w :: ws
           | [] => [String c ""]
           end
  end.

Definition chars (s : string) : list value :=
  map (fun c => VStr (String c "")) (list_ascii_of_string s).

(** [k in x] for a string [k]: a key of a dictionary, an element of a
    list, a substring of a string. *)
Definition contains (k : string) (x : value) : outcome bool :=
  match x with
  | VDict d => Return (match assoc k d with Some _ => true | None => false end)
  | VList l => Return (existsb (fun v => eq_str v k) l)
  | VStr s => Return (substring_of k s)
  | _ => Raise TypeError
  end.

(** [for v in x]: the elements a loop over [x] sees. *)
Definition iterate (x : value) : outcome (list value) :=
  match x with
  | VList l => Return l
  | VDict d => Return (map (fun kv => VStr (fst kv)) d)
  | VStr s => Return (chars s)
  | _ => Raise TypeError
  end.

(** [x[0]] *)
Definition first (x : value) : outcome value :=
  match x with
  | VList (v :: _) => Return v
  | VList [] => Raise IndexError
  | VStr (String c _) => Return (VStr (String c ""))
  | VStr EmptyString => Raise IndexError
  | VDict _ => Raise (KeyError "0")
  | _ => Raise TypeError
  end.

(** [l.index(s)] for a list of strings. *)
Fixpoint index (s : string) (l : list string) : option Z :=
  match l with
  | [] => None
  | x :: l' => if String.eqb x s then Some 0
               else option_map Z.succ (index s l')
  end.

(** [l[i]]: a negative index counts from the end. *)
Definition item {A : Type} (l : list A) (i : Z) : outcome A :=
  let n := Z.of_nat (List.length l) in
  let j := if i <? 0 then i + n else i in
  if (j <? 0) || (n <=? j) then Raise IndexError
  else match nth_error l (Z.to_nat j) with
       | Some x => Return x
       | None => Raise IndexError
       end.

(** *** Numbers *)

(** The binary64 number nearest to an integer (ties to even). *)
Definition float_of_Z (z : Z) : float :=
  SF2Prim (binary_normalize prec emax z 0 false).

(** A finite float cut towards zero. *)
Definition trunc (f : float) : outcome Z :=
  match Prim2SF f with
  | S754_zero _ => Return 0
  | S754_finite s m e =>
      let mag := if 0 <=? e then Z.shiftl (Zpos m) e
                 else Z.shiftr (Zpos m) (- e) in
      Return (if s then - mag else mag)
  | S754_infinity _ => Raise OverflowError
  | S754_nan => Raise ValueError
  end.

Definition SF_of_Z (z : Z) : spec_float :=
  match z with
  | Z0 => S754_zero false
  | Zpos p => S754_finite false p 0
  | Zneg p => S754_finite true p 0
  end.

(** [a / b] for two integers: the float nearest to the quotient. *)
Definition int_truediv (a b : Z) : outcome float :=
  if b =? 0 then Raise ZeroDivisionError
  else let q := SF2Prim (SFdiv prec emax (SF_of_Z a) (SF_of_Z b)) in
       if is_infinity q then Raise OverflowError else Return q.

(** [float(z)] for an integer. *)
Definition int_to_float (z : Z) : outcome float :=
  let f := float_of_Z z in
  if is_infinity f then Raise OverflowError else Return f.

Definition Z_of_bool (b : bool) : Z := if b then 1 else 0.

(** What the interpreter and its libraries supply and the program only
    calls: the parsers behind [int(str)] and [float(str)], [str()] of a
    value that is no string, [str.upper], random identifiers, the clock,
    the regular-expression search for an [Alexa_Name:] override, and the
    [json]/[colorsys] conversions of colours. *)
Record Python : Type := {
  parse_int : string -> option Z;
  parse_float : string -> option float;
  repr : value -> string;
  upper : string -> string;
  uuid4 : nat -> string;
  utcnow : nat -> string;
  alexa_name : string -> option string;
  color_from_json : value -> option (float * float * float);
  hsv_to_rgb : float -> float -> float -> outcome (float * float * float)
}.

Section Builtins.
Variable py : Python.

(** [int(x)] *)
Definition int (x : value) : outcome Z :=
  match x with
  | VInt z => Return z
  | VBool b => Return (Z_of_bool b)
  | VFloat f => trunc f
  | VStr s => match parse_int py s with
              | Some z => Return z
              | None => Raise ValueError
              end
  | _ => Raise TypeError
  end.

(** [float(x)] *)
Definition float_ (x : value) : outcome float :=
  match x with
  | VInt z => int_to_float z
  | VBool b => Return (float_of_Z (Z_of_bool b))
  | VFloat f => Return f
  | VStr s => match parse_float py s with
              | Some f => Return f
              | None => Raise ValueError
              end
  | _ => Raise TypeError
  end.

(** [str(x)] *)
Definition str (x : value) : string :=
  match x with
  | VStr s => s
  | _ => repr py x
  end.

(** [x.upper()] *)
Definition upper_ (x : value) : outcome string :=
  match x with
  | VStr s => Return (upper py s)
  | _ => Raise (AttributeError "upper")
  end.

(** [x.split(sep)] *)
Definition split_ (x : value) (sep : ascii) : outcome (list string) :=
  match x with
  | VStr s => Return (split sep s)
  | _ => Raise (AttributeError "split")
  end.

End Builtins.

(** [x + n] for an integer [n]. *)
Definition add_int (x : value) (n : Z) : outcome value :=
  match x with
  | VInt z => Return (VInt (z + n))
  | VBool b => Return (VInt (Z_of_bool b + n))
  | VFloat f =>
      match int_to_float n with
      | Return g => Return (VFloat (f + g))
      | Raise e => Raise e
      end
  | _ => Raise TypeError
  end.

(** [a / b] *)
Definition truediv (a b : value) : outcome float :=
  let num (x : value) : option (Z + float) :=
    match x with
    | VInt z => Some (inl z)
    | VBool c => Some (inl (Z_of_bool c))
    | VFloat f => Some (inr f)
    | _ => None
    end in
  match num a, num b with
  | Some (inl x), Some (inl y) => int_truediv x y
  | Some (inl x), Some (inr g) =>
      match int_to_float x with
      | Return f => if PrimFloat.eqb g 0 then Raise ZeroDivisionError
                    else Return (f / g)%float
      | Raise e => Raise e
      end
  | Some (inr f), Some (inl y) =>
      match int_to_float y with
      | Return g => if PrimFloat.eqb g 0 then Raise ZeroDivisionError
                    else Return (f / g)%float
      | Raise e => Raise e
      end
  | Some (inr f), Some (inr g) =>
      if PrimFloat.eqb g 0 then Raise ZeroDivisionError
      else Return (f / g)%float
  | _, _ => Raise TypeError
  end.

(** [n * x] for an integer [n]: a product of numbers, a repetition of a
    string or of a list. *)
Definition int_mul (n : Z) (x : value) : outcome value :=
  match x with
  | VInt z => Return (VInt (n * z))
  | VBool b => Return (VInt (n * Z_of_bool b))
  | VFloat f =>
      match int_to_float n with
      | Return g => Return (VFloat (g * f))
      | Raise e => Raise e
      end
  | VStr s => Return (VStr (String.concat "" (repeat s (Z.to_nat n))))
  | VList l => Return (VList (List.concat (repeat l (Z.to_nat n))))
  | _ => Raise TypeError
  end.

(** The ASCII instance of [str.upper]: Python's on ASCII text. *)
Definition ascii_upper (c : ascii) : ascii :=
  let n := nat_of_ascii c in
  if ((97 <=? n) && (n <=? 122))%nat then ascii_of_nat (n - 32) else c.

Fixpoint string_upper (s : string) : string :=
  match s with
  | EmptyString => EmptyString
  | String c s' => String (ascii_upper c) (string_upper s')
  end.

(** *** Computations

    [M S A]: a computation over the mutable state [S] that returns an [A]
    or raises. *)
Definition M (S A : Type) : Type := S -> outcome A * S.

Definition ret {S A : Type} (a : A) : M S A := fun s => (Return a, s).

Definition raise {S A : Type} (e : exn) : M S A := fun s => (Raise e, s).

Definition bind {S A B : Type} (m : M S A) (k : A -> M S B) : M S B :=
  fun s => match m s with
           | (Return a, s') => k a s'
           | (Raise e, s') => (Raise e, s')
           end.

(** The value or exception of a computation that touches no state. *)
Definition lift {S A : Type} (o : outcome A) : M S A := fun s => (o, s).

(** [try: body  except Exception: handler] *)
Definition try_except {S A : Type} (body : M S A) (handler : exn -> M S A)
  : M S A :=
  fun s => match body s with
           | (Return a, s') => (Return a, s')
           | (Raise e, s') => handler e s'
           end.

(** A loop that threads an accumulator through the elements of a list. *)
Fixpoint for_each {S A B : Type} (f : B -> A -> M S B) (l : list A) (acc : B)
  : M S B :=
  match l with
  | [] => ret acc
  | x :: l' => bind (f acc x) (for_each f l')
  end.

End Py.

Declare Scope py_scope.
Delimit Scope py_scope with py.
Notation "x <- m ;; k" := (Py.bind m (fun x => k))
  (at level 61, m at next level, right associativity) : py_scope.
Notation "' p <- m ;; k" := (Py.bind m (fun x => match x with p => k end))
  (at level 61, p pattern, m at next level, right associativity) : py_scope.
Notation "m ;; k" := (Py.bind m (fun _ => k))
  (at level 61, right associativity) : py_scope.
Open Scope py_scope.

(** ** AlexaSmartHome.py *)
Module AlexaSmartHome.
Import Py.

(** *** Capabilities: [AlexaInterface] and its subclasses *)

Inductive interface_class : Type :=
| AlexaInterface
| AlexaPowerController
| AlexaLockController
| AlexaSceneController
| AlexaBrightnessController
| AlexaColorController
| AlexaColorTemperatureController
| AlexaPercentageController
| AlexaSpeaker
| AlexaStepSpeaker
| AlexaPlaybackController
| AlexaInputController
| AlexaTemperatureSensor
| AlexaThermostatController
| AlexaContactSensor.

(** The registry [INTERFACES], filled by the [@INTERFACES.register]
    decorators. *)
Definition INTERFACES : list (string * interface_class) :=
  [ ("Alexa.PowerController", AlexaPowerController);
    ("Alexa.LockController", AlexaLockController);
    ("Alexa.SceneController", AlexaSceneController);
    ("Alexa.BrightnessController", AlexaBrightnessController);
    ("Alexa.ColorController", AlexaColorController);
    ("Alexa.ColorTemperatureController", AlexaColorTemperatureController);
    ("Alexa.PercentageController", AlexaPercentageController);
    ("Alexa.Speaker", AlexaSpeaker);
    ("Alexa.StepSpeaker", AlexaStepSpeaker);
    ("Alexa.PlaybackController", AlexaPlaybackController);
    ("Alexa.InputController", AlexaInputController);
    ("Alexa.TemperatureSensor", AlexaTemperatureSensor);
    ("Alexa.ThermostatController", AlexaThermostatController);
    ("Alexa.ContactSensor", AlexaContactSensor) ].

(** An instance: its class and the fields [__init__] sets.  The owning
    endpoint ([_endpoint]) is the endpoint whose capability list holds the
    instance; the functions below take it as an argument. *)
Record interface : Type := {
  class_ : interface_class;
  _name : string;
  _properties : list value;
  _proactivelyReported : bool;
  _retrievable : bool;
  _modesSupported : value;
  _deactivationSupported : value
}.

(** [cls(endpoint)] with the defaults of [AlexaInterface.__init__]. *)
Definition new (c : interface_class) : interface :=
  {| class_ := c;
     _name := "Alexa";
     _properties := [];
     _proactivelyReported := true;
     _retrievable := true;
     _modesSupported := VNone;
     _deactivationSupported := VNone |}.

Definition name (i : interface) : string :=
  match class_ i with
  | AlexaInterface => _name i
  | AlexaPowerController => "Alexa.PowerController"
  | AlexaLockController => "Alexa.LockController"
  | AlexaSceneController => "Alexa.SceneController"
  | AlexaBrightnessController => "Alexa.BrightnessController"
  | AlexaColorController => "Alexa.ColorController"
  | AlexaColorTemperatureController => "Alexa.ColorTemperatureController"
  | AlexaPercentageController => "Alexa.PercentageController"
  | AlexaSpeaker => "Alexa.Speaker"
  | AlexaStepSpeaker => "Alexa.StepSpeaker"
  | AlexaPlaybackController => "Alexa.PlaybackController"
  | AlexaInputController => "Alexa.InputController"
  | AlexaTemperatureSensor => "Alexa.TemperatureSensor"
  | AlexaThermostatController => "Alexa.ThermostatController"
  | AlexaContactSensor => "Alexa.ContactSensor"
  end.

Definition version (i : interface) : string := "3".

Definition prop (n : string) : value := VDict [("name", VStr n)].

Definition propertiesSupported (i : interface) : list value :=
  match class_ i with
  | AlexaPowerController => [prop "powerState"]
  | AlexaLockController => [prop "lockState"]
  | AlexaBrightnessController => [prop "brightness"]
  | AlexaColorController => [prop "color"]
  | AlexaColorTemperatureController => [prop "colorTemperatureInKelvin"]
  | AlexaPercentageController => [prop "percentage"]
  | AlexaTemperatureSensor => [prop "temperature"]
  | AlexaThermostatController => [prop "targetSetpoint"; prop "thermostatMode"]
  | AlexaContactSensor => [prop "detectionState"]
  | _ => _properties i
  end.

Definition propertiesProactivelyReported (i : interface) : bool :=
  _proactivelyReported i.

Definition propertiesRetrievable (i : interface) : bool := _retrievable i.

Definition supportsDeactivation (i : interface) : value :=
  _deactivationSupported i.

Definition supportScheduling (i : interface) : bool := false.

Definition modesSupported (i : interface) : value := _modesSupported i.

Definition setModesSupported (i : interface) (modes : value) : interface :=
  {| class_ := class_ i;
     _name := _name i;
     _properties := _properties i;
     _proactivelyReported := _proactivelyReported i;
     _retrievable := _retrievable i;
     _modesSupported := modes;
     _deactivationSupported := _deactivationSupported i |}.

Definition is_None (v : value) : bool :=
  match v with VNone => true | _ => false end.

Definition configuration (i : interface) : value :=
  match class_ i with
  | AlexaThermostatController =>
      if is_None (modesSupported i) then VNone
      else VDict [("supportsScheduling", VBool (supportScheduling i));
                  ("supportedModes", modesSupported i)]
  | _ => VNone
  end.

Definition serializeDiscovery (i : interface) : value :=
  match class_ i with
  | AlexaSceneController =>
      VDict [("type", VStr "AlexaInterface");
             ("interface", VStr (name i));
             ("version", VStr (version i));
             ("supportsDeactivation", supportsDeactivation i)]
  | _ =>
      let result := [("type", VStr "AlexaInterface");
                     ("interface", VStr (name i));
                     ("version", VStr (version i))] in
      let props := propertiesSupported i in
      let result :=
        if truthy (VList props)
        then dict_set "properties"
               (VDict [("supported", VList props);
                       ("proactivelyReported",
                        VBool (propertiesProactivelyReported i));
                       ("retrievable", VBool (propertiesRetrievable i))])
               result
        else result in
      let result :=
        if is_None (configuration i) then result
        else dict_set "configuration" (configuration i) result in
      VDict result
  end.

(** *** Endpoints: [AlexaEndpoint] *)

Record AlexaEndpoint : Type := {
  _endpointId : value;
  _friendlyName : value;
  _description : value;
  _manufacturerName : value;
  _capabilities : list interface;
  _displayCategories : list value;
  _cookies : dict
}.

(** [AlexaEndpoint.__init__]: every endpoint starts with the identity
    capability [AlexaInterface(self)]. *)
Definition init (endpointId friendlyName description manufacturerName : value)
  : AlexaEndpoint :=
  {| _endpointId := endpointId;
     _friendlyName := friendlyName;
     _description := description;
     _manufacturerName := manufacturerName;
     _capabilities := [new AlexaInterface];
     _displayCategories := [];
     _cookies := [] |}.

Definition endpointId := _endpointId.
Definition friendlyName := _friendlyName.
Definition description := _description.
Definition manufacturerName := _manufacturerName.
Definition displayCategories := _displayCategories.
Definition capabilities := _capabilities.
Definition cookies := _cookies.

Definition addDisplayCategories (category : value) (e : AlexaEndpoint)
  : AlexaEndpoint :=
  {| _endpointId := _endpointId e;
     _friendlyName := _friendlyName e;
     _description := _description e;
     _manufacturerName := _manufacturerName e;
     _capabilities := _capabilities e;
     _displayCategories := _displayCategories e ++ [category];
     _cookies := _cookies e |}.

Definition addCapability (i : interface) (e : AlexaEndpoint) : AlexaEndpoint :=
  {| _endpointId := _endpointId e;
     _friendlyName := _friendlyName e;
     _description := _description e;
     _manufacturerName := _manufacturerName e;
     _capabilities := _capabilities e ++ [i];
     _displayCategories := _displayCategories e;
     _cookies := _cookies e |}.

Definition addCookie (d : dict) (e : AlexaEndpoint) : AlexaEndpoint :=
  {| _endpointId := _endpointId e;
     _friendlyName := _friendlyName e;
     _description := _description e;
     _manufacturerName := _manufacturerName e;
     _capabilities := _capabilities e;
     _displayCategories := _displayCategories e;
     _cookies := fold_left (fun c kv => dict_set (fst kv) (snd kv) c)
                   d (_cookies e) |}.

(** *** The backend adapter the router is handed

    The router is written against any [handler] object with [getEndpoint]
    and [getEndpoints], whose endpoints extend [AlexaEndpoint]: [H] is the
    handler's state and [E] its endpoint objects. *)

(** A method call on an endpoint, with its arguments. *)
Inductive command : Type :=
| turnOn
| turnOff
| setBrightness (brightness : value)
| setColor (h s b : float)
| setColorTemperature (kelvin : Z)
| setPercentage (percentage : Z)
| lock
| unlock
| setTargetSetPoint (temp : float)
| setThermostatMode (mode : value)
| activate
| deactivate.

Definition method_name (c : command) : string :=
  match c with
  | turnOn => "turnOn"
  | turnOff => "turnOff"
  | setBrightness _ => "setBrightness"
  | setColor _ _ _ => "setColor"
  | setColorTemperature _ => "setColorTemperature"
  | setPercentage _ => "setPercentage"
  | lock => "lock"
  | unlock => "unlock"
  | setTargetSetPoint _ => "setTargetSetPoint"
  | setThermostatMode _ => "setThermostatMode"
  | activate => "activate"
  | deactivate => "deactivate"
  end.

Class Adapter (H E : Type) : Type := {
  (** the [AlexaEndpoint] part of an endpoint object *)
  alexa : E -> AlexaEndpoint;
  (** [handler.getEndpoint(request)]; [None] is Python's [None] *)
  getEndpoint : value -> M H (option E);
  (** [handler.getEndpoints()] *)
  getEndpoints : M H (list E);
  (** [endpoint.getProperty(name)] *)
  getProperty : value -> E -> M H (value * E);
  (** [endpoint.getDevice()] *)
  getDevice : E -> M H (value * E);
  (** [endpoint.<method>(<arguments>)]; its result is not looked at *)
  perform : command -> E -> M H E;
  (** [hasattr(endpoint, name)] *)
  hasattr : E -> string -> bool
}.

(** What a directive runs against: the handler, the calls made on endpoint
    objects so far (a record kept for the statements below; the program
    keeps none), and how many identifiers and clock readings were drawn. *)
Record session (H : Type) : Type := {
  handler : H;
  journal : list (value * command);
  uuids : nat;
  ticks : nat
}.

Section Core.
Context (py : Python) {H E : Type} {adapter : Adapter H E}.

Definition set_handler (h : H) (s : session H) : session H :=
  {| handler := h; journal := journal s; uuids := uuids s; ticks := ticks s |}.

Definition drawn (s : session H) : session H :=
  {| handler := handler s; journal := journal s;
     uuids := S (uuids s); ticks := ticks s |}.

Definition ticked (s : session H) : session H :=
  {| handler := handler s; journal := journal s;
     uuids := uuids s; ticks := S (ticks s) |}.

Definition noted (e : E) (c : command) (s : session H) : session H :=
  {| handler := handler s;
     journal := journal s ++ [(endpointId (alexa e), c)];
     uuids := uuids s; ticks := ticks s |}.

(** A method of the handler or of an endpoint, run on the session's
    handler. *)
Definition on_handler {A : Type} (m : M H A) : M (session H) A :=
  fun s => let (r, h) := m (handler s) in (r, set_handler h s).

(** [str(uuid4())] *)
Definition new_uuid : M (session H) string :=
  fun s => (Return (uuid4 py (uuids s)), drawn s).

(** [datetime.utcnow().replace(microsecond=0).isoformat() + "Z"] *)
Definition timestamp : M (session H) string :=
  fun s => (Return (String.append (utcnow py (ticks s)) "Z"), ticked s).

Definition note (e : E) (c : command) : M (session H) unit :=
  fun s => (Return tt, noted e c s).

(** [endpoint.<method>(...)] on what [getEndpoint] returned. *)
Definition call (endpoint : option E) (c : command) : M (session H) E :=
  match endpoint with
  | None => raise (AttributeError (method_name c))
  | Some e => note e c ;; on_handler (perform c e)
  end.

(** *** State serialization *)

Definition reading (prop_name : value) (namespace : string) (v : value)
    (timeOfSample : string) : value :=
  VDict [("name", prop_name);
         ("namespace", VStr namespace);
         ("value", v);
         ("timeOfSample", VStr timeOfSample);
         ("uncertaintyInMilliseconds", VInt 0)].

(** [AlexaInterface.serializeProperties], collected into a list; the
    endpoint is the one the capability belongs to. *)
Definition serializeProperties (i : interface) (e : E)
  : M (session H) (list value * E) :=
  for_each
    (fun (acc : list value * E) (prop : value) =>
       prop_name <- lift (subscript prop "name") ;;
       ' (prop_value, e') <- on_handler (getProperty prop_name (snd acc)) ;;
       if is_None prop_value then ret (fst acc, e')
       else t <- timestamp ;;
            ret (fst acc ++ [reading prop_name (name i) prop_value t], e'))
    (propertiesSupported i) ([], e).

(** *** Envelopes *)

Definition header_field (request : value) (k : string) : M (session H) value :=
  h <- lift (subscript request "header") ;;
  lift (subscript h k).

(** The arguments every log call evaluates:
    [request[API_HEADER]['namespace']] and [request[API_HEADER]['name']]. *)
Definition log_request (request : value) : M (session H) unit :=
  header_field request "namespace" ;;
  header_field request "name" ;;
  ret tt.

Definition api_message (request : value) (name namespace : string)
    (payload context : value) : M (session H) value :=
  let payload := or_else payload (VDict []) in
  messageId <- new_uuid ;;
  let header := [("namespace", VStr namespace);
                 ("name", VStr name);
                 ("messageId", VStr messageId);
                 ("payloadVersion", VStr "3")] in
  h <- lift (subscript request "header") ;;
  token <- lift (get h "correlationToken" VNone) ;;
  let header := if truthy token then dict_set "correlationToken" token header
                else header in
  let event := [("header", VDict header); ("payload", payload)] in
  has_endpoint <- lift (contains "endpoint" request) ;;
  event <- (if has_endpoint : bool
            then e <- lift (subscript request "endpoint") ;;
                 c <- lift (copy e) ;;
                 ret (dict_set "endpoint" c event)
            else ret event) ;;
  let response := [("event", VDict event)] in
  ret (VDict (if is_None context then response
              else dict_set "context" context response)).

Definition api_error (request : value) (namespace error_type error_message :
    string) (payload : value) : M (session H) value :=
  payload <- lift (match or_else payload (VDict []) with
                   | VDict d =>
                       Return (dict_set "message" (VStr error_message)
                                 (dict_set "type" (VStr error_type) d))
                   | _ => Raise TypeError
                   end) ;;
  log_request request ;;
  api_message request "ErrorResponse" namespace (VDict payload) VNone.

Definition properties (l : list value) : value :=
  VDict [("properties", VList l)].

(** *** Handler groups: the classes nested in [Alexa] *)

Definition endpoint_of (request : value) : M (session H) (option E) :=
  on_handler (getEndpoint request).

Definition discovery_endpoint (e : AlexaEndpoint) : dict :=
  [("endpointId", endpointId e);
   ("friendlyName", friendlyName e);
   ("description", description e);
   ("manufacturerName", manufacturerName e);
   ("displayCategories", VList (displayCategories e));
   ("additionalApplianceDetails", VDict [])].

(** The body of the loop of [Discover] for one endpoint: its entry, or
    nothing when the list of its serialized capabilities is empty. *)
Definition exposed (e : AlexaEndpoint) : list value :=
  let caps := VList (map serializeDiscovery (capabilities e)) in
  if negb (truthy caps) then []
  else [VDict (dict_set "capabilities" caps (discovery_endpoint e))].

Definition Discover (request : value) : M (session H) value :=
  endpoints <- on_handler getEndpoints ;;
  let discovery_endpoints :=
    flat_map (fun endpoint : E => exposed (alexa endpoint)) endpoints in
  log_request request ;;
  api_message request "Discover.Response" "Alexa.Discovery"
    (VDict [("endpoints", VList discovery_endpoints)]) VNone.

Definition TurnOn (request : value) : M (session H) value :=
  log_request request ;;
  endpoint <- endpoint_of request ;;
  call endpoint turnOn ;;
  t <- timestamp ;;
  api_message request "Response" "Alexa" VNone
    (properties [reading (VStr "powerState") "Alexa.PowerController"
                   (VStr "ON") t]).

Definition TurnOff (request : value) : M (session H) value :=
  log_request request ;;
  endpoint <- endpoint_of request ;;
  call endpoint turnOff ;;
  t <- timestamp ;;
  api_message request "Response" "Alexa" VNone
    (properties [reading (VStr "powerState") "Alexa.PowerController"
                   (VStr "OFF") t]).

Definition setbrightness (request : value) (endpoint : option E)
    (brightness : value) : M (session H) value :=
  call endpoint (setBrightness brightness) ;;
  t <- timestamp ;;
  api_message request "Response" "Alexa" VNone
    (properties [reading (VStr "brightness") "Alexa.BrightnessController"
                   brightness t]).

Definition payload_field (request : value) (k : string) : M (session H) value :=
  p <- lift (subscript request "payload") ;;
  lift (subscript p k).

Definition SetBrightness (request : value) : M (session H) value :=
  b <- payload_field request "brightness" ;;
  brightness <- lift (int py b) ;;
  log_request request ;;
  endpoint <- endpoint_of request ;;
  setbrightness request endpoint (VInt brightness).

Definition AdjustBrightness (request : value) : M (session H) value :=
  d <- payload_field request "brightnessDelta" ;;
  brightness_delta <- lift (int py d) ;;
  log_request request ;;
  endpoint <- endpoint_of request ;;
  ' (current, endpoint) <-
      match endpoint with
      | None => raise (AttributeError "getProperty")
      | Some e => ' (v, e') <- on_handler (getProperty (VStr "brightness") e) ;;
                  ret (v, Some e')
      end ;;
  let current_brightness := or_else current (VInt 50) in
  brightness <- lift (add_int current_brightness brightness_delta) ;;
  setbrightness request endpoint brightness.

Definition color_field (request : value) (k : string) : M (session H) float :=
  c <- payload_field request "color" ;;
  x <- lift (subscript c k) ;;
  lift (float_ py x).

Definition SetColor (request : value) : M (session H) value :=
  h <- color_field request "hue" ;;
  s <- color_field request "saturation" ;;
  b <- color_field request "brightness" ;;
  log_request request ;;
  endpoint <- endpoint_of request ;;
  call endpoint (setColor h s b) ;;
  color <- payload_field request "color" ;;
  t <- timestamp ;;
  api_message request "Response" "Alexa" VNone
    (properties [reading (VStr "color") "Alexa.ColorController" color t]).

Definition SetColorTemperature (request : value) : M (session H) value :=
  k <- payload_field request "colorTemperatureInKelvin" ;;
  kelvin <- lift (int py k) ;;
  log_request request ;;
  endpoint <- endpoint_of request ;;
  call endpoint (setColorTemperature kelvin) ;;
  t <- timestamp ;;
  api_message request "Response" "Alexa" VNone
    (properties [reading (VStr "colorTemperatureInKelvin")
                   "Alexa.ColorTemperatureController" (VInt kelvin) t]).

Definition scene_payload (t : string) : value :=
  VDict [("cause", VDict [("type", VStr "VOICE_INTERACTION")]);
         ("timestamp", VStr t)].

Definition Activate (request : value) : M (session H) value :=
  t <- timestamp ;;
  log_request request ;;
  endpoint <- endpoint_of request ;;
  call endpoint activate ;;
  api_message request "ActivationStarted" "Alexa.SceneController"
    (scene_payload t) VNone.

Definition Deactivate (request : value) : M (session H) value :=
  t <- timestamp ;;
  log_request request ;;
  endpoint <- endpoint_of request ;;
  call endpoint deactivate ;;
  api_message request "DeactivationStarted" "Alexa.SceneController"
    (scene_payload t) VNone.

Definition clamp (percentage : Z) : Z :=
  if percentage <? 0 then 0
  else if percentage >? 100 then 100
  else percentage.

Definition SetPercentage (request : value) : M (session H) value :=
  p <- payload_field request "percentage" ;;
  percentage <- lift (int py p) ;;
  log_request request ;;
  endpoint <- endpoint_of request ;;
  let percentage := clamp percentage in
  call endpoint (setPercentage percentage) ;;
  t <- timestamp ;;
  api_message request "Response" "Alexa" VNone
    (properties [reading (VStr "percentage") "Alexa.PercentageController"
                   (VInt percentage) t]).

(** [if hasattr(endpoint, m): endpoint.m()] *)
Definition call_if_present (endpoint : option E) (c : command) : M (session H) unit :=
  match endpoint with
  | Some e => if hasattr e (method_name c) then call endpoint c ;; ret tt
              else ret tt
  | None => ret tt
  end.

Definition Lock (request : value) : M (session H) value :=
  endpoint <- endpoint_of request ;;
  call_if_present endpoint lock ;;
  t <- timestamp ;;
  log_request request ;;
  api_message request "Response" "Alexa" VNone
    (properties [reading (VStr "lockState") "Alexa.LockController"
                   (VStr "LOCKED") t]).

Definition Unlock (request : value) : M (session H) value :=
  endpoint <- endpoint_of request ;;
  call_if_present endpoint unlock ;;
  t <- timestamp ;;
  log_request request ;;
  api_message request "Response" "Alexa" VNone
    (properties [reading (VStr "lockState") "Alexa.LockController"
                   (VStr "UNLOCKED") t]).

Definition temperature_from_object (temp_obj : value) : outcome float :=
  match subscript temp_obj "value" with
  | Raise e => Raise e
  | Return v =>
      match float_ py v with
      | Raise e => Raise e
      | Return temp =>
          match subscript temp_obj "scale" with
          | Raise e => Raise e
          | Return scale =>
              if eq_str scale "FAHRENHEIT"
              then Return ((temp - 32.0) / 1.8)%float
              else if eq_str scale "KELVIN"
              then Return (temp - 273.15)%float
              else Return temp
          end
      end
  end.

Definition SetTargetTemperature (request : value) : M (session H) value :=
  let tempScale := "CELSIUS" in
  payload <- lift (subscript request "payload") ;;
  endpoint <- endpoint_of request ;;
  has_setpoint <- lift (contains "targetSetpoint" payload) ;;
  if has_setpoint : bool
  then o <- lift (subscript payload "targetSetpoint") ;;
       temp <- lift (temperature_from_object o) ;;
       log_request request ;;
       call endpoint (setTargetSetPoint temp) ;;
       t <- timestamp ;;
       api_message request "Response" "Alexa" VNone
         (properties [reading (VStr "targetSetpoint")
                        "Alexa.ThermostatController"
                        (VDict [("value", VFloat temp);
                                ("scale", VStr tempScale)]) t])
  else raise (NameError "temp").

Definition SetThermostatMode (request : value) : M (session H) value :=
  mode <- payload_field request "thermostatMode" ;;
  mode <- match mode with
          | VStr _ => ret mode
          | _ => lift (subscript mode "value")
          end ;;
  log_request request ;;
  endpoint <- endpoint_of request ;;
  call endpoint (setThermostatMode mode) ;;
  t <- timestamp ;;
  api_message request "Response" "Alexa" VNone
    (properties [reading (VStr "thermostatMode") "Alexa.ThermostatController"
                   mode t]).

(** The loop of [ReportState] over [endpoint.capabilities()]. *)
Definition report (e : E) : M (session H) (list value * E) :=
  for_each
    (fun (acc : list value * E) (i : interface) =>
       ' (l, e') <- serializeProperties i (snd acc) ;;
       ret (fst acc ++ l, e'))
    (capabilities (alexa e)) ([], e).

Definition unreachable (request : value) : M (session H) value :=
  r <- lift (subscript request "endpoint") ;;
  lift (subscript r "endpointId") ;;
  api_error request "Alexa" "ENDPOINT_UNREACHABLE"
    "Could not connect to Domoticz" VNone.

Definition ReportState (request : value) : M (session H) value :=
  endpoint <- endpoint_of request ;;
  match endpoint with
  | None => unreachable request
  | Some e =>
      ' (device, e) <- on_handler (getDevice e) ;;
      if is_None device then unreachable request
      else ' (l, _) <- report e ;;
           log_request request ;;
           api_message request "StateReport" "Alexa" VNone (properties l)
  end.

(** *** The router: [invoke], [AlexaSmartHomeCall.invoke], [handle_message] *)

(** The classes nested in [Alexa]. *)
Inductive group : Type :=
| Alexa_Discovery
| Alexa_PowerController
| Alexa_BrightnessController
| Alexa_ColorController
| Alexa_ColorTemperatureController
| Alexa_SceneController
| Alexa_PercentageController
| Alexa_LockController
| Alexa_ThermostatController
| Alexa_ReportState.

Definition groups : list (string * group) :=
  [ ("Discovery", Alexa_Discovery);
    ("PowerController", Alexa_PowerController);
    ("BrightnessController", Alexa_BrightnessController);
    ("ColorController", Alexa_ColorController);
    ("ColorTemperatureController", Alexa_ColorTemperatureController);
    ("SceneController", Alexa_SceneController);
    ("PercentageController", Alexa_PercentageController);
    ("LockController", Alexa_LockController);
    ("ThermostatController", Alexa_ThermostatController);
    ("ReportState", Alexa_ReportState) ].

(** The directive handlers each class defines: methods of one argument
    (besides [self]), the request. *)
Definition operations (g : group)
  : list (string * (value -> M (session H) value)) :=
  match g with
  | Alexa_Discovery => [("Discover", Discover)]
  | Alexa_PowerController => [("TurnOn", TurnOn); ("TurnOff", TurnOff)]
  | Alexa_BrightnessController =>
      [("SetBrightness", SetBrightness); ("AdjustBrightness", AdjustBrightness)]
  | Alexa_ColorController => [("SetColor", SetColor)]
  | Alexa_ColorTemperatureController =>
      [("SetColorTemperature", SetColorTemperature)]
  | Alexa_SceneController => [("Activate", Activate); ("Deactivate", Deactivate)]
  | Alexa_PercentageController => [("SetPercentage", SetPercentage)]
  | Alexa_LockController => [("Lock", Lock); ("Unlock", Unlock)]
  | Alexa_ThermostatController =>
      [("SetTargetTemperature", SetTargetTemperature);
       ("SetThermostatMode", SetThermostatMode)]
  | Alexa_ReportState => [("ReportState", ReportState)]
  end.

(** The other methods of a class, which take more than the request:
    [__init__(self, namespace, name, handler)] and
    [invoke(self, name, request)] of [AlexaSmartHomeCall], and
    [setbrightness(self, request, endpoint, brightness)]. *)
Definition helpers (g : group) : list string :=
  match g with
  | Alexa_BrightnessController => ["__init__"; "invoke"; "setbrightness"]
  | _ => ["__init__"; "invoke"]
  end.

(** The fields [AlexaSmartHomeCall.__init__] sets. *)
Definition fields : list string := ["namespace"; "name"; "handler"].

Fixpoint lookup {A : Type} (k : string) (l : list (string * A)) : option A :=
  match l with
  | [] => None
  | (k', a) :: l' => if String.eqb k k' then Some a else lookup k l'
  end.

Definition mem (k : string) (l : list string) : bool :=
  existsb (String.eqb k) l.

(** Names with two leading underscores: the attributes the interpreter
    itself gives objects ([__class__], [__eq__], ...). *)
Definition dunder (a : string) : bool := String.prefix "__" a.

(** *** Attribute lookup by dotted path

    [operator.attrgetter(path)(obj)] is [getattr] along the segments of
    [path].  The classes, methods and fields of this program are what the
    source says they are.  The objects on the way also have attributes of
    the interpreter's making, and the handler object and the strings have
    classes of their own; which of those exist, and what calling one does,
    is not this program's to say: that is the [Reflection] below. *)

(** The kinds of object a path passes. *)
Inductive place : Type :=
| a_class            (* [allowed], [Alexa], a handler group *)
| an_instance        (* an instance of a handler group *)
| a_function         (* a method taken from its class *)
| a_bound_method     (* a method taken from an instance *)
| a_method_wrapper   (* the [__call__] of something callable *)
| a_string           (* the fields [namespace] and [name] *)
| the_handler.       (* the field [handler] *)

(** The names that can be an attribute from outside the program at a
    place: the double-underscore names anywhere, [mro] on a class, any
    name on a string or on the handler object. *)
Definition interpreter_name (p : place) (a : string) : bool :=
  dunder a
  || match p with
     | a_class => String.eqb a "mro"
     | a_string | the_handler => true
     | _ => false
     end.

(** What the interpreter and the handler's class contribute to dispatch:
    [defines p a] tells whether objects at [p] have the attribute [a]
    (where [interpreter_name p a] holds; [getattr] raises [AttributeError]
    otherwise), and for a path through such an attribute,
    [foreign_member g namespace name request] stands for
    [operator.attrgetter(name)(self)(request)] and
    [foreign_target namespace name request] for
    [make_class(allowed)(namespace, name, handler).invoke(name, request)]. *)
Record Reflection : Type := {
  defines : place -> string -> bool;
  foreign_member : group -> string -> string -> value -> M (session H) value;
  foreign_target : string -> value -> value -> M (session H) value
}.

Variable reflection : Reflection.

Definition foreign (p : place) (a : string) : bool :=
  interpreter_name p a && defines reflection p a.

(** [operator.attrgetter(name)(self)] for an instance of a handler group,
    by the dotted path of [name]: a directive handler of the class
    ([Method]: calling it runs the handler); an attribute of the program
    that cannot be called with the request alone, a helper method, a
    string field, a handler object that is not callable ([Unfit]: the call
    raises [TypeError]); no such attribute ([Missing]: [AttributeError]);
    or a path through an attribute the interpreter or the handler's class
    defines ([Foreign]). *)
Inductive member : Type :=
| Method (f : value -> M (session H) value)
| Unfit
| Missing (attr : string)
| Foreign.

(** The rest of a path below a method: [m.__call__] is a callable that
    calls [m], so the call does what calling [m] does; any other attribute
    is the interpreter's, or missing. *)
Fixpoint below (p : place) (m : member) (rest : list string) : member :=
  match rest with
  | [] => m
  | b :: rest' =>
      if String.eqb b "__call__" then below a_method_wrapper m rest'
      else if foreign p b then Foreign
      else Missing b
  end.

Definition member_of (g : group) (path : list string) : member :=
  match path with
  | [] => Missing ""
  | a :: rest =>
      match lookup a (operations g) with
      | Some f => below a_bound_method (Method f) rest
      | None =>
          if mem a (helpers g) then below a_bound_method Unfit rest
          else if String.eqb a "handler" then
            match rest with
            | [] => if foreign the_handler "__call__" then Foreign else Unfit
            | b :: _ => if foreign the_handler b then Foreign else Missing b
            end
          else if mem a fields then
            match rest with
            | [] => Unfit
            | b :: _ => if foreign a_string b then Foreign else Missing b
            end
          else if foreign an_instance a then Foreign
          else Missing a
      end
  end.

(** [operator.attrgetter(namespace)(allowed)], by the dotted path of
    [namespace]: a class nested in [Alexa], which is then instantiated
    ([Group]); something whose call with [(namespace, name, handler)]
    raises [TypeError], as the class [Alexa], which takes no arguments, or
    a directive handler taken from its class, which takes two
    ([NoArguments]); no such attribute, or a call that fails on one
    ([NoAttribute]: [AttributeError]); a path through an attribute the
    interpreter defines ([ForeignTarget]); or the method [invoke] taken
    from the class of a group ([Unbound]), which the call runs with the
    namespace string for [self] and the handler object for [request]. *)
Inductive target : Type :=
| Group (g : group)
| NoArguments
| NoAttribute (attr : string)
| ForeignTarget
| Unbound.

(** The rest of a path below a class or a function whose call does [t]:
    [__call__] calls the same. *)
Fixpoint beneath (p : place) (t : target) (rest : list string) : target :=
  match rest with
  | [] => t
  | b :: rest' =>
      if String.eqb b "__call__" then beneath a_method_wrapper t rest'
      else if foreign p b then ForeignTarget
      else NoAttribute b
  end.

(** A method [c] taken from the class of the group [g] is a plain
    function, called with [(namespace, name, handler)]: a directive
    handler has two parameters, and [__init__] and [setbrightness] four,
    so the call raises [TypeError]; [invoke] has three. *)
Definition function_target (g : group) (c : string) : option target :=
  if mem c (map fst (operations g)) then Some NoArguments
  else if mem c (helpers g)
  then Some (if String.eqb c "invoke" then Unbound else NoArguments)
  else None.

(** The first segment of [name] is an attribute of strings: what
    [AlexaSmartHomeCall.invoke] finds when it runs on the namespace
    string. *)
Definition string_attribute (name : value) : bool :=
  match name with
  | VStr n =>
      match split "." n with
      | a :: _ => foreign a_string a
      | [] => false
      end
  | _ => false
  end.

Definition target_of (path : list string) : target :=
  match path with
  | [] => NoAttribute ""
  | a :: rest =>
      if String.eqb a "Alexa"
      then match rest with
           | [] => NoArguments
           | b :: rest' =>
               match lookup b groups with
               | Some g =>
                   match rest' with
                   | [] => Group g
                   | c :: rest'' =>
                       match function_target g c with
                       | Some t => beneath a_function t rest''
                       | None => beneath a_class (Group g) rest'
                       end
                   end
               | None => beneath a_class NoArguments rest
               end
           end
      else beneath a_class NoArguments path
  end.

Definition internal_error_request : string :=
  "An unexpected error occurred while processing your request.".

Definition internal_error_directive : string :=
  "An unexpected error occurred while processing your directive.".

(** [AlexaSmartHomeCall.invoke] on the instance
    [group(namespace, name, handler)]. *)
Definition call_invoke (g : group) (namespace : string) (name request : value)
  : M (session H) value :=
  try_except
    (match name with
     | VStr n =>
         match member_of g (split "." n) with
         | Method f => f request
         | Unfit => raise TypeError
         | Missing a => raise (AttributeError a)
         | Foreign => foreign_member reflection g namespace n request
         end
     | _ => raise TypeError
     end)
    (fun _ => api_error request "Alexa" "INTERNAL_ERROR"
                internal_error_request VNone).

Definition invoke (namespace name request : value) : M (session H) value :=
  try_except
    (let namespace :=
       if eq_str namespace "Alexa" && eq_str name "ReportState"
       then VStr "Alexa.ReportState" else namespace in
     match namespace with
     | VStr ns =>
         match target_of (split "." ns) with
         | Group g => call_invoke g ns name request
         | NoArguments => raise TypeError
         | NoAttribute a => raise (AttributeError a)
         | ForeignTarget => foreign_target reflection ns name request
         | Unbound =>
             (* the lookup of [name] on the string fails, and the [except]
                clause of the method fails on [self.namespace] *)
             if string_attribute name
             then foreign_target reflection ns name request
             else raise (AttributeError "namespace")
         end
     | _ => raise TypeError
     end)
    (fun _ => api_error request "Alexa" "INTERNAL_ERROR"
                internal_error_directive VNone).

(** [handle_message(handler, message)]; the handler is the session's. *)
Definition handle_message (message : value) : M (session H) value :=
  message <- lift (subscript message "directive") ;;
  namespace <- header_field message "namespace" ;;
  name <- header_field message "name" ;;
  invoke namespace name message.

End Core.

End AlexaSmartHome.

(** ** DomoticzHandler.py *)
Module DomoticzHandler.
Import Py AlexaSmartHome.

(** The subclasses of [DomoticzEndpoint]. *)
Inductive endpoint_class : Type :=
| SwitchLightEndpoint
| BlindEndpoint
| TemperatureSensorEndpoint
| ThermostatEndpoint
| SceneEndpoint.

(** The registry [ENDPOINT_ADAPTERS]. *)
Definition ENDPOINT_ADAPTERS : list (string * endpoint_class) :=
  [ ("SwitchLight", SwitchLightEndpoint);
    ("Blind", BlindEndpoint);
    ("TemperatureSensor", TemperatureSensorEndpoint);
    ("Thermostat", ThermostatEndpoint);
    ("Scene", SceneEndpoint) ].

(** An endpoint object: [idx] is absent until it is assigned, [has_handler]
    tells whether [self.handler] was set (the handler itself is the state
    the computation runs over), [_device] is [None] or the device record. *)
Record DomoticzEndpoint : Type := {
  class : endpoint_class;
  super : AlexaEndpoint;
  idx : option string;
  has_handler : bool;
  _device : value
}.

Definition with_super (f : AlexaEndpoint -> AlexaEndpoint)
    (e : DomoticzEndpoint) : DomoticzEndpoint :=
  {| class := class e; super := f (super e); idx := idx e;
     has_handler := has_handler e; _device := _device e |}.

Definition set_idx (i : string) (e : DomoticzEndpoint) : DomoticzEndpoint :=
  {| class := class e; super := super e; idx := Some i;
     has_handler := has_handler e; _device := _device e |}.

Definition setHandler (e : DomoticzEndpoint) : DomoticzEndpoint :=
  {| class := class e; super := super e; idx := idx e;
     has_handler := true; _device := _device e |}.

Definition set_device (d : value) (e : DomoticzEndpoint) : DomoticzEndpoint :=
  {| class := class e; super := super e; idx := idx e;
     has_handler := has_handler e; _device := d |}.

(** [cls(endpointId, friendlyName, description, manufacturerName)]: the
    [__init__] of each subclass on top of [DomoticzEndpoint.__init__]. *)
Definition construct (c : endpoint_class)
    (endpointId friendlyName description manufacturerName : value)
  : DomoticzEndpoint :=
  let e := {| class := c;
              super := init endpointId friendlyName description
                         manufacturerName;
              idx := None; has_handler := false; _device := VNone |} in
  match c with
  | SwitchLightEndpoint =>
      with_super (addCapability (new AlexaBrightnessController))
        (with_super (addCapability (new AlexaPowerController)) e)
  | BlindEndpoint =>
      with_super (addCapability (new AlexaPercentageController))
        (with_super (addCapability (new AlexaPowerController)) e)
  | TemperatureSensorEndpoint =>
      with_super (addDisplayCategories (VStr "TEMPERATURE_SENSOR"))
        (with_super (addCapability (new AlexaTemperatureSensor)) e)
  | ThermostatEndpoint =>
      let tc := {| class_ := AlexaThermostatController;
                   _name := "Alexa";
                   _properties := [prop "targetSetpoint"; prop "thermostatMode"];
                   _proactivelyReported := true;
                   _retrievable := true;
                   _modesSupported := VNone;
                   _deactivationSupported := VNone |} in
      let tc := setModesSupported tc
                  (VList [VStr "HEAT"; VStr "COOL"; VStr "AUTO"; VStr "OFF"]) in
      with_super (addDisplayCategories (VStr "THERMOSTAT"))
        (with_super (addCapability tc)
           (with_super (addCapability (new AlexaTemperatureSensor)) e))
  | SceneEndpoint =>
      with_super (addDisplayCategories (VStr "SCENE"))
        (with_super (addCapability (new AlexaSceneController)) e)
  end.

(** The requests [Domoticz.api] sends, by the command and the values its
    query string is formatted from. *)
Inductive query : Type :=
| getdevices_all
| getscenes
| getdevices_rid (rid : string)
| switchlight (idx cmd : string)
| switchlight_level (idx : string) (level : value)
| setcolbrightnessvalue_rgb (idx : string) (r g b : Z)
| setcolbrightnessvalue_temp (idx : string) (t : Z)
| setsetpoint (idx : string) (setpoint : float)
| switchscene (idx cmd : string).

(** The handler object: the device cache, whether
    [self.config and getattr(self.config, 'includeScenesGroups', False)]
    holds, and the requests sent so far. *)
Record Domoticz : Type := {
  devices : dict;
  includeScenesGroups : bool;
  sent : list query
}.

Definition set_devices (d : dict) : M Domoticz unit :=
  fun h => (Return tt, {| devices := d;
                          includeScenesGroups := includeScenesGroups h;
                          sent := sent h |}).

Definition the_devices : M Domoticz dict := fun h => (Return (devices h), h).

Section Handler.
Variable py : Python.

(** The Domoticz server: its parsed JSON answer to a request, given the
    requests sent before. *)
Variable server : list query -> query -> value.

(** [Domoticz.api]: the answer, or [{}] when the request fails; both are
    the server's to decide. *)
Definition api (q : query) : M Domoticz value :=
  fun h => (Return (server (sent h) q),
            {| devices := devices h;
               includeScenesGroups := includeScenesGroups h;
               sent := sent h ++ [q] |}).

(** [self.devices[str(d['idx'])] = d] for each [d] of [res.get('result', [])] *)
Definition cache_results (res : value) : M Domoticz unit :=
  result <- lift (get res "result" (VList [])) ;;
  l <- lift (iterate result) ;;
  for_each (fun (_ : unit) (d : value) =>
              i <- lift (subscript d "idx") ;;
              ds <- the_devices ;;
              set_devices (dict_set (str py i) d ds))
    l tt.

Definition loadDevices : M Domoticz unit :=
  res <- api getdevices_all ;;
  result <- lift (get res "result" (VList [])) ;;
  l <- lift (iterate result) ;;
  ds <- for_each (fun (acc : dict) (d : value) =>
                    i <- lift (subscript d "idx") ;;
                    ret (dict_set (str py i) d acc))
          l [] ;;
  set_devices ds ;;
  h <- (fun h => (Return h, h)) ;;
  if includeScenesGroups h
  then res <- api getscenes ;; cache_results res
  else ret tt.

Definition unpack2 (l : list string) : outcome (string * string) :=
  match l with
  | [a; b] => Return (a, b)
  | _ => Raise ValueError
  end.

Definition Domoticz_getEndpoint (request : value)
  : M Domoticz (option DomoticzEndpoint) :=
  r <- lift (subscript request "endpoint") ;;
  endpointId <- lift (subscript r "endpointId") ;;
  parts <- lift (match endpointId with
                 | VStr s => Return (split1 "-" s)
                 | _ => Raise (AttributeError "split")
                 end) ;;
  ' (prefix, i) <- lift (unpack2 parts) ;;
  match lookup prefix ENDPOINT_ADAPTERS with
  | None => raise (Exception (String.append "Unknown endpoint type " prefix))
  | Some cls =>
      r <- lift (subscript request "endpoint") ;;
      friendly <- lift (get r "friendlyName" (VStr "")) ;;
      let endpoint := construct cls endpointId friendly (VStr "")
                        (VStr "Domoticz") in
      let endpoint := setHandler (set_idx i endpoint) in
      ds <- the_devices ;;
      let device := match assoc i ds with Some d => d | None => VNone end in
      ret (Some (if truthy device then set_device device endpoint
                 else endpoint))
  end.

Definition Domoticz_getDevice (endpointId : value) : M Domoticz value :=
  parts <- lift (split_ endpointId "-") ;;
  i <- lift (item parts (-1)) ;;
  ds <- the_devices ;;
  match assoc i ds with
  | Some d => ret d
  | None =>
      prefix <- lift (item parts 0) ;;
      (if String.eqb prefix "Scene"
       then res <- api getscenes ;; cache_results res
       else res <- api (getdevices_rid i) ;;
            result <- lift (get res "result" VNone) ;;
            if truthy result
            then result <- lift (subscript res "result") ;;
                 d <- lift (first result) ;;
                 ds <- the_devices ;;
                 set_devices (dict_set i d ds)
            else ret tt) ;;
      ds <- the_devices ;;
      ret (match assoc i ds with Some d => d | None => VNone end)
  end.

(** [DomoticzEndpoint.getDevice] *)
Definition endpoint_getDevice (e : DomoticzEndpoint)
  : M Domoticz (value * DomoticzEndpoint) :=
  if negb (truthy (_device e)) && has_handler e
  then d <- Domoticz_getDevice (endpointId (super e)) ;;
       ret (d, set_device d e)
  else ret (_device e, e).

Definition startswith (x : value) (p : string) : outcome bool :=
  match x with
  | VStr s => Return (String.prefix p s)
  | _ => Raise (AttributeError "startswith")
  end.

(** The [try] block of the [thermostatMode] branch. *)
Definition mode_name (d : value) (names : list string) : outcome string :=
  match get d "Level" (VInt 0) with
  | Raise e => Raise e
  | Return level =>
      match get d "LevelInt" (VInt 10) with
      | Raise e => Raise e
      | Return step =>
          match truediv level step with
          | Raise e => Raise e
          | Return q =>
              match trunc q with
              | Raise e => Raise e
              | Return i =>
                  match item names i with
                  | Raise e => Raise e
                  | Return n => Return (upper py n)
                  end
              end
          end
      end
  end.

(** [DomoticzEndpoint.getProperty] *)
Definition endpoint_getProperty (name : value) (e : DomoticzEndpoint)
  : M Domoticz (value * DomoticzEndpoint) :=
  ' (d, e) <- endpoint_getDevice e ;;
  if negb (truthy d) then ret (VNone, e)
  else if eq_str name "powerState" then
    status <- lift (get d "Status" (VStr "Off")) ;;
    on <- (if eq_str status "On" || eq_str status "Open" then ret true
           else lift (startswith status "Set Level")) ;;
    ret (VStr (if on : bool then "ON" else "OFF"), e)
  else if eq_str name "color" then
    color_json <- lift (get d "Color" (VStr "{}")) ;;
    ret (match color_from_json py color_json with
         | Some (h, s, v) =>
             VDict [("hue", VFloat (h * 360)%float);
                    ("saturation", VFloat s);
                    ("brightness", VFloat v)]
         | None => VNone
         end, e)
  else if eq_str name "brightness" || eq_str name "percentage" then
    level <- lift (get d "Level" (VInt 0)) ;;
    n <- lift (int py level) ;;
    ret (VInt n, e)
  else if eq_str name "temperature" then
    t <- lift (get d "Temp" VNone) ;;
    if is_None t then ret (VNone, e)
    else f <- lift (float_ py t) ;;
         ret (VDict [("value", VFloat f); ("scale", VStr "CELSIUS")], e)
  else if eq_str name "targetSetpoint" then
    sp <- lift (get d "SetPoint" VNone) ;;
    if is_None sp then ret (VNone, e)
    else f <- lift (float_ py sp) ;;
         ret (VDict [("value", VFloat f); ("scale", VStr "CELSIUS")], e)
  else if eq_str name "thermostatMode" then
    level_names <- lift (get d "LevelNames" (VStr "")) ;;
    names <- lift (split_ level_names "|") ;;
    ret (VStr (match mode_name d names with
               | Return n => n
               | Raise _ => "AUTO"
               end), e)
  else if eq_str name "detectionState" then
    status <- lift (get d "Status" VNone) ;;
    ret (VStr (if eq_str status "Open" then "DETECTED" else "NOT_DETECTED"), e)
  else ret (VNone, e).

(** *** Actions of the handler *)

Definition setSwitch (i cmd : string) : M Domoticz unit :=
  api (switchlight i cmd) ;; ret tt.

Definition setLevel (i : string) (level : value) : M Domoticz unit :=
  api (switchlight_level i level) ;; ret tt.

Definition Domoticz_setColor (i : string) (r g b : Z) : M Domoticz unit :=
  api (setcolbrightnessvalue_rgb i r g b) ;; ret tt.

Definition Domoticz_setColorTemperature (i : string) (kelvin : Z)
  : M Domoticz unit :=
  q <- lift (int_truediv (kelvin - 2000) (6500 - 2000)) ;;
  level <- lift (trunc (q * 100)%float) ;;
  let level := Z.max 0 (Z.min 100 level) in
  api (setcolbrightnessvalue_temp i level) ;; ret tt.

Definition setSetpoint (i : string) (v : float) : M Domoticz unit :=
  api (setsetpoint i v) ;; ret tt.

Definition setLevelByName (i : string) (name : value) : M Domoticz unit :=
  ds <- the_devices ;;
  let d := match assoc i ds with Some d => d | None => VNone end in
  level_names <- lift (get d "LevelNames" (VStr "")) ;;
  names <- lift (split_ level_names "|") ;;
  u <- lift (upper_ py name) ;;
  if mem u (map (upper py) names)
  then u <- lift (upper_ py name) ;;
       n <- lift (match index u names with
                  | Some n => Return n
                  | None => Raise ValueError
                  end) ;;
       step <- lift (get d "LevelInt" (VInt 10)) ;;
       lvl <- lift (int_mul n step) ;;
       setLevel i lvl
  else ret tt.

Definition setScene (i cmd : string) : M Domoticz unit :=
  api (switchscene i cmd) ;; ret tt.

(** *** Methods of the endpoint classes *)

(** [self.handler.<action>(self.idx, ...)]: the handler, then the index. *)
Definition self_idx (e : DomoticzEndpoint) : M Domoticz string :=
  if has_handler e
  then match idx e with
       | Some i => ret i
       | None => raise (AttributeError "idx")
       end
  else raise (AttributeError "handler").

(** [SwitchLightEndpoint.setColor] *)
Definition endpoint_setColor (e : DomoticzEndpoint) (h s b : float)
  : M Domoticz unit :=
  ' (r, g, b_val) <- lift (hsv_to_rgb py (h / 360) s (b / 100))%float ;;
  r <- lift (trunc (r * 255)%float) ;;
  g <- lift (trunc (g * 255)%float) ;;
  b_val <- lift (trunc (b_val * 255)%float) ;;
  i <- self_idx e ;;
  Domoticz_setColor i r g b_val.

(** The methods each class defines, by name. *)
Definition methods (c : endpoint_class) : list string :=
  match c with
  | SwitchLightEndpoint =>
      ["turnOn"; "turnOff"; "setBrightness"; "setColor"; "setColorTemperature"]
  | BlindEndpoint => ["turnOn"; "turnOff"; "setPercentage"]
  | TemperatureSensorEndpoint => []
  | ThermostatEndpoint => ["setTargetSetPoint"; "setThermostatMode"]
  | SceneEndpoint => ["activate"; "deactivate"]
  end.

(** [endpoint.<method>(<arguments>)] *)
Definition endpoint_perform (c : command) (e : DomoticzEndpoint)
  : M Domoticz DomoticzEndpoint :=
  match class e, c with
  | SwitchLightEndpoint, turnOn => i <- self_idx e ;; setSwitch i "On"
  | SwitchLightEndpoint, turnOff => i <- self_idx e ;; setSwitch i "Off"
  | SwitchLightEndpoint, setBrightness v => i <- self_idx e ;; setLevel i v
  | SwitchLightEndpoint, setColor h s b => endpoint_setColor e h s b
  | SwitchLightEndpoint, setColorTemperature k =>
      i <- self_idx e ;; Domoticz_setColorTemperature i k
  | BlindEndpoint, turnOn => i <- self_idx e ;; setSwitch i "Off"
  | BlindEndpoint, turnOff => i <- self_idx e ;; setSwitch i "On"
  | BlindEndpoint, setPercentage p => i <- self_idx e ;; setLevel i (VInt p)
  | ThermostatEndpoint, setTargetSetPoint t => i <- self_idx e ;; setSetpoint i t
  | ThermostatEndpoint, setThermostatMode m =>
      i <- self_idx e ;; setLevelByName i m
  | SceneEndpoint, activate => i <- self_idx e ;; setScene i "On"
  | SceneEndpoint, deactivate => i <- self_idx e ;; setScene i "Off"
  | _, _ => raise (AttributeError (method_name c))
  end ;;
  ret e.

(** The attributes an endpoint object has besides the methods of its
    class: those of [DomoticzEndpoint] and [AlexaEndpoint]. *)
Definition inherited : list string :=
  [ "setHandler"; "getDevice"; "getProperty"; "handler"; "_device";
    "endpointId"; "friendlyName"; "description"; "manufacturerName";
    "displayCategories"; "capabilities"; "cookies"; "addDisplayCategories";
    "addCapability"; "addCookie"; "_endpointId"; "_friendlyName";
    "_description"; "_manufacturerName"; "_capabilities";
    "_displayCategories"; "_cookies" ].

Definition endpoint_hasattr (e : DomoticzEndpoint) (a : string) : bool :=
  mem a (methods (class e)) || mem a inherited || dunder a
  || (String.eqb a "idx" && match idx e with Some _ => true | None => false end).

(** *** Discovery enumeration *)

(** The body of the loop of [getEndpoints] for one cached device. *)
Definition endpoint_for (i : string) (d : value) : outcome DomoticzEndpoint :=
  match get d "Name" (VStr (String.append "Device " i)) with
  | Raise x => Raise x
  | Return name =>
  match get d "Description" (VStr "") with
  | Raise x => Raise x
  | Return desc =>
  match (if truthy desc
         then match desc with
              | VStr t => Return (match alexa_name py t with
                                  | Some n => VStr n
                                  | None => name
                                  end)
              | _ => Raise TypeError
              end
         else Return name) with
  | Raise x => Raise x
  | Return name =>
  match get d "Type" (VStr "") with
  | Raise x => Raise x
  | Return devType =>
  let finish (e : DomoticzEndpoint) := Return (setHandler (set_idx i e)) in
  if eq_str devType "Scene" || eq_str devType "Group"
  then finish (construct SceneEndpoint (VStr (String.append "Scene-" i))
                 name devType (VStr "Domoticz"))
  else
  match contains "Temp" devType with
  | Raise x => Raise x
  | Return true =>
      finish (construct TemperatureSensorEndpoint
                (VStr (String.append "TemperatureSensor-" i))
                name devType (VStr "Domoticz"))
  | Return false =>
  match contains "Thermostat" devType with
  | Raise x => Raise x
  | Return true =>
      finish (construct ThermostatEndpoint
                (VStr (String.append "Thermostat-" i))
                name devType (VStr "Domoticz"))
  | Return false =>
  match contains "Blind" devType with
  | Raise x => Raise x
  | Return blind =>
  match (if blind : bool then Return true else contains "RFY" devType) with
  | Raise x => Raise x
  | Return true =>
      finish (construct BlindEndpoint (VStr (String.append "Blind-" i))
                name devType (VStr "Domoticz"))
  | Return false =>
      let ep := construct SwitchLightEndpoint
                  (VStr (String.append "SwitchLight-" i))
                  name devType (VStr "Domoticz") in
      match get d "SubType" (VStr "") with
      | Raise x => Raise x
      | Return subType =>
      match contains "RGB" subType with
      | Raise x => Raise x
      | Return rgb =>
      match (if rgb : bool then Return true else contains "Color" devType) with
      | Raise x => Raise x
      | Return colour =>
          let ep :=
            if colour : bool
            then with_super (addCapability (new AlexaColorTemperatureController))
                   (with_super (addCapability (new AlexaColorController)) ep)
            else ep in
          finish (with_super (addDisplayCategories (VStr "LIGHT")) ep)
      end end end
  end end end end end end end end.

Definition Domoticz_getEndpoints : M Domoticz (list DomoticzEndpoint) :=
  loadDevices ;;
  ds <- the_devices ;;
  for_each (fun (eps : list DomoticzEndpoint) (kv : string * value) =>
              ep <- lift (endpoint_for (fst kv) (snd kv)) ;;
              ret (eps ++ [ep]))
    ds [].

(** The Domoticz handler and its endpoints as the router's backend. *)
#[export] Instance Domoticz_adapter : Adapter Domoticz DomoticzEndpoint := {
  alexa := super;
  getEndpoint := Domoticz_getEndpoint;
  getEndpoints := Domoticz_getEndpoints;
  getProperty := endpoint_getProperty;
  getDevice := endpoint_getDevice;
  perform := endpoint_perform;
  hasattr := endpoint_hasattr
}.

End Handler.

End DomoticzHandler.

(** ** Reading envelopes, and the instances the examples run on *)
Module Spec.
Import Py AlexaSmartHome.

(** The value at a path of keys below a dictionary, if there is one. *)
Fixpoint at_path (path : list string) (v : value) : option value :=
  match path with
  | [] => Some v
  | k :: path' =>
      match v with
      | VDict d => match assoc k d with
                   | Some x => at_path path' x
                   | None => None
                   end
      | _ => None
      end
  end.

(** A directive as the protocol sends it: an object whose [header] is an
    object with a [namespace] and a [name], and whose [endpoint], when it
    has one, is an object. *)
Definition directive (request : value) : bool :=
  match at_path ["header"; "namespace"] request,
        at_path ["header"; "name"] request with
  | Some _, Some _ =>
      match at_path ["endpoint"] request with
      | None | Some (VDict _) => true
      | Some _ => false
      end
  | _, _ => false
  end.

(** An interpreter for the examples: ASCII upper-casing, numbered
    identifiers, a clock that stands still; no string is parsed as a
    number and no colour is converted. *)
Definition python : Python :=
  {| parse_int := fun _ => None;
     parse_float := fun _ => None;
     repr := fun _ => "";
     upper := string_upper;
     uuid4 := fun n => String.append "id-" (String (ascii_of_nat (48 + n)) "");
     utcnow := fun _ => "2024-01-01T00:00:00";
     alexa_name := fun _ => None;
     color_from_json := fun _ => None;
     hsv_to_rgb := fun _ _ _ => Raise ValueError |}.

(** A reflection that defines nothing: objects with the attributes the
    program gives them and no other, so that every other name is a missing
    attribute.  It is not the interpreter's, whose objects have [__eq__]
    and the like; the examples below use names of the program only, and
    for those the router does the same under every reflection (lemma
    [invoke_ignores_reflection]). *)
Definition no_reflection {H : Type} : @Reflection H :=
  {| defines := fun _ _ => false;
     foreign_member := fun _ _ a _ => raise (AttributeError a);
     foreign_target := fun a _ _ => raise (AttributeError a) |}.

Definition start {H : Type} (h : H) : session H :=
  {| handler := h; journal := []; uuids := 0; ticks := 0 |}.

(** The bare mode of a [thermostatMode] payload: a string is the mode, an
    object holds it under [value]. *)
Definition bare_mode (m : value) : option value :=
  match m with
  | VStr _ => Some m
  | VDict d => assoc "value" d
  | _ => None
  end.

(** A temperature object of the protocol. *)
Definition setpoint (v : float) (scale : string) : value :=
  VDict [("value", VFloat v); ("scale", VStr scale)].

(** A directive with the given header fields, endpoint id and payload. *)
Definition request_for (namespace name endpointId : string) (payload : value)
  : value :=
  VDict [("header", VDict [("namespace", VStr namespace);
                           ("name", VStr name);
                           ("payloadVersion", VStr "3");
                           ("correlationToken", VStr "token-1")]);
         ("endpoint", VDict [("endpointId", VStr endpointId)]);
         ("payload", payload)].

(** A string without the character [c]. *)
Fixpoint free_of (c : ascii) (s : string) : bool :=
  match s with
  | EmptyString => true
  | String a s' => negb (Ascii.eqb a c) && free_of c s'
  end.

(** The directives the router serves, by namespace and name. *)
Definition routes : list (string * string) :=
  [ ("Alexa.Discovery", "Discover");
    ("Alexa.PowerController", "TurnOn");
    ("Alexa.PowerController", "TurnOff");
    ("Alexa.BrightnessController", "SetBrightness");
    ("Alexa.BrightnessController", "AdjustBrightness");
    ("Alexa.ColorController", "SetColor");
    ("Alexa.ColorTemperatureController", "SetColorTemperature");
    ("Alexa.SceneController", "Activate");
    ("Alexa.SceneController", "Deactivate");
    ("Alexa.PercentageController", "SetPercentage");
    ("Alexa.LockController", "Lock");
    ("Alexa.LockController", "Unlock");
    ("Alexa.ThermostatController", "SetTargetTemperature");
    ("Alexa.ThermostatController", "SetThermostatMode");
    ("Alexa.ReportState", "ReportState");
    ("Alexa", "ReportState") ].

(** The entry of an endpoint in a [Discover] response. *)
Definition listed (e : AlexaEndpoint) : value :=
  VDict (dict_set "capabilities"
           (VList (map serializeDiscovery (capabilities e)))
           (discovery_endpoint e)).

(** An endpoint with a capability at all. *)
Definition equipped (e : AlexaEndpoint) : bool :=
  match capabilities e with
  | [] => false
  | _ :: _ => true
  end.

(** Postconditions: what holds of the value of a computation whenever it
    returns one. *)
Definition ensures {S A : Type} (P : A -> Prop) (m : M S A) : Prop :=
  forall s a s', m s = (Return a, s') -> P a.

Section Statements.
Context (py : Python) {H E : Type} {adapter : Adapter H E}.

(** The response envelope of the protocol for a directive: the header
    with the correlation token when the directive has a true one, the
    payload, the endpoint of the directive when it has one, the context
    when one is given. *)
Definition envelope (request : value) (name namespace messageId : string)
    (payload context : value) : value :=
  let token := match at_path ["header"; "correlationToken"] request with
               | Some t => t
               | None => VNone
               end in
  let header := [("namespace", VStr namespace);
                 ("name", VStr name);
                 ("messageId", VStr messageId);
                 ("payloadVersion", VStr "3")]
                ++ (if truthy token then [("correlationToken", token)]
                    else []) in
  let event := [("header", VDict header); ("payload", payload)]
               ++ match at_path ["endpoint"] request with
                  | Some e => [("endpoint", e)]
                  | None => []
                  end in
  VDict ([("event", VDict event)]
         ++ (if is_None context then [] else [("context", context)])).

Definition error_envelope (request : value) (messageId error_type message :
    string) : value :=
  envelope request "ErrorResponse" "Alexa" messageId
    (VDict [("type", VStr error_type); ("message", VStr message)]) VNone.

(** A response built for the directive [request]. *)
Definition response_to (request r : value) : Prop :=
  exists name namespace messageId payload context,
    r = envelope request name namespace messageId payload context.

(** How the router resolves a directive's namespace and name: to no
    handler group, to a group without such an operation, to an operation
    of a group, or through an attribute that is not the program's
    ([Reflected]). *)
Inductive resolution : Type :=
| NoGroup
| NoOperation (g : group)
| Operation (g : group) (f : value -> M (session H) value)
| Reflected.

Definition resolve (reflection : @Reflection H) (namespace name : value)
  : resolution :=
  let namespace :=
    if eq_str namespace "Alexa" && eq_str name "ReportState"
    then VStr "Alexa.ReportState" else namespace in
  match namespace with
  | VStr ns =>
      match target_of py reflection (split "." ns) with
      | Group g =>
          match name with
          | VStr n =>
              match member_of py reflection g (split "." n) with
              | Method f => Operation g f
              | Unfit | Missing _ => NoOperation g
              | Foreign => Reflected
              end
          | _ => NoOperation g
          end
      | NoArguments | NoAttribute _ => NoGroup
      | ForeignTarget => Reflected
      | Unbound =>
          if string_attribute reflection name then Reflected else NoGroup
      end
  | _ => NoGroup
  end.


(** [a], then [.__call__] [k] times: what is callable, reached through its
    own call attribute. *)
Definition called (k : nat) (a : string) : string :=
  String.concat "." (a :: repeat "__call__" k).

(** The correlation token a response to [request] must carry, if any. *)
Definition echoed_token (request : value) : option value :=
  match at_path ["header"; "correlationToken"] request with
  | Some t => if truthy t then Some t else None
  | None => None
  end.

(** What [serializeProperties] is to produce for the supported properties
    [props] of a capability named [namespace]: one reading per property
    whose value is not [None], in order, none for the others. *)
Inductive serialized (namespace : string)
  : list value -> E -> session H -> list value -> E -> session H -> Prop :=
| serialized_nil e s : serialized namespace [] e s [] e s
| serialized_absent p props n e h e1 s l e' s' :
    subscript p "name" = Return n ->
    getProperty n e (handler s) = (Return (VNone, e1), h) ->
    serialized namespace props e1 (set_handler h s) l e' s' ->
    serialized namespace (p :: props) e s l e' s'
| serialized_present p props n v e h e1 s l e' s' :
    subscript p "name" = Return n ->
    getProperty n e (handler s) = (Return (v, e1), h) ->
    v <> VNone ->
    serialized namespace props e1 (ticked (set_handler h s)) l e' s' ->
    serialized namespace (p :: props) e s
      (reading n namespace v (String.append (utcnow py (ticks s)) "Z") :: l)
      e' s'.

(** The readings of all capabilities of an endpoint, one list each. *)
Inductive reported
  : list interface -> E -> session H -> list (list value) -> E -> session H
    -> Prop :=
| reported_nil e s : reported [] e s [] e s
| reported_cons i caps e s l e1 s1 ls e' s' :
    serializeProperties py i e s = (Return (l, e1), s1) ->
    reported caps e1 s1 ls e' s' ->
    reported (i :: caps) e s (l :: ls) e' s'.

(** What [getEndpoint] returned has no method of that name: it is [None],
    or an endpoint without it. *)
Definition lacks (o : option E) (method : string) : bool :=
  match o with
  | Some e => negb (hasattr e method)
  | None => true
  end.

(** A step that leaves the handler, the journal and the identifiers
    alone. *)
Definition quiet {A : Type} (m : M (session H) A) : Prop :=
  forall s o s1, m s = (o, s1) ->
    handler s1 = handler s /\ journal s1 = journal s /\ uuids s1 = uuids s.

(** An operation that, started with the handler [h0], stops with an
    exception before any endpoint was called, the handler being [h0] or
    [h1] then. *)
Definition stops (h0 h1 : H) (m : M (session H) value) : Prop :=
  forall s, handler s = h0 ->
    exists x s1, m s = (Raise x, s1)
                 /\ (handler s1 = h0 \/ handler s1 = h1)
                 /\ journal s1 = journal s /\ uuids s1 = uuids s.

End Statements.

End Spec.

(** ** Reading the Domoticz handler *)
Module DomoticzSpec.
Import Py AlexaSmartHome DomoticzHandler Spec.

(** [self.devices.get(idx)] *)
Definition cached (i : string) (h : Domoticz) : value :=
  match assoc i (devices h) with Some d => d | None => VNone end.

(** [request['endpoint'].get('friendlyName', '')] when the endpoint is an
    object. *)
Definition friendly_name (request : value) : value :=
  match at_path ["endpoint"; "friendlyName"] request with
  | Some f => f
  | None => VStr ""
  end.

(** The endpoint [getEndpoint] builds for the class [cls], the endpoint id
    [prefix-i] and the handler [h]. *)
Definition decoded (cls : endpoint_class) (prefix i : string)
    (request : value) (h : Domoticz) : DomoticzEndpoint :=
  let e := setHandler
             (set_idx i
                (construct cls (VStr (String.append prefix (String "-" i)))
                   (friendly_name request) (VStr "") (VStr "Domoticz"))) in
  if truthy (cached i h) then set_device (cached i h) e else e.

(** The [idx] a request to the server names. *)
Definition query_idx (q : query) : option string :=
  match q with
  | getdevices_all | getscenes => None
  | getdevices_rid i => Some i
  | switchlight i _ | switchlight_level i _ => Some i
  | setcolbrightnessvalue_rgb i _ _ _ | setcolbrightnessvalue_temp i _ => Some i
  | setsetpoint i _ | switchscene i _ => Some i
  end.

(** The handler after one more request. *)
Definition asked (q : query) (h : Domoticz) : Domoticz :=
  {| devices := devices h;
     includeScenesGroups := includeScenesGroups h;
     sent := sent h ++ [q] |}.

(** The name an endpoint class is registered under in
    [ENDPOINT_ADAPTERS]. *)
Definition registered_name (c : endpoint_class) : string :=
  match c with
  | SwitchLightEndpoint => "SwitchLight"
  | BlindEndpoint => "Blind"
  | TemperatureSensorEndpoint => "TemperatureSensor"
  | ThermostatEndpoint => "Thermostat"
  | SceneEndpoint => "Scene"
  end.

(** The property names [DomoticzEndpoint.getProperty] has a branch for. *)
Definition known_properties : list string :=
  [ "powerState"; "color"; "brightness"; "percentage"; "temperature";
    "targetSetpoint"; "thermostatMode"; "detectionState" ].

End DomoticzSpec.

(** ** Sessions the examples run *)
Module Examples.
Import Py AlexaSmartHome DomoticzHandler Spec.

(** A server that answers every request with an empty object, as
    [Domoticz.api] does when the request fails. *)
Definition silent : list query -> query -> value := fun _ _ => VDict [].

Definition domoticz (devs : dict) : session Domoticz :=
  start {| devices := devs; includeScenesGroups := false; sent := [] |}.

(** [handle_message(handler, message)] for a Domoticz handler with the
    device cache [devs]. *)
Definition run (devs : dict) (request : value)
  : outcome value * session Domoticz :=
  handle_message python (adapter := Domoticz_adapter python silent)
    no_reflection (VDict [("directive", request)]) (domoticz devs).

(** A dimmer at level 90 and a thermostat selector, as cached devices. *)
Definition dimmer : dict := [("7", VDict [("Level", VInt 90)])].

Definition thermostat : dict :=
  [("5", VDict [("LevelNames", VStr "OFF|HEAT|COOL|AUTO")])].

Definition brighten : value :=
  request_for "Alexa.BrightnessController" "AdjustBrightness" "SwitchLight-7"
    (VDict [("brightnessDelta", VInt 50)]).

Definition heat : value :=
  request_for "Alexa.ThermostatController" "SetThermostatMode" "Thermostat-5"
    (VDict [("thermostatMode", VDict [("value", VStr "heat")])]).

Definition report_switch : value :=
  request_for "Alexa" "ReportState" "SwitchLight-7" (VDict []).

(** A [TurnOn] directive whose correlation token is the empty string. *)
Definition empty_token : value :=
  VDict [("header", VDict [("namespace", VStr "Alexa.PowerController");
                           ("name", VStr "TurnOn");
                           ("payloadVersion", VStr "3");
                           ("correlationToken", VStr "")]);
         ("endpoint", VDict [("endpointId", VStr "SwitchLight-7")]);
         ("payload", VDict [])].

(** An instance of [AlexaEndpoint] itself: it has no capability besides
    the identity capability its constructor adds. *)
Definition bare : AlexaEndpoint :=
  init (VStr "Bare-1") (VStr "Bare") (VStr "") (VStr "").

Definition discover : value :=
  VDict [("header", VDict [("namespace", VStr "Alexa.Discovery");
                           ("name", VStr "Discover");
                           ("payloadVersion", VStr "3")]);
         ("payload", VDict [])].

(** A device as Domoticz lists it. *)
Definition lamp (i : string) : value :=
  VDict [("idx", VStr i); ("Name", VStr "Lamp"); ("Type", VStr "Light/Switch")].

(** A server that knows a lamp under every index it is asked for, and
    lists none. *)
Definition stocked : list query -> query -> value :=
  fun _ q => match q with
             | getdevices_rid i => VDict [("result", VList [lamp i])]
             | _ => VDict []
             end.

(** A server that lists one lamp, of index 7, and answers nothing else. *)
Definition listing : list query -> query -> value :=
  fun _ q => match q with
             | getdevices_all => VDict [("result", VList [lamp "7"])]
             | _ => VDict []
             end.

(** A cached device whose [Level] is [null]. *)
Definition unread : dict := [("7", VDict [("Level", VNone)])].

(** A directive whose endpoint is a string, not an object. *)
Definition malformed : value :=
  VDict [("header", VDict [("namespace", VStr "Alexa.PowerController");
                           ("name", VStr "TurnOn")]);
         ("endpoint", VStr "SwitchLight-7");
         ("payload", VDict [])].

End Examples.

(** ** Properties of the router *)

Unset Implicit Arguments.
Import Py AlexaSmartHome Spec.

Lemma bind_Return {S A B : Type} (m : M S A) (k : A -> M S B) s r s' :
  bind m k s = (Return r, s') ->
  exists a s1, m s = (Return a, s1) /\ k a s1 = (Return r, s').
Proof.
  unfold bind. destruct (m s) as [[a | e] s1]; intros Hk.
  - exists a, s1. split; [reflexivity | exact Hk].
  - discriminate.
Qed.

Lemma ensures_bind {S A B : Type} (P : B -> Prop) (m : M S A) (k : A -> M S B) :
  (forall a, ensures P (k a)) -> ensures P (bind m k).
Proof.
  intros Hk s b s' Hb. apply bind_Return in Hb as (a & s1 & _ & Hb).
  exact (Hk a s1 b s' Hb).
Qed.

Lemma ensures_raise {S A : Type} (P : A -> Prop) e : ensures P (@raise S A e).
Proof. intros s a s' Hr. discriminate. Qed.

Lemma ensures_try {S A : Type} (P : A -> Prop) (m : M S A) (h : exn -> M S A) :
  ensures P m -> (forall e, ensures P (h e)) -> ensures P (try_except m h).
Proof.
  intros Hm Hh s a s'. unfold try_except.
  destruct (m s) as [[b | e] s1] eqn:Hms.
  - intros [= <- <-]. exact (Hm _ _ _ Hms).
  - apply Hh.
Qed.

Lemma directive_inv request :
  directive request = true ->
  exists d h ns nm,
    request = VDict d /\ assoc "header" d = Some (VDict h)
    /\ assoc "namespace" h = Some ns /\ assoc "name" h = Some nm
    /\ (assoc "endpoint" d = None
        \/ exists ep, assoc "endpoint" d = Some (VDict ep)).
Proof.
  unfold directive.
  destruct request as [ | | | | | | d]; simpl; try discriminate.
  destruct (assoc "header" d) as [hv | ] eqn:Hh; try discriminate.
  destruct hv as [ | | | | | | h]; simpl; try discriminate.
  destruct (assoc "namespace" h) as [ns | ] eqn:Hns; try discriminate.
  destruct (assoc "name" h) as [nm | ] eqn:Hnm; try discriminate.
  intros Hep. exists d, h, ns, nm. repeat split; auto.
  destruct (assoc "endpoint" d) as [[ | | | | | | ep] | ]; try discriminate.
  - right. exists ep. reflexivity.
  - left. reflexivity.
Qed.

Section Router.
Context (py : Python) {H E : Type} {adapter : Adapter H E}.
Variable reflection : @Reflection H.

(** *** Envelopes of a directive *)

Lemma log_request_directive request (s : session H) :
  directive request = true -> log_request request s = (Return tt, s).
Proof.
  intros Hd.
  destruct (directive_inv _ Hd) as (d & h & ns & nm & -> & Hh & Hns & Hnm & _).
  unfold log_request, header_field, bind, lift, ret. simpl.
  rewrite Hh. simpl. rewrite Hns, Hnm. reflexivity.
Qed.

Lemma api_message_directive request name namespace payload context
    (s : session H) :
  directive request = true ->
  api_message py request name namespace payload context s
  = (Return (envelope request name namespace (uuid4 py (uuids s))
               (or_else payload (VDict [])) context), drawn s).
Proof.
  intros Hd.
  destruct (directive_inv _ Hd)
    as (d & h & ns & nm & -> & Hh & Hns & Hnm & Hep).
  unfold api_message, envelope, bind, lift, ret, new_uuid. simpl.
  rewrite Hh. simpl.
  destruct (assoc "correlationToken" h) as [t | ]; simpl;
    [destruct (truthy t) | ]; simpl;
    (destruct Hep as [-> | [ep ->]]; simpl;
     destruct (is_None context); reflexivity).
Qed.

Lemma api_error_directive request error_type message (s : session H) :
  directive request = true ->
  api_error py request "Alexa" error_type message VNone s
  = (Return (error_envelope request (uuid4 py (uuids s)) error_type message),
     drawn s).
Proof.
  intros Hd. unfold api_error. simpl. unfold bind, lift.
  rewrite (log_request_directive _ s Hd).
  rewrite api_message_directive by assumption. reflexivity.
Qed.

(** *** The two [try]/[except] clauses of the router *)

Lemma guarded_returns request message (body : M (session H) value) s :
  directive request = true ->
  exists r s',
    try_except body
      (fun _ => api_error py request "Alexa" "INTERNAL_ERROR" message VNone) s
    = (Return r, s').
Proof.
  intros Hd. unfold try_except.
  destruct (body s) as [[r | e] s1].
  - exists r, s1. reflexivity.
  - rewrite api_error_directive by assumption. eauto.
Qed.

Lemma guarded_raises request message (body : M (session H) value) s e s1 :
  directive request = true ->
  body s = (Raise e, s1) ->
  try_except body
    (fun _ => api_error py request "Alexa" "INTERNAL_ERROR" message VNone) s
  = (Return (error_envelope request (uuid4 py (uuids s1)) "INTERNAL_ERROR"
               message), drawn s1).
Proof.
  intros Hd Hb. unfold try_except. rewrite Hb.
  apply api_error_directive. assumption.
Qed.

Lemma invoke_returns namespace name request (s : session H) :
  directive request = true ->
  exists r s', invoke py reflection namespace name request s = (Return r, s').
Proof. intros Hd. apply guarded_returns. assumption. Qed.




(** *** Every answer of the router is built from the directive *)

Lemma ensures_api_message request name namespace payload context :
  directive request = true ->
  ensures (S := session H) (response_to request)
    (api_message py request name namespace payload context).
Proof.
  intros Hd s r s'. rewrite api_message_directive by assumption.
  intros [= <- _]. unfold response_to. eauto 6.
Qed.

Lemma ensures_api_error request error_type message :
  directive request = true ->
  ensures (S := session H) (response_to request)
    (api_error py request "Alexa" error_type message VNone).
Proof.
  intros Hd s r s'. rewrite api_error_directive by assumption.
  intros [= <- _]. unfold response_to, error_envelope. eauto 6.
Qed.

Ltac responds :=
  repeat match goal with
         | |- ensures _ (bind _ _) => apply ensures_bind; intros
         | |- ensures _ (api_message _ _ _ _ _ _) =>
             apply ensures_api_message; assumption
         | |- ensures _ (api_error _ _ _ _ _ _) =>
             apply ensures_api_error; assumption
         | |- ensures _ (raise _) => apply ensures_raise
         | |- ensures _ (if ?b then _ else _) => destruct b
         | |- ensures _ (match ?x with _ => _ end) => destruct x
         | |- ensures _ (let _ := _ in _) => cbv zeta
         end.

Lemma operations_respond request g n f :
  directive request = true ->
  lookup n (operations py g) = Some f ->
  ensures (response_to request) (f request).
Proof.
  intros Hd Hf.
  destruct g; simpl in Hf;
    repeat match type of Hf with
           | (if ?b then _ else _) = _ => destruct b
           end;
    try discriminate; injection Hf as <-.
  all: unfold Discover, TurnOn, TurnOff, SetBrightness, AdjustBrightness,
         SetColor, SetColorTemperature, Activate, Deactivate, SetPercentage,
         Lock, Unlock, SetTargetTemperature, SetThermostatMode, ReportState,
         setbrightness, unreachable.
  all: responds.
Qed.

(** Below a method only a chain of [__call__] leads to the method. *)
Lemma below_Method rest : forall p m f,
  below reflection p m rest = Method f ->
  m = Method f /\ exists k, rest = repeat "__call__" k.
Proof.
  induction rest as [ | b rest IH]; intros p m f; cbn [below].
  - intros ->. split; [reflexivity | exists 0%nat; reflexivity].
  - destruct (String.eqb_spec b "__call__") as [-> | Hb].
    + intros Hm. apply IH in Hm as [-> [k ->]].
      split; [reflexivity | exists (S k); reflexivity].
    + destruct (foreign reflection p b); discriminate.
Qed.

Lemma below_called k : forall p (m : member (H := H)),
  below reflection p m (repeat "__call__" k) = m.
Proof.
  induction k as [ | k IH]; intros p m; [reflexivity | ].
  cbn [repeat below]. rewrite String.eqb_refl. apply IH.
Qed.

Lemma member_of_Method_path g path f :
  member_of py reflection g path = Method f ->
  exists a k, path = a :: repeat "__call__" k
              /\ lookup a (operations py g) = Some f.
Proof.
  unfold member_of. destruct path as [ | a rest]; [discriminate | ].
  destruct (lookup a (operations py g)) as [f' | ] eqn:Hl.
  - intros Hm. apply below_Method in Hm as [[= <-] [k ->]].
    exists a, k. split; [reflexivity | exact Hl].
  - destruct (mem a (helpers g)).
    + intros Hm. apply below_Method in Hm as [[=] _].
    + destruct (String.eqb a "handler").
      * destruct rest as [ | b rest];
          match goal with
          | |- (if ?c then _ else _) = _ -> _ => destruct c
          end; discriminate.
      * destruct (mem a fields).
        -- destruct rest as [ | b rest]; [discriminate | ].
           destruct (foreign reflection a_string b); discriminate.
        -- destruct (foreign reflection an_instance a); discriminate.
Qed.

Lemma member_of_Method g path f :
  member_of py reflection g path = Method f ->
  exists n, lookup n (operations py g) = Some f.
Proof.
  intros Hm. apply member_of_Method_path in Hm as (a & _ & _ & Hl).
  exists a. exact Hl.
Qed.

(** Below a class only a chain of [__call__] leads to the class. *)
Lemma beneath_Group rest : forall p t g,
  beneath reflection p t rest = Group g ->
  t = Group g /\ exists k, rest = repeat "__call__" k.
Proof.
  induction rest as [ | b rest IH]; intros p t g; cbn [beneath].
  - intros ->. split; [reflexivity | exists 0%nat; reflexivity].
  - destruct (String.eqb_spec b "__call__") as [-> | Hb].
    + intros Ht. apply IH in Ht as [-> [k ->]].
      split; [reflexivity | exists (S k); reflexivity].
    + destruct (foreign reflection p b); discriminate.
Qed.

Lemma beneath_called k : forall p t,
  beneath reflection p t (repeat "__call__" k) = t.
Proof.
  induction k as [ | k IH]; intros p t; [reflexivity | ].
  cbn [repeat beneath]. rewrite String.eqb_refl. apply IH.
Qed.

Lemma target_of_Group path g :
  target_of py reflection path = Group g ->
  exists b k, path = "Alexa" :: b :: repeat "__call__" k
              /\ lookup b groups = Some g.
Proof.
  unfold target_of. destruct path as [ | a rest]; [discriminate | ].
  destruct (String.eqb_spec a "Alexa") as [-> | Ha].
  - destruct rest as [ | b rest]; [discriminate | ].
    destruct (lookup b groups) as [g' | ] eqn:Hb.
    + destruct rest as [ | c rest].
      * intros [= <-]. exists b, 0%nat. split; [reflexivity | exact Hb].
      * destruct (function_target py g' c) as [t | ] eqn:Hc.
        -- intros Ht. apply beneath_Group in Ht as [-> _].
           unfold function_target in Hc.
           destruct (mem c (map fst (operations py g')));
             [discriminate | ].
           destruct (mem c (helpers g')); [ | discriminate].
           destruct (String.eqb c "invoke"); discriminate.
        -- intros Ht. apply beneath_Group in Ht as [[= <-] [k Hk]].
           exists b, k. split; [rewrite Hk; reflexivity | exact Hb].
    + intros Ht. apply beneath_Group in Ht as [[=] _].
  - intros Ht. apply beneath_Group in Ht as [[=] _].
Qed.

Lemma invoke_responds namespace name request :
  directive request = true ->
  resolve py reflection namespace name <> Reflected ->
  ensures (response_to request)
    (invoke py reflection namespace name request).
Proof.
  intros Hd. unfold resolve, invoke.
  generalize (if eq_str namespace "Alexa" && eq_str name "ReportState"
              then VStr "Alexa.ReportState" else namespace).
  intros ns Hplain.
  apply ensures_try; [ | intros; apply ensures_api_error; assumption].
  destruct ns as [ | | | | n | | ]; try apply ensures_raise.
  destruct (target_of py reflection (split "." n)) as [g | | a | | ];
    try apply ensures_raise;
    [ | congruence
      | destruct (string_attribute reflection name);
        [congruence | apply ensures_raise] ].
  unfold call_invoke.
  apply ensures_try; [ | intros; apply ensures_api_error; assumption].
  destruct name as [ | | | | m | | ]; try apply ensures_raise.
  destruct (member_of py reflection g (split "." m)) as [f | | a | ] eqn:Hm;
    try apply ensures_raise; [ | congruence].
  apply member_of_Method in Hm as [k Hk].
  exact (operations_respond request g k f Hd Hk).
Qed.

Lemma envelope_token request name namespace messageId payload context :
  at_path ["event"; "header"; "correlationToken"]
    (envelope request name namespace messageId payload context)
  = echoed_token request.
Proof.
  unfold envelope, echoed_token.
  destruct (at_path ["header"; "correlationToken"] request) as [t | ];
    simpl; [destruct (truthy t) | ]; reflexivity.
Qed.

(** C4, as amended.  For every directive dispatched to an operation of this
    program, the envelope [invoke] returns (response or error) carries in
    its header the directive's correlation token when that token is true
    (present and neither empty nor null), and no correlation token
    otherwise. *)
Theorem correlation_token_echoed namespace name request (s : session H) :
  directive request = true ->
  resolve py reflection namespace name <> Reflected ->
  exists r s',
    invoke py reflection namespace name request s = (Return r, s')
    /\ at_path ["event"; "header"; "correlationToken"] r
       = echoed_token request.
Proof.
  intros Hd Hplain.
  destruct (invoke_returns namespace name request s Hd) as (r & s' & Hr).
  exists r, s'. split; [exact Hr | ].
  destruct (invoke_responds namespace name request Hd Hplain s r s' Hr)
    as (n & ns & i & p & c & ->).
  apply envelope_token.
Qed.

(** *** State serialization *)

Lemma is_None_true v : is_None v = true -> v = VNone.
Proof. destruct v; simpl; congruence. Qed.

Lemma is_None_false v : is_None v = false -> v <> VNone.
Proof. destruct v; simpl; congruence. Qed.

Lemma on_handler_Return {A : Type} (m : M H A) (s : session H) a s' :
  on_handler m s = (Return a, s') ->
  exists h, m (handler s) = (Return a, h) /\ s' = set_handler h s.
Proof.
  unfold on_handler. destruct (m (handler s)) as [r h].
  intros [= -> <-]. exists h. split; reflexivity.
Qed.

(** The loop of [serializeProperties], from any accumulator. *)
Lemma serialize_loop namespace props : forall acc e (s : session H) l e' s',
  for_each
    (fun (acc : list value * E) (prop : value) =>
       prop_name <- lift (subscript prop "name") ;;
       ' (prop_value, e') <- on_handler (getProperty prop_name (snd acc)) ;;
       if is_None prop_value then ret (fst acc, e')
       else t <- timestamp py ;;
            ret (fst acc ++ [reading prop_name namespace prop_value t], e'))
    props (acc, e) s = (Return (l, e'), s') ->
  exists l', l = acc ++ l' /\ serialized py namespace props e s l' e' s'.
Proof.
  induction props as [ | p props IH]; intros acc e s l e' s'; simpl.
  - intros [= <- <- <-]. exists []. split; [symmetry; apply app_nil_r | constructor].
  - intros Hrun.
    apply bind_Return in Hrun as ([acc1 e1] & s1 & Hstep & Hrest).
    apply bind_Return in Hstep as (n & s0 & Hn & Hstep).
    unfold lift in Hn. injection Hn as Hn <-.
    apply bind_Return in Hstep as ([v e2] & s2 & Hget & Hstep).
    apply on_handler_Return in Hget as (h & Hget & ->).
    simpl in Hget, Hstep.
    destruct (is_None v) eqn:Hv.
    + injection Hstep as <- <- <-.
      apply IH in Hrest as (l' & -> & Hser).
      exists l'. split; [reflexivity | ].
      apply is_None_true in Hv. subst v.
      eapply serialized_absent; eassumption.
    + apply bind_Return in Hstep as (t & s3 & Ht & Hstep).
      unfold timestamp in Ht. injection Ht as <- <-.
      injection Hstep as <- <- <-.
      apply IH in Hrest as (l' & -> & Hser).
      eexists. split; [rewrite <- app_assoc; reflexivity | ].
      simpl. eapply serialized_present; try eassumption.
      apply is_None_false. assumption.
Qed.

Lemma serialized_readings namespace props e (s : session H) l e' s' :
  serialized py namespace props e s l e' s' ->
  Forall (fun r => exists p n v t,
              In p props /\ subscript p "name" = Return n /\ v <> VNone
              /\ r = reading n namespace v t) l.
Proof.
  induction 1 as [ | p props n e h e1 s l e' s' Hn Hget _ IH
                   | p props n v e h e1 s l e' s' Hn Hget Hv _ IH].
  - constructor.
  - eapply Forall_impl; [ | exact IH].
    intros r (q & m & v & t & Hin & Hq & Hv & ->).
    exists q, m, v, t. repeat split; auto. right. assumption.
  - constructor.
    + exists p, n, v, (String.append (utcnow py (ticks s)) "Z").
      repeat split; auto. left. reflexivity.
    + eapply Forall_impl; [ | exact IH].
      intros r (q & m & w & t & Hin & Hq & Hw & ->).
      exists q, m, w, t. repeat split; auto. right. assumption.
Qed.

(** C8.  Whenever [serializeProperties] returns, its readings are those of
    the supported properties whose [getProperty] value is not [None], in
    order; a property whose value is [None] yields no reading.  Each
    reading carries the property name, the namespace of the capability, the
    value (never [None]), a timestamp and [uncertaintyInMilliseconds] 0. *)
Theorem serializeProperties_omits_absent i e (s : session H) l e' s' :
  serializeProperties py i e s = (Return (l, e'), s') ->
  serialized py (name i) (propertiesSupported i) e s l e' s'
  /\ Forall (fun r => exists p n v t,
                 In p (propertiesSupported i)
                 /\ subscript p "name" = Return n
                 /\ v <> VNone
                 /\ r = VDict [("name", n);
                               ("namespace", VStr (name i));
                               ("value", v);
                               ("timeOfSample", VStr t);
                               ("uncertaintyInMilliseconds", VInt 0)]) l.
Proof.
  intros Hrun. unfold serializeProperties in Hrun.
  apply serialize_loop in Hrun as (l' & -> & Hser). simpl.
  split; [exact Hser | ].
  exact (serialized_readings _ _ _ _ _ _ _ Hser).
Qed.

(** *** Handler groups *)

Lemma envelope_context request name namespace messageId payload context path :
  is_None context = false ->
  at_path ("context" :: path)
    (envelope request name namespace messageId payload context)
  = at_path path context.
Proof. intros Hc. unfold envelope. rewrite Hc. reflexivity. Qed.

Lemma payload_field_directive request k v (s : session H) :
  at_path ["payload"; k] request = Some v ->
  payload_field request k s = (Return v, s).
Proof.
  unfold payload_field, bind, lift. simpl.
  destruct request as [ | | | | | | d]; try discriminate. simpl.
  destruct (assoc "payload" d) as [[ | | | | | | p] | ]; try discriminate.
  simpl. destruct (assoc k p); [intros [= ->]; reflexivity | discriminate].
Qed.

Lemma endpoint_of_run request (s : session H) o h :
  getEndpoint request (handler s) = (o, h) ->
  endpoint_of request s = (o, set_handler h s).
Proof. unfold endpoint_of, on_handler. intros ->. reflexivity. Qed.

(** [setbrightness]: the endpoint is called with the brightness, and the
    response reports it. *)
Lemma setbrightness_run request e brightness (s : session H) :
  directive request = true ->
  exists out s',
    setbrightness py request (Some e) brightness s = (out, s')
    /\ journal s' = journal s ++ [(endpointId (alexa e), setBrightness brightness)]
    /\ forall r, out = Return r ->
         at_path ["context"; "properties"] r
         = Some (VList [reading (VStr "brightness") "Alexa.BrightnessController"
                          brightness (String.append (utcnow py (ticks s)) "Z")]).
Proof.
  intros Hd. unfold setbrightness, call, bind, note, on_handler.
  cbn [handler noted].
  destruct (perform (setBrightness brightness) e (handler s)) as [[e1 | x] h1].
  - unfold timestamp. rewrite api_message_directive by assumption.
    eexists _, _. split; [reflexivity | ]. split; [reflexivity | ].
    intros r [= <-]. rewrite envelope_context by reflexivity. reflexivity.
  - eexists _, _. split; [reflexivity | ]. split; [reflexivity | ].
    intros r [=].
Qed.

(** C10.  When the endpoint's current brightness is [None] or is the
    integer 0, [AdjustBrightness] calls [setBrightness(50 + delta)] on the
    endpoint and, when that call returns, reports the brightness
    [50 + delta]. *)
Theorem AdjustBrightness_baseline request d delta e h1 current e1 h2
    (s : session H) :
  directive request = true ->
  at_path ["payload"; "brightnessDelta"] request = Some d ->
  int py d = Return delta ->
  getEndpoint request (handler s) = (Return (Some e), h1) ->
  getProperty (VStr "brightness") e h1 = (Return (current, e1), h2) ->
  current = VNone \/ current = VInt 0 ->
  exists out s',
    AdjustBrightness py request s = (out, s')
    /\ journal s' = journal s
                    ++ [(endpointId (alexa e1), setBrightness (VInt (50 + delta)))]
    /\ forall r, out = Return r ->
         at_path ["context"; "properties"] r
         = Some (VList [reading (VStr "brightness") "Alexa.BrightnessController"
                          (VInt (50 + delta))
                          (String.append (utcnow py (ticks s)) "Z")]).
Proof.
  intros Hd Hp Hi Hep Hget Hcur.
  unfold AdjustBrightness, bind at 1.
  rewrite (payload_field_directive _ _ _ s Hp).
  unfold bind at 1, lift at 1. rewrite Hi.
  unfold bind at 1. rewrite (log_request_directive _ s Hd).
  unfold bind at 1. rewrite (endpoint_of_run _ _ _ _ Hep).
  unfold bind at 1, bind at 1, on_handler at 1. simpl handler. rewrite Hget.
  unfold ret at 1.
  assert (Hb : or_else current (VInt 50) = VInt 50)
    by (destruct Hcur as [-> | ->]; reflexivity).
  rewrite Hb. unfold bind at 1, lift at 1. simpl add_int.
  apply (setbrightness_run request e1 (VInt (50 + delta))
           (set_handler h2 (set_handler h1 s)) Hd).
Qed.


Lemma call_run e c (s : session H) :
  exists out h,
    perform c e (handler s) = (out, h)
    /\ call (Some e) c s = (out, set_handler h (noted e c s)).
Proof.
  unfold call, bind, note, on_handler. cbn [handler noted].
  destruct (perform c e (handler s)) as [[e1 | x] h1]; eauto.
Qed.

(** C7, as amended.  [SetThermostatMode] takes the mode as a string or as
    an object with a [value] field, calls [setThermostatMode] on the
    endpoint with the bare mode, its case unchanged, and, when that call
    returns, reports that same value as [thermostatMode]. *)
Theorem SetThermostatMode_passes_bare_mode request m mode e h1
    (s : session H) :
  directive request = true ->
  at_path ["payload"; "thermostatMode"] request = Some m ->
  bare_mode m = Some mode ->
  getEndpoint request (handler s) = (Return (Some e), h1) ->
  exists out s',
    SetThermostatMode py request s = (out, s')
    /\ journal s' = journal s
                    ++ [(endpointId (alexa e), setThermostatMode mode)]
    /\ forall r, out = Return r ->
         at_path ["context"; "properties"] r
         = Some (VList [reading (VStr "thermostatMode")
                          "Alexa.ThermostatController" mode
                          (String.append (utcnow py (ticks s)) "Z")]).
Proof.
  intros Hd Hp Hm Hep.
  unfold SetThermostatMode, bind at 1.
  rewrite (payload_field_directive _ _ _ s Hp).
  assert (Hmode : (match m with
                   | VStr _ => ret m
                   | _ => lift (subscript m "value")
                   end) s = (Return mode, s)).
  { destruct m as [ | | | | x | | d]; simpl in Hm; try discriminate.
    - injection Hm as <-. reflexivity.
    - unfold lift. simpl. rewrite Hm. reflexivity. }
  unfold bind at 1. rewrite Hmode.
  unfold bind at 1. rewrite (log_request_directive _ s Hd).
  unfold bind at 1. rewrite (endpoint_of_run _ _ _ _ Hep).
  destruct (call_run e (setThermostatMode mode) (set_handler h1 s))
    as (out & h2 & _ & Hcall).
  unfold bind at 1. rewrite Hcall.
  destruct out as [e1 | x].
  - unfold bind, timestamp. rewrite api_message_directive by assumption.
    eexists _, _. split; [reflexivity | ]. split; [reflexivity | ].
    intros r [= <-]. rewrite envelope_context by reflexivity. reflexivity.
  - eexists _, _. split; [reflexivity | ]. split; [reflexivity | ].
    intros r [=].
Qed.

(** The percentage [SetPercentage] goes on with lies in 0..100. *)
Lemma clamp_range p : 0 <= clamp p <= 100.
Proof.
  unfold clamp. destruct (p <? 0) eqn:Hlo; [lia | ].
  destruct (p >? 100) eqn:Hhi; [lia | ].
  apply Z.ltb_ge in Hlo. rewrite Z.gtb_ltb in Hhi. apply Z.ltb_ge in Hhi. lia.
Qed.

(** [clamp] is the percentage brought into 0..100. *)
Lemma clamp_nearest p : clamp p = Z.max 0 (Z.min 100 p).
Proof.
  unfold clamp. destruct (p <? 0) eqn:Hlo.
  - apply Z.ltb_lt in Hlo. lia.
  - apply Z.ltb_ge in Hlo. destruct (p >? 100) eqn:Hhi.
    + rewrite Z.gtb_ltb in Hhi. apply Z.ltb_lt in Hhi. lia.
    + rewrite Z.gtb_ltb in Hhi. apply Z.ltb_ge in Hhi. lia.
Qed.

(** X1.  [SetPercentage] hands the endpoint, and reports, the percentage of
    the payload clamped to 0..100: 0 below 0, 100 above 100, the
    percentage itself between. *)
Lemma SetPercentage_clamps request p percentage e h1 (s : session H) :
  directive request = true ->
  at_path ["payload"; "percentage"] request = Some p ->
  int py p = Return percentage ->
  getEndpoint request (handler s) = (Return (Some e), h1) ->
  exists out s' v,
    SetPercentage py request s = (out, s')
    /\ v = Z.max 0 (Z.min 100 percentage)
    /\ 0 <= v <= 100
    /\ journal s' = journal s ++ [(endpointId (alexa e), setPercentage v)]
    /\ forall r, out = Return r ->
         at_path ["context"; "properties"] r
         = Some (VList [reading (VStr "percentage")
                          "Alexa.PercentageController" (VInt v)
                          (String.append (utcnow py (ticks s)) "Z")]).
Proof.
  intros Hd Hp Hi Hep.
  unfold SetPercentage, bind at 1.
  rewrite (payload_field_directive _ _ _ s Hp).
  unfold bind at 1, lift at 1. rewrite Hi.
  unfold bind at 1. rewrite (log_request_directive _ s Hd).
  unfold bind at 1. rewrite (endpoint_of_run _ _ _ _ Hep).
  cbv zeta.
  destruct (call_run e (setPercentage (clamp percentage)) (set_handler h1 s))
    as (out & h2 & _ & Hcall).
  unfold bind at 1. rewrite Hcall.
  destruct out as [e1 | x].
  - unfold bind, timestamp. rewrite api_message_directive by assumption.
    eexists _, _, _. split; [reflexivity | ].
    split; [apply clamp_nearest | ].
    split; [apply clamp_range | ]. split; [reflexivity | ].
    intros r [= <-]. rewrite envelope_context by reflexivity. reflexivity.
  - eexists _, _, _. split; [reflexivity | ].
    split; [apply clamp_nearest | ].
    split; [apply clamp_range | ]. split; [reflexivity | ].
    intros r [=].
Qed.

(** *** [ReportState] *)

Lemma not_None v : v <> VNone -> is_None v = false.
Proof. destruct v; simpl; congruence. Qed.

(** The loop of [ReportState] over the capabilities, from any
    accumulator. *)
Lemma report_loop caps : forall acc e (s : session H) l e' s',
  for_each
    (fun (acc : list value * E) (i : interface) =>
       ' (l, e') <- serializeProperties py i (snd acc) ;;
       ret (fst acc ++ l, e'))
    caps (acc, e) s = (Return (l, e'), s') ->
  exists ls, l = acc ++ List.concat ls /\ reported py caps e s ls e' s'.
Proof.
  induction caps as [ | i caps IH]; intros acc e s l e' s'; simpl.
  - intros [= <- <- <-]. exists []. split; [symmetry; apply app_nil_r | constructor].
  - intros Hrun.
    apply bind_Return in Hrun as ([acc1 e1] & s1 & Hstep & Hrest).
    apply bind_Return in Hstep as ([l1 e2] & s2 & Hser & Hstep).
    injection Hstep as <- <- <-.
    apply IH in Hrest as (ls & -> & Hrep).
    exists (l1 :: ls). split; [simpl; rewrite app_assoc; reflexivity | ].
    econstructor; eassumption.
Qed.

(** The router sends [Alexa]/[ReportState] to [Alexa.ReportState.ReportState]. *)
Lemma invoke_ReportState request (s : session H) :
  invoke py reflection (VStr "Alexa") (VStr "ReportState") request s
  = try_except
      (try_except (ReportState py request)
         (fun _ => api_error py request "Alexa" "INTERNAL_ERROR"
                     internal_error_request VNone))
      (fun _ => api_error py request "Alexa" "INTERNAL_ERROR"
                  internal_error_directive VNone) s.
Proof. reflexivity. Qed.

(** C6, as amended.  For a [ReportState] directive whose endpoint
    resolves: when [getDevice] answers [None] the router returns the error
    envelope of type [ENDPOINT_UNREACHABLE]; otherwise, when the
    capabilities' property serializations all return, it returns a
    [StateReport] whose [context.properties] is their concatenation, and
    when one of them raises, the error envelope of type
    [INTERNAL_ERROR]. *)
Theorem ReportState_unreachable_or_reported request id e h1 d e1 h2
    (s : session H) :
  directive request = true ->
  at_path ["endpoint"; "endpointId"] request = Some id ->
  getEndpoint request (handler s) = (Return (Some e), h1) ->
  getDevice e h1 = (Return (d, e1), h2) ->
  (d = VNone ->
   invoke py reflection (VStr "Alexa") (VStr "ReportState") request s
   = (Return (error_envelope request (uuid4 py (uuids s))
                "ENDPOINT_UNREACHABLE" "Could not connect to Domoticz"),
      drawn (set_handler h2 s)))
  /\ (d <> VNone ->
      forall l e2 s2,
        report py e1 (set_handler h2 s) = (Return (l, e2), s2) ->
        invoke py reflection (VStr "Alexa") (VStr "ReportState") request s
        = (Return (envelope request "StateReport" "Alexa"
                     (uuid4 py (uuids s2)) (VDict [])
                     (VDict [("properties", VList l)])), drawn s2)
        /\ exists ls,
             reported py (capabilities (alexa e1)) e1 (set_handler h2 s)
               ls e2 s2
             /\ l = List.concat ls)
  /\ (d <> VNone ->
      forall x s2,
        report py e1 (set_handler h2 s) = (Raise x, s2) ->
        invoke py reflection (VStr "Alexa") (VStr "ReportState") request s
        = (Return (error_envelope request (uuid4 py (uuids s2))
                     "INTERNAL_ERROR" internal_error_request), drawn s2)).
Proof.
  intros Hd Hid Hep Hdev.
  assert (Hstart :
             ReportState py request s
             = (let (de, s1) := on_handler (getDevice e) (set_handler h1 s) in
                match de with
                | Return (device, e0) =>
                    (if is_None device then unreachable py request
                     else ' (l, _) <- report py e0 ;;
                          log_request request ;;
                          api_message py request "StateReport" "Alexa" VNone
                            (properties l)) s1
                | Raise x => (Raise x, s1)
                end)).
  { unfold ReportState, bind at 1.
    rewrite (endpoint_of_run _ _ _ _ Hep). unfold bind at 1.
    destruct (on_handler (getDevice e) (set_handler h1 s)) as [[[dv ev] | x] s1];
      reflexivity. }
  unfold on_handler in Hstart. cbn [handler set_handler] in Hstart.
  rewrite Hdev in Hstart.
  rewrite invoke_ReportState. unfold try_except. rewrite Hstart. clear Hstart.
  split.
  - intros ->. cbn [is_None].
    unfold unreachable, bind, lift.
    destruct request as [ | | | | | | rd]; try discriminate.
    simpl in Hid. simpl.
    destruct (assoc "endpoint" rd) as [[ | | | | | | ed] | ] eqn:Hed;
      try discriminate.
    simpl. destruct (assoc "endpointId" ed); [ | discriminate].
    rewrite api_error_directive by assumption. reflexivity.
  - split.
    + intros Hd' l e2 s2 Hrep.
      rewrite (not_None _ Hd'). unfold bind at 1.
      change (set_handler h2 (set_handler h1 s)) with (set_handler h2 s).
      rewrite Hrep. unfold bind at 1.
      rewrite (log_request_directive _ s2 Hd).
      rewrite api_message_directive by assumption.
      split; [reflexivity | ].
      unfold report in Hrep. apply report_loop in Hrep as (ls & -> & Hr).
      exists ls. split; [exact Hr | reflexivity].
    + intros Hd' x s2 Hrep.
      rewrite (not_None _ Hd'). unfold bind at 1.
      change (set_handler h2 (set_handler h1 s)) with (set_handler h2 s).
      rewrite Hrep.
      rewrite api_error_directive by assumption. reflexivity.
Qed.

(** *** Discovery *)

(** The loop of [Discover] keeps the endpoints that have a capability at
    all, in order, each with its entry. *)
Lemma exposed_equipped (e : AlexaEndpoint) :
  exposed e = if equipped e then [listed e] else [].
Proof.
  unfold exposed, equipped, listed. cbv zeta.
  destruct (capabilities e) as [ | c cs]; reflexivity.
Qed.

Lemma Discover_loop (endpoints : list E) :
  flat_map (fun endpoint : E => exposed (alexa endpoint)) endpoints
  = map (fun endpoint : E => listed (alexa endpoint))
      (filter (fun endpoint : E => equipped (alexa endpoint)) endpoints).
Proof.
  induction endpoints as [ | e l IH]; [reflexivity | ].
  cbn [flat_map filter]. rewrite IH, exposed_equipped.
  destruct (equipped (alexa e)); reflexivity.
Qed.

Lemma Discover_run request endpoints h1 (s : session H) :
  directive request = true ->
  getEndpoints (handler s) = (Return endpoints, h1) ->
  Discover py request s
  = (Return (envelope request "Discover.Response" "Alexa.Discovery"
               (uuid4 py (uuids s))
               (VDict [("endpoints",
                        VList (map (fun endpoint : E => listed (alexa endpoint))
                                 (filter
                                    (fun endpoint : E =>
                                       equipped (alexa endpoint))
                                    endpoints)))])
               VNone),
     drawn (set_handler h1 s)).
Proof.
  intros Hd Heps.
  unfold Discover, bind at 1, on_handler. rewrite Heps.
  cbv zeta. unfold bind.
  rewrite (log_request_directive _ _ Hd).
  rewrite api_message_directive by assumption.
  rewrite Discover_loop. reflexivity.
Qed.

Lemma filter_all {A : Type} (f : A -> bool) (l : list A) :
  Forall (fun a => f a = true) l -> filter f l = l.
Proof.
  induction 1 as [ | a l Ha _ IH]; [reflexivity | ].
  cbn [filter]. rewrite Ha, IH. reflexivity.
Qed.

(** C5, as amended.  The [Discover] response lists, in order, the
    endpoints the handler enumerates whose capability list is not empty,
    the identity capability counted, and leaves out the others: the loop
    drops an endpoint exactly when it has no capability at all, and an
    endpoint as its constructor leaves it, with the identity capability
    alone, is listed. *)
Theorem Discover_drops_capability_less request endpoints h1 (s : session H) :
  directive request = true ->
  getEndpoints (handler s) = (Return endpoints, h1) ->
  Discover py request s
  = (Return (envelope request "Discover.Response" "Alexa.Discovery"
               (uuid4 py (uuids s))
               (VDict [("endpoints",
                        VList (map (fun endpoint : E => listed (alexa endpoint))
                                 (filter
                                    (fun endpoint : E =>
                                       equipped (alexa endpoint))
                                    endpoints)))])
               VNone),
     drawn (set_handler h1 s))
  /\ (forall e : AlexaEndpoint, exposed e = [] <-> capabilities e = [])
  /\ (forall endpointId friendlyName description manufacturerName,
        let e := init endpointId friendlyName description manufacturerName in
        capabilities e = [new AlexaInterface] /\ exposed e = [listed e]).
Proof.
  intros Hd Heps. split; [apply Discover_run; assumption | ]. split.
  - intros e. rewrite exposed_equipped. unfold equipped.
    destruct (capabilities e) as [ | c cs]; split; (reflexivity || discriminate).
  - intros. split; reflexivity.
Qed.

(** X2.  [Discover] exposes every endpoint the handler enumerates that has a
    capability, the identity capability included, each with its serialized
    capabilities, in order. *)
Lemma Discover_exposes_all request endpoints h1 (s : session H) :
  directive request = true ->
  getEndpoints (handler s) = (Return endpoints, h1) ->
  Forall (fun e => capabilities (alexa e) <> []) endpoints ->
  Discover py request s
  = (Return (envelope request "Discover.Response" "Alexa.Discovery"
               (uuid4 py (uuids s))
               (VDict [("endpoints",
                        VList (map (fun endpoint : E =>
                                      VDict (dict_set "capabilities"
                                               (VList (map serializeDiscovery
                                                         (capabilities
                                                            (alexa endpoint))))
                                               (discovery_endpoint
                                                  (alexa endpoint))))
                                  endpoints))])
               VNone),
     drawn (set_handler h1 s)).
Proof.
  intros Hd Heps Hcaps.
  rewrite (Discover_run request endpoints h1 s Hd Heps).
  rewrite filter_all; [reflexivity | ].
  eapply Forall_impl; [ | exact Hcaps].
  intros e He. cbv beta in He. unfold equipped.
  destruct (capabilities (alexa e)); [congruence | reflexivity].
Qed.

End Router.

(** *** The temperature of a setpoint *)

(** C3.  [temperature_from_object] yields Celsius: with [v] the value of
    the object as a float, a [FAHRENHEIT] object maps to [(v - 32) / 1.8],
    a [KELVIN] object to [v - 273.15], a [CELSIUS] object to [v]; a result
    read back as Celsius is unchanged, 32 Fahrenheit is 0 and 273.15 Kelvin
    is 0. *)
Theorem temperature_normalized py (temp_obj x : value) (v : float) :
  subscript temp_obj "value" = Return x ->
  float_ py x = Return v ->
  (subscript temp_obj "scale" = Return (VStr "FAHRENHEIT") ->
   temperature_from_object py temp_obj = Return ((v - 32.0) / 1.8)%float)
  /\ (subscript temp_obj "scale" = Return (VStr "KELVIN") ->
      temperature_from_object py temp_obj = Return (v - 273.15)%float)
  /\ (subscript temp_obj "scale" = Return (VStr "CELSIUS") ->
      temperature_from_object py temp_obj = Return v)
  /\ (forall c, temperature_from_object py temp_obj = Return c ->
                temperature_from_object py (setpoint c "CELSIUS") = Return c)
  /\ temperature_from_object py (setpoint 32.0 "FAHRENHEIT") = Return 0%float
  /\ temperature_from_object py (setpoint 273.15 "KELVIN") = Return 0%float.
Proof.
  intros Hx Hv. unfold temperature_from_object. rewrite Hx, Hv.
  repeat split; try (intros ->; reflexivity); reflexivity.
Qed.

(** *** The Domoticz handler behind the router *)
Section Switch.
Import DomoticzHandler.
Variable py : Python.
Variable server : list query -> query -> value.
Variable reflection : @Reflection Domoticz.

Lemma getEndpoint_switch request i (h : Domoticz) :
  at_path ["endpoint"; "endpointId"] request
  = Some (VStr (String.append "SwitchLight-" i)) ->
  exists e,
    Domoticz_getEndpoint request h = (Return (Some e), h)
    /\ class e = SwitchLightEndpoint /\ idx e = Some i
    /\ has_handler e = true
    /\ endpointId (super e) = VStr (String.append "SwitchLight-" i).
Proof.
  intros Hid.
  destruct request as [ | | | | | | rd]; try discriminate. simpl in Hid.
  destruct (assoc "endpoint" rd) as [[ | | | | | | ed] | ] eqn:Hed;
    try discriminate.
  simpl in Hid.
  destruct (assoc "endpointId" ed) as [x | ] eqn:Hx; [ | discriminate].
  injection Hid as ->.
  unfold Domoticz_getEndpoint, bind, lift, the_devices, ret. simpl.
  rewrite Hed. simpl. rewrite Hx. simpl.
  destruct (truthy match assoc i (devices h) with
                   | Some d => d
                   | None => VNone
                   end);
    eexists; (split; [reflexivity | repeat split]).
Qed.

Lemma switch_turnOn e i (h : Domoticz) :
  class e = SwitchLightEndpoint -> idx e = Some i -> has_handler e = true ->
  exists h', endpoint_perform py server turnOn e h = (Return e, h').
Proof.
  intros Hc Hi Hh.
  unfold endpoint_perform, bind, self_idx, setSwitch, bind, api, ret.
  rewrite Hc, Hh, Hi. simpl. eauto.
Qed.

(** C9.  A [TurnOn] directive for a [SwitchLight] endpoint is answered
    with a response whose [context.properties] holds exactly one reading:
    [powerState] of [Alexa.PowerController] with value ["ON"]; the endpoint
    was called with [turnOn]. *)
Theorem TurnOn_switch_reports_ON request i (s : session Domoticz) :
  directive request = true ->
  at_path ["endpoint"; "endpointId"] request
  = Some (VStr (String.append "SwitchLight-" i)) ->
  exists r s',
    invoke py (adapter := Domoticz_adapter py server) reflection
      (VStr "Alexa.PowerController") (VStr "TurnOn") request s
    = (Return r, s')
    /\ at_path ["context"; "properties"] r
       = Some (VList [VDict [("name", VStr "powerState");
                             ("namespace", VStr "Alexa.PowerController");
                             ("value", VStr "ON");
                             ("timeOfSample",
                              VStr (String.append (utcnow py (ticks s)) "Z"));
                             ("uncertaintyInMilliseconds", VInt 0)]])
    /\ journal s' = journal s
                    ++ [(VStr (String.append "SwitchLight-" i), turnOn)].
Proof.
  intros Hd Hid.
  destruct (getEndpoint_switch request i (handler s) Hid)
    as (e & Hep & Hc & Hi & Hh & He).
  destruct (switch_turnOn e i (handler s) Hc Hi Hh) as [h' Hon].
  change (invoke py (adapter := Domoticz_adapter py server) reflection
            (VStr "Alexa.PowerController") (VStr "TurnOn") request s)
    with (try_except
            (try_except (TurnOn py (adapter := Domoticz_adapter py server)
                           request)
               (fun _ => api_error py request "Alexa" "INTERNAL_ERROR"
                           internal_error_request VNone))
            (fun _ => api_error py request "Alexa" "INTERNAL_ERROR"
                        internal_error_directive VNone) s).
  unfold try_except, TurnOn, bind at 1.
  rewrite (log_request_directive _ s Hd).
  unfold bind at 1, endpoint_of, on_handler at 1.
  cbn [getEndpoint Domoticz_adapter]. rewrite Hep.
  unfold bind at 1, call, bind at 1, note, bind at 1, on_handler.
  cbn [handler set_handler noted perform Domoticz_adapter]. rewrite Hon.
  unfold bind, timestamp. rewrite api_message_directive by assumption.
  eexists _, _. split; [reflexivity | ]. split.
  - rewrite envelope_context by reflexivity. reflexivity.
  - cbn [journal drawn ticked set_handler noted alexa Domoticz_adapter].
    rewrite He. reflexivity.
Qed.

(** Every endpoint class adds a capability of its own behind the identity
    capability. *)
Lemma construct_capabilities c endpointId friendlyName description
    manufacturerName :
  exists i rest,
    capabilities
      (super (construct c endpointId friendlyName description manufacturerName))
    = new AlexaInterface :: i :: rest.
Proof. destruct c; eexists _, _; reflexivity. Qed.

End Switch.

(** *** Runs of the router *)
Section Runs.
Import DomoticzHandler Examples.

(** C2, at a failing input.  A dimmer at level 90 asked to brighten by 50
    is set to 140, and 140 is what the response reports: the brightness
    operations do not clamp to 0..100 as [SetPercentage] does. *)
Lemma AdjustBrightness_exceeds_range :
  exists r s',
    run dimmer brighten = (Return r, s')
    /\ at_path ["context"; "properties"] r
       = Some (VList [reading (VStr "brightness") "Alexa.BrightnessController"
                        (VInt 140) "2024-01-01T00:00:00Z"])
    /\ journal s' = [(VStr "SwitchLight-7", setBrightness (VInt 140))]
    /\ sent (handler s') = [switchlight_level "7" (VInt 140)].
Proof.
  eexists _, _. split; [vm_compute; reflexivity | ].
  repeat split.
Qed.

(** [SetBrightness] passes an out-of-range brightness on as it is. *)
Lemma SetBrightness_exceeds_range :
  exists r s',
    run dimmer
      (request_for "Alexa.BrightnessController" "SetBrightness" "SwitchLight-7"
         (VDict [("brightness", VInt 150)]))
    = (Return r, s')
    /\ at_path ["context"; "properties"] r
       = Some (VList [reading (VStr "brightness") "Alexa.BrightnessController"
                        (VInt 150) "2024-01-01T00:00:00Z"])
    /\ sent (handler s') = [switchlight_level "7" (VInt 150)].
Proof.
  eexists _, _. split; [vm_compute; reflexivity | ].
  repeat split.
Qed.

(** C4, a counterexample.  A directive whose header carries the empty
    string as its correlation token is answered without a correlation
    token. *)
Lemma empty_correlation_token_dropped :
  at_path ["header"; "correlationToken"] empty_token = Some (VStr "")
  /\ exists r s',
       run dimmer empty_token = (Return r, s')
       /\ at_path ["event"; "header"; "correlationToken"] r = None.
Proof.
  split; [reflexivity | ].
  eexists _, _. split; [vm_compute; reflexivity | reflexivity].
Qed.

(** C5, a counterexample.  An endpoint with no capability besides the
    identity capability is not filtered out: the loop of [Discover] lists
    it, with that capability alone. *)
Lemma identity_only_endpoint_listed :
  capabilities bare = [new AlexaInterface]
  /\ exposed bare
     = [VDict [("endpointId", VStr "Bare-1");
               ("friendlyName", VStr "Bare");
               ("description", VStr "");
               ("manufacturerName", VStr "");
               ("displayCategories", VList []);
               ("additionalApplianceDetails", VDict []);
               ("capabilities",
                VList [VDict [("type", VStr "AlexaInterface");
                              ("interface", VStr "Alexa");
                              ("version", VStr "3")]])]].
Proof. split; reflexivity. Qed.

(** C6, a counterexample.  The endpoint resolves and its device is
    cached, but reading the brightness of a device whose [Level] is [null]
    raises: the router answers [INTERNAL_ERROR], not a [StateReport]. *)
Lemma ReportState_read_raises :
  fst (run unread report_switch)
  = Return (error_envelope report_switch "id-0" "INTERNAL_ERROR"
              internal_error_request).
Proof. vm_compute. reflexivity. Qed.

(** C7, a counterexample.  [SetThermostatMode] with the mode object
    [{"value": "heat"}] calls [setThermostatMode("heat")] on the endpoint
    and reports ["heat"]: neither is the upper-case ["HEAT"].  What the
    Domoticz server is sent is the level of the mode, 10. *)
Lemma SetThermostatMode_keeps_case :
  exists r s',
    run thermostat heat = (Return r, s')
    /\ journal s' = [(VStr "Thermostat-5", setThermostatMode (VStr "heat"))]
    /\ at_path ["context"; "properties"] r
       = Some (VList [reading (VStr "thermostatMode")
                        "Alexa.ThermostatController" (VStr "heat")
                        "2024-01-01T00:00:00Z"])
    /\ sent (handler s') = [switchlight_level "5" (VInt 10)]
    /\ VStr "heat" <> VStr "HEAT".
Proof.
  eexists _, _. split; [vm_compute; reflexivity | ].
  repeat split. discriminate.
Qed.

(** A thermostat whose level names are not upper-case cannot be set at
    all: [names.index] looks the upper-cased mode up among the names as
    they are, and the router answers [INTERNAL_ERROR]. *)
Lemma SetThermostatMode_mixed_case_names :
  exists r s',
    run [("5", VDict [("LevelNames", VStr "Off|Heat|Cool|Auto")])]
      (request_for "Alexa.ThermostatController" "SetThermostatMode"
         "Thermostat-5" (VDict [("thermostatMode", VStr "HEAT")]))
    = (Return r, s')
    /\ at_path ["event"; "payload"; "type"] r = Some (VStr "INTERNAL_ERROR")
    /\ sent (handler s') = [].
Proof.
  eexists _, _. split; [vm_compute; reflexivity | ].
  repeat split.
Qed.


End Runs.

(** *** The theorems at concrete directives *)
Section Witnesses.
Import DomoticzHandler DomoticzSpec Examples.


Lemma temperature_normalized_witness :
  temperature_from_object python (setpoint 212 "FAHRENHEIT")
  = Return 100%float.
Proof.
  apply (proj1 (temperature_normalized python (setpoint 212 "FAHRENHEIT")
                  (VFloat 212) 212%float eq_refl eq_refl)).
  reflexivity.
Defined.

Lemma correlation_token_echoed_witness :
  exists r s',
    invoke python (adapter := Domoticz_adapter python silent) no_reflection
      (VStr "Alexa.BrightnessController") (VStr "AdjustBrightness") brighten
      (domoticz dimmer)
    = (Return r, s')
    /\ at_path ["event"; "header"; "correlationToken"] r
       = Some (VStr "token-1").
Proof.
  apply (correlation_token_echoed python
           (adapter := Domoticz_adapter python silent) no_reflection
           (VStr "Alexa.BrightnessController") (VStr "AdjustBrightness")
           brighten (domoticz dimmer) eq_refl).
  vm_compute. discriminate.
Defined.

(** A cached dimmer: the report is that of its two controllers. *)
Lemma ReportState_unreachable_or_reported_witness :
  exists s',
    invoke python (adapter := Domoticz_adapter python silent) no_reflection
      (VStr "Alexa") (VStr "ReportState") report_switch (domoticz dimmer)
    = (Return (envelope report_switch "StateReport" "Alexa" "id-0" (VDict [])
                 (VDict [("properties",
                          VList [reading (VStr "powerState")
                                   "Alexa.PowerController" (VStr "OFF")
                                   "2024-01-01T00:00:00Z";
                                 reading (VStr "brightness")
                                   "Alexa.BrightnessController" (VInt 90)
                                   "2024-01-01T00:00:00Z"])])), s').
Proof.
  unshelve epose proof
    (ReportState_unreachable_or_reported python
       (adapter := Domoticz_adapter python silent) no_reflection
       report_switch (VStr "SwitchLight-7") _ _
       (VDict [("Level", VInt 90)]) _ _ (domoticz dimmer)
       eq_refl eq_refl _ _) as W;
    [ | | | | vm_compute; reflexivity | vm_compute; reflexivity | ].
  unshelve epose proof (proj1 (proj2 W) _ _ _ _ _) as R;
    [ discriminate | | | | vm_compute; reflexivity | ].
  eexists. exact (proj1 R).
Defined.

Lemma SetThermostatMode_passes_bare_mode_witness :
  exists out s',
    SetThermostatMode python (adapter := Domoticz_adapter python silent) heat
      (domoticz thermostat)
    = (out, s')
    /\ journal s' = [(VStr "Thermostat-5", setThermostatMode (VStr "heat"))]
    /\ forall r, out = Return r ->
         at_path ["context"; "properties"] r
         = Some (VList [reading (VStr "thermostatMode")
                          "Alexa.ThermostatController" (VStr "heat")
                          "2024-01-01T00:00:00Z"]).
Proof.
  unshelve epose proof
    (SetThermostatMode_passes_bare_mode python
       (adapter := Domoticz_adapter python silent) heat
       (VDict [("value", VStr "heat")]) (VStr "heat") _ _
       (domoticz thermostat) eq_refl eq_refl eq_refl _) as W;
    [ | | vm_compute; reflexivity | exact W].
Defined.

(** The thermostat controller of a thermostat without a setpoint: the
    target setpoint is absent and left out, the mode is read. *)
Lemma serializeProperties_omits_absent_witness :
  let e := decoded ThermostatEndpoint "Thermostat" "5" heat
             (handler (domoticz thermostat)) in
  exists i e' s',
    In i (capabilities (alexa (Adapter := Domoticz_adapter python silent) e))
    /\ serialized python (adapter := Domoticz_adapter python silent)
         "Alexa.ThermostatController"
         [prop "targetSetpoint"; prop "thermostatMode"] e (domoticz thermostat)
         [reading (VStr "thermostatMode") "Alexa.ThermostatController"
            (VStr "OFF") "2024-01-01T00:00:00Z"]
         e' s'.
Proof.
  intros e.
  unshelve epose proof
    (serializeProperties_omits_absent python
       (adapter := Domoticz_adapter python silent)
       (nth 2 (capabilities (alexa (Adapter := Domoticz_adapter python silent)
                               e))
          (new AlexaInterface))
       e (domoticz thermostat) _ _ _ _) as W;
    [ | | | vm_compute; reflexivity | ].
  eexists _, _, _. split; [ | exact (proj1 W)].
  right. right. left. reflexivity.
Defined.

Lemma TurnOn_switch_reports_ON_witness :
  exists r s',
    invoke python (adapter := Domoticz_adapter python silent) no_reflection
      (VStr "Alexa.PowerController") (VStr "TurnOn")
      (request_for "Alexa.PowerController" "TurnOn" "SwitchLight-7" (VDict []))
      (domoticz dimmer)
    = (Return r, s')
    /\ at_path ["context"; "properties"] r
       = Some (VList [VDict [("name", VStr "powerState");
                             ("namespace", VStr "Alexa.PowerController");
                             ("value", VStr "ON");
                             ("timeOfSample", VStr "2024-01-01T00:00:00Z");
                             ("uncertaintyInMilliseconds", VInt 0)]])
    /\ journal s' = [(VStr "SwitchLight-7", turnOn)].
Proof.
  apply (TurnOn_switch_reports_ON python silent no_reflection
           (request_for "Alexa.PowerController" "TurnOn" "SwitchLight-7"
              (VDict []))
           "7" (domoticz dimmer) eq_refl eq_refl).
Defined.

(** A dimmer at level 0: the baseline is 50, not 0. *)
Lemma AdjustBrightness_baseline_witness :
  exists out s',
    AdjustBrightness python (adapter := Domoticz_adapter python silent)
      brighten (domoticz [("7", VDict [("Level", VInt 0)])])
    = (out, s')
    /\ journal s' = [(VStr "SwitchLight-7", setBrightness (VInt 100))]
    /\ forall r, out = Return r ->
         at_path ["context"; "properties"] r
         = Some (VList [reading (VStr "brightness") "Alexa.BrightnessController"
                          (VInt 100) "2024-01-01T00:00:00Z"]).
Proof.
  unshelve epose proof
    (AdjustBrightness_baseline python
       (adapter := Domoticz_adapter python silent) brighten
       (VInt 50) 50 _ _ (VInt 0) _ _
       (domoticz [("7", VDict [("Level", VInt 0)])])
       eq_refl eq_refl eq_refl _ _ (or_intror eq_refl)) as W;
    [ | | | | vm_compute; reflexivity | vm_compute; reflexivity | exact W].
Defined.

Lemma SetPercentage_clamps_witness :
  exists out s' v,
    SetPercentage python (adapter := Domoticz_adapter python silent)
      (request_for "Alexa.PercentageController" "SetPercentage" "Blind-4"
         (VDict [("percentage", VInt 150)]))
      (domoticz [])
    = (out, s')
    /\ v = 100
    /\ 0 <= v <= 100
    /\ journal s' = [(VStr "Blind-4", setPercentage v)]
    /\ forall r, out = Return r ->
         at_path ["context"; "properties"] r
         = Some (VList [reading (VStr "percentage")
                          "Alexa.PercentageController" (VInt v)
                          "2024-01-01T00:00:00Z"]).
Proof.
  unshelve epose proof
    (SetPercentage_clamps python
       (adapter := Domoticz_adapter python silent)
       (request_for "Alexa.PercentageController" "SetPercentage" "Blind-4"
          (VDict [("percentage", VInt 150)]))
       (VInt 150) 150 _ _ (domoticz []) eq_refl eq_refl eq_refl _) as W;
    [ | | vm_compute; reflexivity | exact W].
Defined.

(** A server that lists one lamp. *)
Lemma Discover_exposes_all_witness :
  exists r s',
    Discover python (adapter := Domoticz_adapter python listing) discover
      (domoticz [])
    = (Return r, s')
    /\ at_path ["event"; "payload"; "endpoints"] r
       = Some (VList
                 [VDict [("endpointId", VStr "SwitchLight-7");
                         ("friendlyName", VStr "Lamp");
                         ("description", VStr "Light/Switch");
                         ("manufacturerName", VStr "Domoticz");
                         ("displayCategories", VList [VStr "LIGHT"]);
                         ("additionalApplianceDetails", VDict []);
                         ("capabilities",
                          VList
                            [serializeDiscovery (new AlexaInterface);
                             serializeDiscovery (new AlexaPowerController);
                             serializeDiscovery
                               (new AlexaBrightnessController)])]]).
Proof.
  unshelve epose proof
    (Discover_exposes_all python (adapter := Domoticz_adapter python listing)
       discover _ _ (domoticz []) eq_refl _ _) as W;
    [ | | vm_compute; reflexivity
      | repeat constructor; discriminate | ].
  eexists _, _. split; [exact W | reflexivity].
Defined.

Lemma Discover_drops_capability_less_witness :
  exists r s',
    Discover python (adapter := Domoticz_adapter python listing) discover
      (domoticz [])
    = (Return r, s')
    /\ exists e, at_path ["event"; "payload"; "endpoints"] r = Some (VList [e])
       /\ at_path ["endpointId"] e = Some (VStr "SwitchLight-7").
Proof.
  unshelve epose proof
    (proj1 (Discover_drops_capability_less python
       (adapter := Domoticz_adapter python listing)
       discover _ _ (domoticz []) eq_refl _)) as W;
    [ | | vm_compute; reflexivity | ].
  eexists _, _. split; [exact W | ].
  eexists. split; reflexivity.
Defined.

End Witnesses.

(** ** The router, directive by directive *)

(** [s.split(sep)] is never empty, and [sep.join(s.split(sep)) == s]. *)
Lemma split_nonempty c s : split c s <> [].
Proof.
  destruct s as [ | a s]; simpl; [discriminate | ].
  destruct (Ascii.eqb a c); [discriminate | ].
  destruct (split c s); discriminate.
Qed.

Lemma concat_split c s : String.concat (String c "") (split c s) = s.
Proof.
  induction s as [ | a s IH]; [reflexivity | ]. simpl.
  destruct (Ascii.eqb a c) eqn:Ha.
  - apply Ascii.eqb_eq in Ha. subst a.
    destruct (split c s) as [ | w ws] eqn:Hs;
      [exfalso; eapply split_nonempty; eassumption | ].
    simpl in IH |- *. rewrite IH. reflexivity.
  - destruct (split c s) as [ | w ws] eqn:Hs;
      [exfalso; eapply split_nonempty; eassumption | ].
    destruct ws as [ | w' ws]; simpl in IH |- *; rewrite IH; reflexivity.
Qed.

Lemma split1_app c p s :
  free_of c p = true ->
  split1 c (String.append p (String c s)) = [p; s].
Proof.
  induction p as [ | a p IH]; simpl.
  - intros _. rewrite Ascii.eqb_refl. reflexivity.
  - intros Hf. apply andb_prop in Hf as [Ha Hp].
    apply negb_true_iff in Ha. rewrite Ha, (IH Hp). reflexivity.
Qed.

Lemma split1_free c s : free_of c s = true -> split1 c s = [s].
Proof.
  induction s as [ | a s IH]; simpl; [reflexivity | ].
  intros Hf. apply andb_prop in Hf as [Ha Hs].
  apply negb_true_iff in Ha. rewrite Ha, (IH Hs). reflexivity.
Qed.

Lemma split_free c s : free_of c s = true -> split c s = [s].
Proof.
  induction s as [ | a s IH]; simpl; [reflexivity | ].
  intros Hf. apply andb_prop in Hf as [Ha Hs].
  apply negb_true_iff in Ha. rewrite Ha, (IH Hs). reflexivity.
Qed.

Lemma split_app c p s :
  split c (String.append p (String c s)) = split c p ++ split c s.
Proof.
  induction p as [ | a p IH]; simpl.
  - rewrite Ascii.eqb_refl. reflexivity.
  - destruct (Ascii.eqb a c); rewrite IH; [reflexivity | ].
    destruct (split c p) as [ | w ws] eqn:Hp;
      [exfalso; eapply split_nonempty; eassumption | reflexivity].
Qed.

(** The segments of [a.__call__. ... .__call__]. *)
Lemma split_called k : forall a,
  split "." (called k a) = split "." a ++ repeat "__call__" k.
Proof.
  induction k as [ | k IH]; intros a.
  - unfold called. cbn [repeat String.concat]. symmetry. apply app_nil_r.
  - change (called (S k) a)
      with (String.append a (String "." (called k "__call__"))).
    rewrite split_app, IH. reflexivity.
Qed.

Lemma concat_group b l :
  String.concat "." ("Alexa" :: b :: l)
  = String.concat "." (String.append "Alexa." b :: l).
Proof.
  destruct l as [ | c l]; cbn [String.concat].
  - reflexivity.
  - generalize (String.concat "." (c :: l)). intros rest. reflexivity.
Qed.

Section Routing.
Context (py : Python) {H E : Type} {adapter : Adapter H E}.
Variable reflection : @Reflection H.

(** X7.  A directive whose namespace leads to no handler group, or whose
    name leads to no operation of the group, the lookup meeting no
    attribute but the program's, is answered without the backend being
    touched: the router returns the [INTERNAL_ERROR] envelope with its fixed
    message and leaves the handler and the journal as they were. *)
Theorem unresolved_directive_leaves_backend request namespace name
    (s : session H) :
  directive request = true ->
  (resolve py reflection namespace name = NoGroup ->
   invoke py reflection namespace name request s
   = (Return (error_envelope request (uuid4 py (uuids s)) "INTERNAL_ERROR"
                internal_error_directive), drawn s))
  /\ (forall g, resolve py reflection namespace name = NoOperation g ->
      invoke py reflection namespace name request s
      = (Return (error_envelope request (uuid4 py (uuids s)) "INTERNAL_ERROR"
                   internal_error_request), drawn s)).
Proof.
  intros Hd. unfold resolve, invoke.
  generalize (if eq_str namespace "Alexa" && eq_str name "ReportState"
              then VStr "Alexa.ReportState" else namespace).
  intros ns. split.
  - intros Hr.
    destruct ns as [ | | | | n | | ];
      try (eapply guarded_raises; [assumption | reflexivity]).
    destruct (target_of py reflection (split "." n)) as [g | | a | | ];
      try (eapply guarded_raises; [assumption | reflexivity]);
      try discriminate;
      try (destruct (string_attribute reflection name);
           [discriminate | eapply guarded_raises; [assumption | reflexivity]]).
    destruct name as [ | | | | m | | ]; try discriminate.
    destruct (member_of py reflection g (split "." m)); discriminate.
  - intros g0 Hr.
    destruct ns as [ | | | | n | | ]; try discriminate.
    destruct (target_of py reflection (split "." n)) as [g | | a | | ];
      try discriminate;
      try (destruct (string_attribute reflection name); discriminate).
    assert (Hin : call_invoke py reflection g n name request s
                  = (Return (error_envelope request (uuid4 py (uuids s))
                               "INTERNAL_ERROR" internal_error_request),
                     drawn s)).
    { unfold call_invoke.
      destruct name as [ | | | | m | | ];
        try (eapply guarded_raises; [assumption | reflexivity]).
      destruct (member_of py reflection g (split "." m)) as [f | | a | ];
        try discriminate;
        (eapply guarded_raises; [assumption | reflexivity]). }
    unfold try_except at 1. rewrite Hin. reflexivity.
Qed.

Lemma lookup_Some_In {A : Type} k (l : list (string * A)) a :
  lookup k l = Some a -> In (k, a) l.
Proof.
  induction l as [ | [k' a'] l IH]; simpl; [discriminate | ].
  destruct (String.eqb_spec k k') as [-> | Hk].
  - intros [= ->]. left. reflexivity.
  - intros Hl. right. apply IH. exact Hl.
Qed.

Lemma target_of_called b g k :
  lookup b groups = Some g ->
  target_of py reflection ("Alexa" :: b :: repeat "__call__" k) = Group g.
Proof.
  intros Hb. unfold target_of.
  change (String.eqb "Alexa" "Alexa") with true. cbv iota. rewrite Hb.
  destruct k as [ | k]; [reflexivity | ]. cbn [repeat].
  replace (function_target py g "__call__") with (@None target)
    by (destruct g; reflexivity).
  cbn [beneath]. change (String.eqb "__call__" "__call__") with true.
  cbv iota. apply beneath_called.
Qed.

Lemma member_of_called g a f k :
  lookup a (operations py g) = Some f ->
  member_of py reflection g (a :: repeat "__call__" k) = Method f.
Proof. intros Ha. unfold member_of. rewrite Ha. apply below_called. Qed.

Lemma resolve_called ns0 b g a f j k :
  split "." ns0 = ["Alexa"; b] ->
  split "." a = [a] ->
  lookup b groups = Some g ->
  lookup a (operations py g) = Some f ->
  resolve py reflection (VStr (called j ns0)) (VStr (called k a))
  = Operation g f.
Proof.
  intros Hns Ha Hb Hf. unfold resolve.
  replace (eq_str (VStr (called j ns0)) "Alexa") with false.
  - cbn [andb]. rewrite !split_called, Hns, Ha. cbn [app].
    rewrite (target_of_called _ _ _ Hb), (member_of_called _ _ _ _ Hf).
    reflexivity.
  - symmetry. cbn [eq_str]. apply String.eqb_neq. intros Heq.
    pose proof (split_called j ns0) as Hs. rewrite Heq, Hns in Hs.
    discriminate.
Qed.

(** X8.  The routing table: a namespace and a name reach an operation
    exactly when they are [Alexa] and [ReportState], or one of the fifteen
    other pairs of [routes], each of the two followed by any number of
    [.__call__]. *)
Theorem routing_table ns n :
  (exists g f, resolve py reflection (VStr ns) (VStr n) = Operation g f)
  <-> (ns = "Alexa" /\ n = "ReportState")
      \/ exists ns0 n0 j k,
           In (ns0, n0) routes /\ ns0 <> "Alexa"
           /\ ns = called j ns0 /\ n = called k n0.
Proof.
  split.
  - intros (g & f & Hr). unfold resolve in Hr.
    destruct (eq_str (VStr ns) "Alexa" && eq_str (VStr n) "ReportState")
      eqn:Hspecial.
    + apply andb_prop in Hspecial as [Hns Hn]. simpl in Hns, Hn.
      apply String.eqb_eq in Hns, Hn. left. split; assumption.
    + destruct (target_of py reflection (split "." ns)) as [g' | | a | | ] eqn:Ht;
        try discriminate;
        try (destruct (string_attribute reflection (VStr n)); discriminate).
      destruct (member_of py reflection g' (split "." n)) as [f' | | a | ] eqn:Hm;
        try discriminate.
      apply target_of_Group in Ht as (b & j & Hb & Hg).
      apply member_of_Method_path in Hm as (a & k & Ha & Hop).
      pose proof (concat_split "." ns) as Hns. rewrite Hb in Hns.
      pose proof (concat_split "." n) as Hn. rewrite Ha in Hn.
      change (String "." "") with "."%string in Hns, Hn.
      rewrite concat_group in Hns.
      right. exists (String.append "Alexa." b), a, j, k.
      split; [ | split; [ | split; symmetry; assumption]].
      * apply lookup_Some_In in Hg. apply lookup_Some_In in Hop.
        simpl in Hg.
        repeat (destruct Hg as [Hg | Hg];
                [injection Hg as <- <-; simpl in Hop;
                 repeat (destruct Hop as [Hop | Hop];
                         [injection Hop as <- _; simpl; tauto | ]);
                 contradiction | ]).
        contradiction.
      * destruct b; discriminate.
  - intros [[-> ->] | (ns0 & n0 & j & k & Hin & Hne & -> & ->)].
    + eexists _, _. reflexivity.
    + simpl in Hin.
      repeat (destruct Hin as [Hin | Hin];
              [injection Hin as <- <-;
               first [ exfalso; apply Hne; reflexivity
                     | eexists _, _;
                       eapply (resolve_called _ _ _ _ _ j k); reflexivity ]
              | ]).
      contradiction.
Qed.

(** Names as they resolve: an attribute no object has is a missing
    attribute, and a callable reached through its [__call__] is itself. *)
Lemma missing_attributes_unresolved :
  defines reflection an_instance "__bogus__" = false ->
  defines reflection a_class "__bogus__" = false ->
  defines reflection the_handler "nope" = false ->
  defines reflection a_string "TurnOn" = false ->
  resolve py reflection (VStr "Alexa.PowerController") (VStr "__bogus__")
  = NoOperation Alexa_PowerController
  /\ resolve py reflection (VStr "Alexa.PowerController") (VStr "handler.nope")
     = NoOperation Alexa_PowerController
  /\ resolve py reflection (VStr "Alexa.PowerController") (VStr "invoke")
     = NoOperation Alexa_PowerController
  /\ resolve py reflection (VStr "Alexa.__bogus__") (VStr "TurnOn") = NoGroup
  /\ resolve py reflection (VStr "__bogus__") (VStr "TurnOn") = NoGroup
  /\ resolve py reflection (VStr "Alexa.PowerController.TurnOn") (VStr "TurnOn")
     = NoGroup
  /\ resolve py reflection (VStr "Alexa.PowerController.invoke") (VStr "TurnOn")
     = NoGroup
  /\ resolve py reflection (VStr "Alexa.PowerController.__call__")
       (VStr "TurnOn.__call__")
     = Operation Alexa_PowerController (TurnOn py).
Proof.
  intros Hi Hc Hh Hs.
  unfold resolve, target_of, member_of, string_attribute, foreign. simpl.
  unfold foreign. simpl. rewrite Hi, Hc, Hh, Hs.
  repeat split; reflexivity.
Qed.

(** *** Names of the program are served alike under every reflection *)

Lemma below_agrees (r1 r2 : @Reflection H) rest : forall p m,
  below r1 p m rest <> Foreign ->
  below r2 p m rest <> Foreign ->
  below r1 p m rest = below r2 p m rest.
Proof.
  induction rest as [ | b rest IH]; intros p m; cbn [below]; [reflexivity | ].
  destruct (String.eqb b "__call__"); [apply IH | ].
  destruct (foreign r1 p b), (foreign r2 p b); congruence.
Qed.

Lemma member_of_agrees (r1 r2 : @Reflection H) g path :
  member_of py r1 g path <> Foreign ->
  member_of py r2 g path <> Foreign ->
  member_of py r1 g path = member_of py r2 g path.
Proof.
  unfold member_of. destruct path as [ | a rest]; [reflexivity | ].
  destruct (lookup a (operations py g)); [apply below_agrees | ].
  destruct (mem a (helpers g)); [apply below_agrees | ].
  destruct (String.eqb a "handler").
  - destruct rest as [ | b rest];
      match goal with
      | |- (if ?c then _ else _) <> _ -> (if ?d then _ else _) <> _ -> _ =>
          destruct c, d; congruence
      end.
  - destruct (mem a fields).
    + destruct rest as [ | b rest]; [reflexivity | ].
      destruct (foreign r1 a_string b), (foreign r2 a_string b); congruence.
    + destruct (foreign r1 an_instance a), (foreign r2 an_instance a);
        congruence.
Qed.

Lemma beneath_agrees (r1 r2 : @Reflection H) rest : forall p t,
  beneath r1 p t rest <> ForeignTarget ->
  beneath r2 p t rest <> ForeignTarget ->
  beneath r1 p t rest = beneath r2 p t rest.
Proof.
  induction rest as [ | b rest IH]; intros p t; cbn [beneath]; [reflexivity | ].
  destruct (String.eqb b "__call__"); [apply IH | ].
  destruct (foreign r1 p b), (foreign r2 p b); congruence.
Qed.

Lemma target_of_agrees (r1 r2 : @Reflection H) path :
  target_of py r1 path <> ForeignTarget ->
  target_of py r2 path <> ForeignTarget ->
  target_of py r1 path = target_of py r2 path.
Proof.
  unfold target_of. destruct path as [ | a rest]; [reflexivity | ].
  destruct (String.eqb a "Alexa"); [ | apply beneath_agrees].
  destruct rest as [ | b rest]; [reflexivity | ].
  destruct (lookup b groups) as [g | ]; [ | apply beneath_agrees].
  destruct rest as [ | c rest]; [reflexivity | ].
  destruct (function_target py g c); apply beneath_agrees.
Qed.

(** A namespace and a name that meet no attribute but the program's under
    two reflections are served alike under both. *)
Lemma invoke_ignores_reflection (r1 r2 : @Reflection H) namespace name request :
  resolve py r1 namespace name <> Reflected ->
  resolve py r2 namespace name <> Reflected ->
  invoke py r1 namespace name request = invoke py r2 namespace name request.
Proof.
  unfold resolve, invoke.
  generalize (if eq_str namespace "Alexa" && eq_str name "ReportState"
              then VStr "Alexa.ReportState" else namespace).
  intros ns H1 H2.
  destruct ns as [ | | | | n | | ]; try reflexivity.
  rewrite (target_of_agrees r1 r2 (split "." n))
    in H1 |- * by (intros Ht; rewrite Ht in *; congruence).
  destruct (target_of py r2 (split "." n)) as [g | | a | | ];
    try reflexivity;
    [ | congruence
      | destruct (string_attribute r1 name), (string_attribute r2 name);
        congruence ].
  unfold call_invoke.
  destruct name as [ | | | | m | | ]; try reflexivity.
  rewrite (member_of_agrees r1 r2 g (split "." m))
    in H1 |- * by (intros Hm; rewrite Hm in *; congruence).
  destruct (member_of py r2 g (split "." m)); try reflexivity. congruence.
Qed.

(** X9.  The entry point reads the header before the router's [try]: a message
    with a namespace and a name is handed to [invoke]; one without raises,
    and nothing was done. *)
Theorem handle_message_dispatches message request (s : session H) :
  subscript message "directive" = Return request ->
  (forall namespace name,
     at_path ["header"; "namespace"] request = Some namespace ->
     at_path ["header"; "name"] request = Some name ->
     handle_message py reflection message s
     = invoke py reflection namespace name request s)
  /\ (at_path ["header"; "namespace"] request = None
       \/ at_path ["header"; "name"] request = None ->
      exists x, handle_message py reflection message s = (Raise x, s)).
Proof.
  intros Hm. unfold handle_message, bind at 1, lift at 1. rewrite Hm.
  unfold header_field, bind, lift.
  destruct request as [ | | | | | | rd];
    try (split; [intros ? ? Hns; discriminate | intros _; eexists; reflexivity]).
  simpl.
  destruct (assoc "header" rd) as [hv | ];
    [ | split; [intros ? ? Hns; discriminate | intros _; eexists; reflexivity]].
  destruct hv as [ | | | | | | hd];
    try (split; [intros ? ? Hns; discriminate | intros _; eexists; reflexivity]).
  simpl.
  destruct (assoc "namespace" hd) as [ns | ];
    [ | split; [intros ? ? Hns; discriminate | intros _; eexists; reflexivity]].
  destruct (assoc "name" hd) as [nm | ];
    [ | split; [intros ? ? Hns Hnm; discriminate | intros _; eexists; reflexivity]].
  split.
  - intros ? ? [= <-] [= <-]. reflexivity.
  - intros [Hn | Hn]; discriminate.
Qed.



Lemma envelope_header request name namespace messageId payload context :
  at_path ["event"; "header"; "namespace"]
    (envelope request name namespace messageId payload context)
  = Some (VStr namespace)
  /\ at_path ["event"; "header"; "name"]
       (envelope request name namespace messageId payload context)
     = Some (VStr name)
  /\ at_path ["event"; "header"; "messageId"]
       (envelope request name namespace messageId payload context)
     = Some (VStr messageId)
  /\ at_path ["event"; "header"; "payloadVersion"]
       (envelope request name namespace messageId payload context)
     = Some (VStr "3")
  /\ at_path ["event"; "payload"]
       (envelope request name namespace messageId payload context)
     = Some payload
  /\ at_path ["event"; "endpoint"]
       (envelope request name namespace messageId payload context)
     = at_path ["endpoint"] request.
Proof.
  unfold envelope. repeat split; try reflexivity.
  destruct (at_path ["endpoint"] request); reflexivity.
Qed.

(** X10.  Every answer of the router names its payload version, and carries the
    endpoint of the directive as it came, or none. *)
Theorem response_echoes_endpoint namespace name request (s : session H) :
  directive request = true ->
  resolve py reflection namespace name <> Reflected ->
  exists r s',
    invoke py reflection namespace name request s = (Return r, s')
    /\ at_path ["event"; "header"; "payloadVersion"] r = Some (VStr "3")
    /\ at_path ["event"; "endpoint"] r = at_path ["endpoint"] request
    /\ (exists n ns id p,
          at_path ["event"; "header"; "name"] r = Some (VStr n)
          /\ at_path ["event"; "header"; "namespace"] r = Some (VStr ns)
          /\ at_path ["event"; "header"; "messageId"] r = Some (VStr id)
          /\ at_path ["event"; "payload"] r = Some p).
Proof.
  intros Hd Hplain.
  destruct (invoke_returns py reflection namespace name request s Hd)
    as (r & s' & Hr).
  exists r, s'. split; [exact Hr | ].
  destruct (invoke_responds py reflection namespace name request Hd Hplain
              s r s' Hr) as (n & ns & i & p & c & ->).
  destruct (envelope_header request n ns i p c) as (H1 & H2 & H3 & H4 & H5 & H6).
  repeat split; try assumption. exists n, ns, i, p. repeat split; assumption.
Qed.

(** *** A message whose endpoint cannot be copied *)

Lemma api_message_uncopyable request name namespace payload context v x
    (s : session H) :
  (exists h, at_path ["header"] request = Some (VDict h)) ->
  at_path ["endpoint"] request = Some v ->
  copy v = Raise x ->
  api_message py request name namespace payload context s
  = (Raise x, drawn s).
Proof.
  intros [h Hh] Hv Hc.
  destruct request as [ | | | | | | rd]; try discriminate. simpl in Hh, Hv.
  destruct (assoc "header" rd) as [hv | ] eqn:Hhd; [ | discriminate].
  injection Hh as ->.
  destruct (assoc "endpoint" rd) as [v' | ] eqn:Hep; [ | discriminate].
  injection Hv as ->.
  unfold api_message, bind, lift, ret, new_uuid. simpl.
  rewrite Hhd. simpl. rewrite Hep. simpl. rewrite Hc. reflexivity.
Qed.


Section Uncopyable.
Variables (request v : value) (x : exn).
Hypothesis Hns : at_path ["header"; "namespace"] request <> None.
Hypothesis Hnm : at_path ["header"; "name"] request <> None.
Hypothesis Hv : at_path ["endpoint"] request = Some v.
Hypothesis Hc : copy v = Raise x.

Lemma uncopyable_header : exists h, at_path ["header"] request = Some (VDict h).
Proof.
  destruct request as [ | | | | | | rd]; try (exfalso; apply Hns; reflexivity).
  simpl in Hns |- *.
  destruct (assoc "header" rd) as [[ | | | | | | h] | ];
    try (exfalso; apply Hns; reflexivity).
  eauto.
Qed.

Lemma log_request_uncopyable (s : session H) :
  log_request request s = (Return tt, s).
Proof.
  unfold log_request, header_field, bind, lift, ret.
  destruct request as [ | | | | | | rd]; try (exfalso; apply Hns; reflexivity).
  simpl in Hns, Hnm |- *.
  destruct (assoc "header" rd) as [[ | | | | | | h] | ];
    try (exfalso; apply Hns; reflexivity).
  simpl in Hns, Hnm |- *.
  destruct (assoc "namespace" h); [ | exfalso; apply Hns; reflexivity].
  destruct (assoc "name" h); [ | exfalso; apply Hnm; reflexivity].
  reflexivity.
Qed.

Lemma api_error_uncopyable error_type message (s : session H) :
  api_error py request "Alexa" error_type message VNone s
  = (Raise x, drawn s).
Proof.
  unfold api_error. simpl. unfold bind, lift.
  rewrite log_request_uncopyable.
  apply (api_message_uncopyable _ _ _ _ _ v x s uncopyable_header Hv Hc).
Qed.

Lemma never_api_message name namespace payload context :
  ensures (S := session H) (fun _ => False)
    (api_message py request name namespace payload context).
Proof.
  intros s r s'.
  rewrite (api_message_uncopyable _ _ _ _ _ v x s uncopyable_header Hv Hc).
  discriminate.
Qed.

Lemma never_api_error error_type message :
  ensures (S := session H) (fun _ => False)
    (api_error py request "Alexa" error_type message VNone).
Proof. intros s r s'. rewrite api_error_uncopyable. discriminate. Qed.

Ltac never_returns :=
  repeat match goal with
         | |- ensures _ (bind _ _) => apply ensures_bind; intros
         | |- ensures _ (api_message _ _ _ _ _ _) => apply never_api_message
         | |- ensures _ (api_error _ _ _ _ _ _) => apply never_api_error
         | |- ensures _ (raise _) => apply ensures_raise
         | |- ensures _ (if ?b then _ else _) => destruct b
         | |- ensures _ (match ?x with _ => _ end) => destruct x
         | |- ensures _ (let _ := _ in _) => cbv zeta
         end.

Lemma operations_never_return g n f :
  lookup n (operations py g) = Some f ->
  ensures (fun _ => False) (f request).
Proof.
  intros Hf.
  destruct g; simpl in Hf;
    repeat match type of Hf with
           | (if ?b then _ else _) = _ => destruct b
           end;
    try discriminate; injection Hf as <-.
  all: unfold Discover, TurnOn, TurnOff, SetBrightness, AdjustBrightness,
         SetColor, SetColorTemperature, Activate, Deactivate, SetPercentage,
         Lock, Unlock, SetTargetTemperature, SetThermostatMode, ReportState,
         setbrightness, unreachable.
  all: never_returns.
Qed.

Lemma guarded_uncopyable message (body : M (session H) value) s :
  ensures (fun _ => False) body ->
  exists s',
    try_except body
      (fun _ => api_error py request "Alexa" "INTERNAL_ERROR" message VNone) s
    = (Raise x, s').
Proof.
  intros Hb. unfold try_except.
  destruct (body s) as [[r | e] s1] eqn:Hs.
  - destruct (Hb _ _ _ Hs).
  - rewrite api_error_uncopyable. eauto.
Qed.

(** X6.  When the [endpoint] of a message cannot be copied (it is a string, a
    number, [null]), every path through the router ends in [api_message],
    which raises; so do both [except] clauses, and [invoke] raises. *)
Theorem invoke_raises_when_endpoint_uncopyable namespace name (s : session H) :
  resolve py reflection namespace name <> Reflected ->
  exists s', invoke py reflection namespace name request s = (Raise x, s').
Proof.
  unfold resolve, invoke.
  generalize (if eq_str namespace "Alexa" && eq_str name "ReportState"
              then VStr "Alexa.ReportState" else namespace).
  intros ns Hplain. apply guarded_uncopyable.
  destruct ns as [ | | | | n | | ]; try apply ensures_raise.
  destruct (target_of py reflection (split "." n)) as [g | | a | | ];
    try apply ensures_raise;
    [ | congruence
      | destruct (string_attribute reflection name);
        [congruence | apply ensures_raise] ].
  unfold call_invoke. intros s0 r s1 Hr.
  destruct (guarded_uncopyable internal_error_request
              (match name with
               | VStr n0 =>
                   match member_of py reflection g (split "." n0) with
                   | Method f => f request
                   | Unfit => raise TypeError
                   | Missing a => raise (AttributeError a)
                   | Foreign => foreign_member reflection g n n0 request
                   end
               | _ => raise TypeError
               end) s0) as [s2 Hx].
  - destruct name as [ | | | | m | | ]; try apply ensures_raise.
    destruct (member_of py reflection g (split "." m)) as [f | | a | ] eqn:Hm;
      try apply ensures_raise; [ | congruence].
    apply member_of_Method in Hm as [k Hk].
    exact (operations_never_return g k f Hk).
  - rewrite Hx in Hr. discriminate.
Qed.

End Uncopyable.


(** *** An endpoint that cannot be resolved *)

(** The router's two [try] blocks around an operation. *)
Lemma invoke_operation namespace name request g f :
  resolve py reflection namespace name = Operation g f ->
  invoke py reflection namespace name request
  = try_except
      (try_except (f request)
         (fun _ => api_error py request "Alexa" "INTERNAL_ERROR"
                     internal_error_request VNone))
      (fun _ => api_error py request "Alexa" "INTERNAL_ERROR"
                  internal_error_directive VNone).
Proof.
  unfold resolve, invoke.
  generalize (if eq_str namespace "Alexa" && eq_str name "ReportState"
              then VStr "Alexa.ReportState" else namespace).
  intros ns Hr.
  destruct ns as [ | | | | n | | ]; try discriminate.
  destruct (target_of py reflection (split "." n)) as [g' | | a | | ];
    try discriminate;
    try (destruct (string_attribute reflection name); discriminate).
  unfold call_invoke.
  destruct name as [ | | | | m | | ]; try discriminate.
  destruct (member_of py reflection g' (split "." m)) as [f' | | a | ]; try discriminate.
  injection Hr as -> ->. reflexivity.
Qed.

Lemma resolve_operation namespace name g f :
  resolve py reflection namespace name = Operation g f ->
  exists n, lookup n (operations py g) = Some f.
Proof.
  unfold resolve.
  generalize (if eq_str namespace "Alexa" && eq_str name "ReportState"
              then VStr "Alexa.ReportState" else namespace).
  intros ns Hr.
  destruct ns as [ | | | | n | | ]; try discriminate.
  destruct (target_of py reflection (split "." n)) as [g' | | a | | ];
    try discriminate;
    try (destruct (string_attribute reflection name); discriminate).
  destruct name as [ | | | | m | | ]; try discriminate.
  destruct (member_of py reflection g' (split "." m)) as [f' | | a | ] eqn:Hm;
    try discriminate.
  injection Hr as -> ->. exact (member_of_Method py reflection _ _ _ Hm).
Qed.

Lemma invoke_operation_returns namespace name request g f (s : session H) r s' :
  resolve py reflection namespace name = Operation g f ->
  f request s = (Return r, s') ->
  invoke py reflection namespace name request s = (Return r, s').
Proof.
  intros Hr Hf. rewrite (invoke_operation _ _ _ _ _ Hr).
  unfold try_except. rewrite Hf. reflexivity.
Qed.

Section Unresolvable.
Variables (request : value) (h0 h1 : H) (x0 : exn).
Hypothesis Hd : directive request = true.
Hypothesis Hep : getEndpoint request h0 = (Raise x0, h1).

Lemma quiet_lift {A : Type} (o : outcome A) : quiet (H := H) (lift o).
Proof. intros s o' s1 [= <- <-]. auto. Qed.

Lemma quiet_ret {A : Type} (a : A) : quiet (H := H) (ret a).
Proof. intros s o' s1 [= <- <-]. auto. Qed.

Lemma quiet_timestamp : quiet (H := H) (timestamp py).
Proof. intros s o' s1 [= <- <-]. auto. Qed.

Lemma quiet_bind {A B : Type} (m : M (session H) A) (k : A -> M (session H) B) :
  quiet m -> (forall a, quiet (k a)) -> quiet (bind m k).
Proof.
  intros Hm Hk s o s1. unfold bind.
  destruct (m s) as [[a | x] s2] eqn:Hs.
  - intros Hr. destruct (Hm _ _ _ Hs) as (Hh & Hj & Hu).
    destruct (Hk a _ _ _ Hr) as (Hh1 & Hj1 & Hu1).
    repeat split; congruence.
  - intros [= <- <-]. exact (Hm _ _ _ Hs).
Qed.

Lemma quiet_header_field k : quiet (H := H) (header_field request k).
Proof. apply quiet_bind; intros; apply quiet_lift. Qed.

Lemma quiet_log_request : quiet (H := H) (log_request request).
Proof.
  unfold log_request.
  apply quiet_bind; [apply quiet_header_field | intros].
  apply quiet_bind; [apply quiet_header_field | intros; apply quiet_ret].
Qed.

Lemma quiet_payload_field k : quiet (H := H) (payload_field request k).
Proof. apply quiet_bind; intros; apply quiet_lift. Qed.

Lemma quiet_color_field k : quiet (H := H) (color_field py request k).
Proof.
  unfold color_field.
  apply quiet_bind; [apply quiet_payload_field | intros].
  apply quiet_bind; intros; apply quiet_lift.
Qed.

Lemma stops_bind {A : Type} (m : M (session H) A) (k : A -> M (session H) value) :
  quiet m -> (forall a, stops h0 h1 (k a)) -> stops h0 h1 (bind m k).
Proof.
  intros Hm Hk s Hs. unfold bind.
  destruct (m s) as [[a | x] s2] eqn:Hms;
    destruct (Hm _ _ _ Hms) as (Hh & Hj & Hu).
  - destruct (Hk a s2) as (x & s1 & -> & Hh1 & Hj1 & Hu1); [congruence | ].
    exists x, s1. repeat split; congruence.
  - exists x, s2. repeat split; try congruence. left. congruence.
Qed.

Lemma stops_endpoint_of (k : option E -> M (session H) value) :
  stops h0 h1 (bind (endpoint_of request) k).
Proof.
  intros s Hs. unfold bind, endpoint_of, on_handler. rewrite Hs, Hep.
  eexists _, _. split; [reflexivity | ]. simpl. auto.
Qed.

Ltac stops_early :=
  repeat match goal with
         | |- stops _ _ (bind (endpoint_of _) _) => apply stops_endpoint_of
         | |- stops _ _ (bind _ _) => apply stops_bind; [ | intros]
         | |- stops _ _ (let _ := _ in _) => cbv zeta
         | |- quiet (lift _) => apply quiet_lift
         | |- quiet (ret _) => apply quiet_ret
         | |- quiet (timestamp _) => apply quiet_timestamp
         | |- quiet (log_request _) => apply quiet_log_request
         | |- quiet (payload_field _ _) => apply quiet_payload_field
         | |- quiet (color_field _ _ _) => apply quiet_color_field
         | |- quiet (match ?v with _ => _ end) => destruct v
         end.

Lemma operations_stop g n f :
  g <> Alexa_Discovery ->
  lookup n (operations py g) = Some f ->
  stops h0 h1 (f request).
Proof.
  intros Hg Hf.
  destruct g; try congruence; simpl in Hf;
    repeat match type of Hf with
           | (if ?b then _ else _) = _ => destruct b
           end;
    try discriminate; injection Hf as <-.
  all: unfold TurnOn, TurnOff, SetBrightness, AdjustBrightness,
         SetColor, SetColorTemperature, Activate, Deactivate, SetPercentage,
         Lock, Unlock, SetTargetTemperature, SetThermostatMode, ReportState.
  all: stops_early.
Qed.

(** X11.  When [getEndpoint] raises, as for an endpoint id it cannot decode,
    every directive but [Discover] is answered with [INTERNAL_ERROR], and
    no method of any endpoint was called. *)
Theorem endpoint_error_is_internal_error namespace name g f (s : session H) :
  handler s = h0 ->
  resolve py reflection namespace name = Operation g f ->
  g <> Alexa_Discovery ->
  exists s',
    invoke py reflection namespace name request s
    = (Return (error_envelope request (uuid4 py (uuids s)) "INTERNAL_ERROR"
                 internal_error_request), s')
    /\ (handler s' = h0 \/ handler s' = h1)
    /\ journal s' = journal s.
Proof.
  intros Hs Hr Hg.
  rewrite (invoke_operation _ _ _ _ _ Hr).
  destruct (resolve_operation _ _ _ _ Hr) as [n Hn].
  destruct (operations_stop g n f Hg Hn s Hs) as (x & s1 & Hf & Hh & Hj & Hu).
  unfold try_except at 1.
  rewrite (guarded_raises py request internal_error_request _ s x s1 Hd Hf).
  rewrite Hu. eexists. split; [reflexivity | ]. simpl. auto.
Qed.

End Unresolvable.

End Routing.

(** ** The operations, one by one *)
Section Operations.
Context (py : Python) {H E : Type} {adapter : Adapter H E}.
Variable reflection : @Reflection H.

(** The common tail of the operations: the call on the endpoint, the time
    of the sample, the response. *)
Lemma call_then_respond request e c (context : string -> value)
    (s : session H) :
  directive request = true ->
  (call (Some e) c ;;
   t <- timestamp py ;;
   api_message py request "Response" "Alexa" VNone (context t)) s
  = match perform c e (handler s) with
    | (Return _, h) =>
        (Return (envelope request "Response" "Alexa" (uuid4 py (uuids s))
                   (VDict [])
                   (context (String.append (utcnow py (ticks s)) "Z"))),
         drawn (ticked (set_handler h (noted e c s))))
    | (Raise x, h) => (Raise x, set_handler h (noted e c s))
    end.
Proof.
  intros Hd. unfold call, bind, note, on_handler. cbn [handler noted].
  destruct (perform c e (handler s)) as [[e1 | x] h]; [ | reflexivity].
  unfold timestamp. rewrite api_message_directive by assumption. reflexivity.
Qed.

(** [TurnOn] and [TurnOff] on an endpoint whose method returns. *)
Lemma power_run request e h1 e' h2 (s : session H) :
  directive request = true ->
  getEndpoint request (handler s) = (Return (Some e), h1) ->
  (perform turnOn e h1 = (Return e', h2) ->
   TurnOn py request s
   = (Return (envelope request "Response" "Alexa" (uuid4 py (uuids s))
                (VDict [])
                (properties [reading (VStr "powerState")
                               "Alexa.PowerController" (VStr "ON")
                               (String.append (utcnow py (ticks s)) "Z")])),
      drawn (ticked (set_handler h2 (noted e turnOn (set_handler h1 s))))))
  /\ (perform turnOff e h1 = (Return e', h2) ->
      TurnOff py request s
      = (Return (envelope request "Response" "Alexa" (uuid4 py (uuids s))
                   (VDict [])
                   (properties [reading (VStr "powerState")
                                  "Alexa.PowerController" (VStr "OFF")
                                  (String.append (utcnow py (ticks s)) "Z")])),
         drawn (ticked (set_handler h2 (noted e turnOff (set_handler h1 s)))))).
Proof.
  intros Hd Hep. split; intros Hp.
  - unfold TurnOn, bind at 1. rewrite (log_request_directive _ _ Hd).
    unfold bind at 1. rewrite (endpoint_of_run _ _ _ _ Hep).
    rewrite (call_then_respond request e turnOn
               (fun t => properties [reading (VStr "powerState")
                                       "Alexa.PowerController" (VStr "ON") t])
               _ Hd).
    cbn [handler set_handler]. rewrite Hp. reflexivity.
  - unfold TurnOff, bind at 1. rewrite (log_request_directive _ _ Hd).
    unfold bind at 1. rewrite (endpoint_of_run _ _ _ _ Hep).
    rewrite (call_then_respond request e turnOff
               (fun t => properties [reading (VStr "powerState")
                                       "Alexa.PowerController" (VStr "OFF") t])
               _ Hd).
    cbn [handler set_handler]. rewrite Hp. reflexivity.
Qed.

(** X5.  [SetBrightness] hands the endpoint the brightness of the payload as
    an integer, whatever its size, and reports that integer. *)
Theorem SetBrightness_passes_value request b brightness e h1 (s : session H) :
  directive request = true ->
  at_path ["payload"; "brightness"] request = Some b ->
  int py b = Return brightness ->
  getEndpoint request (handler s) = (Return (Some e), h1) ->
  exists out s',
    SetBrightness py request s = (out, s')
    /\ journal s' = journal s
                    ++ [(endpointId (alexa e), setBrightness (VInt brightness))]
    /\ forall r, out = Return r ->
         at_path ["context"; "properties"] r
         = Some (VList [reading (VStr "brightness") "Alexa.BrightnessController"
                          (VInt brightness)
                          (String.append (utcnow py (ticks s)) "Z")]).
Proof.
  intros Hd Hp Hi Hep.
  unfold SetBrightness, bind at 1.
  rewrite (payload_field_directive _ _ _ s Hp).
  unfold bind at 1, lift at 1. rewrite Hi.
  unfold bind at 1. rewrite (log_request_directive _ s Hd).
  unfold bind at 1. rewrite (endpoint_of_run _ _ _ _ Hep).
  apply (setbrightness_run py request e (VInt brightness) (set_handler h1 s) Hd).
Qed.

(** X12.  [AdjustBrightness] adds the delta of the payload to the brightness
    the endpoint reports, when that is an integer other than 0: the sum is
    what the endpoint is set to and what the response reports. *)
Theorem AdjustBrightness_adds_delta request d delta e h1 c e1 h2
    (s : session H) :
  directive request = true ->
  at_path ["payload"; "brightnessDelta"] request = Some d ->
  int py d = Return delta ->
  getEndpoint request (handler s) = (Return (Some e), h1) ->
  getProperty (VStr "brightness") e h1 = (Return (VInt c, e1), h2) ->
  c <> 0 ->
  exists out s',
    AdjustBrightness py request s = (out, s')
    /\ journal s' = journal s
                    ++ [(endpointId (alexa e1), setBrightness (VInt (c + delta)))]
    /\ forall r, out = Return r ->
         at_path ["context"; "properties"] r
         = Some (VList [reading (VStr "brightness") "Alexa.BrightnessController"
                          (VInt (c + delta))
                          (String.append (utcnow py (ticks s)) "Z")]).
Proof.
  intros Hd Hp Hi Hep Hget Hc.
  unfold AdjustBrightness, bind at 1.
  rewrite (payload_field_directive _ _ _ s Hp).
  unfold bind at 1, lift at 1. rewrite Hi.
  unfold bind at 1. rewrite (log_request_directive _ s Hd).
  unfold bind at 1. rewrite (endpoint_of_run _ _ _ _ Hep).
  unfold bind at 1, bind at 1, on_handler at 1. simpl handler. rewrite Hget.
  unfold ret at 1.
  assert (Hb : or_else (VInt c) (VInt 50) = VInt c).
  { unfold or_else. simpl. destruct (Z.eqb_spec c 0); [contradiction | ].
    reflexivity. }
  rewrite Hb. unfold bind at 1, lift at 1. simpl add_int.
  apply (setbrightness_run py request e1 (VInt (c + delta))
           (set_handler h2 (set_handler h1 s)) Hd).
Qed.


(** X14.  The scene operations answer with [ActivationStarted] and
    [DeactivationStarted] events of [Alexa.SceneController] whose payload
    names the voice interaction as the cause and the time read before the
    endpoint was called; they carry no context. *)
Theorem scene_events request e h1 (s : session H) :
  directive request = true ->
  getEndpoint request (handler s) = (Return (Some e), h1) ->
  (exists out s',
     Activate py request s = (out, s')
     /\ journal s' = journal s ++ [(endpointId (alexa e), activate)]
     /\ forall r, out = Return r ->
          r = envelope request "ActivationStarted" "Alexa.SceneController"
                (uuid4 py (uuids s))
                (scene_payload (String.append (utcnow py (ticks s)) "Z")) VNone)
  /\ (exists out s',
        Deactivate py request s = (out, s')
        /\ journal s' = journal s ++ [(endpointId (alexa e), deactivate)]
        /\ forall r, out = Return r ->
             r = envelope request "DeactivationStarted" "Alexa.SceneController"
                   (uuid4 py (uuids s))
                   (scene_payload (String.append (utcnow py (ticks s)) "Z"))
                   VNone).
Proof.
  intros Hd Hep.
  assert (Hep' : getEndpoint request (handler (ticked s))
                 = (Return (Some e), h1)) by exact Hep.
  split.
  - unfold Activate, bind at 1, timestamp.
    unfold bind at 1. rewrite (log_request_directive _ _ Hd).
    unfold bind at 1. rewrite (endpoint_of_run _ _ _ _ Hep').
    destruct (call_run e activate (set_handler h1 (ticked s)))
      as (out & h2 & _ & Hcall).
    unfold bind at 1. rewrite Hcall.
    destruct out as [e1 | x0].
    + rewrite api_message_directive by assumption.
      eexists _, _. split; [reflexivity | ]. split; [reflexivity | ].
      intros r [= <-]. reflexivity.
    + eexists _, _. split; [reflexivity | ]. split; [reflexivity | ].
      intros r [=].
  - unfold Deactivate, bind at 1, timestamp.
    unfold bind at 1. rewrite (log_request_directive _ _ Hd).
    unfold bind at 1. rewrite (endpoint_of_run _ _ _ _ Hep').
    destruct (call_run e deactivate (set_handler h1 (ticked s)))
      as (out & h2 & _ & Hcall).
    unfold bind at 1. rewrite Hcall.
    destruct out as [e1 | x0].
    + rewrite api_message_directive by assumption.
      eexists _, _. split; [reflexivity | ]. split; [reflexivity | ].
      intros r [= <-]. reflexivity.
    + eexists _, _. split; [reflexivity | ]. split; [reflexivity | ].
      intros r [=].
Qed.

(** [Lock] and [Unlock] report [LOCKED] and [UNLOCKED] whether or not
    anything was locked: when [getEndpoint] returns [None] or an endpoint
    without the method, no method is called and the response is the same. *)
Lemma lock_run request o h1 (s : session H) :
  directive request = true ->
  getEndpoint request (handler s) = (Return o, h1) ->
  (lacks o "lock" = true ->
   Lock py request s
   = (Return (envelope request "Response" "Alexa" (uuid4 py (uuids s))
                (VDict [])
                (properties [reading (VStr "lockState") "Alexa.LockController"
                               (VStr "LOCKED")
                               (String.append (utcnow py (ticks s)) "Z")])),
      drawn (ticked (set_handler h1 s))))
  /\ (lacks o "unlock" = true ->
      Unlock py request s
      = (Return (envelope request "Response" "Alexa" (uuid4 py (uuids s))
                   (VDict [])
                   (properties [reading (VStr "lockState")
                                  "Alexa.LockController" (VStr "UNLOCKED")
                                  (String.append (utcnow py (ticks s)) "Z")])),
         drawn (ticked (set_handler h1 s)))).
Proof.
  intros Hd Hep. split; intros Hl.
  - unfold Lock, bind at 1. rewrite (endpoint_of_run _ _ _ _ Hep).
    assert (Hc : call_if_present o lock (set_handler h1 s)
                 = (Return tt, set_handler h1 s)).
    { destruct o as [e | ]; [ | reflexivity]. simpl in Hl |- *.
      apply negb_true_iff in Hl. rewrite Hl. reflexivity. }
    unfold bind at 1. rewrite Hc. unfold bind at 1, timestamp.
    unfold bind at 1. rewrite (log_request_directive _ _ Hd).
    rewrite api_message_directive by assumption. reflexivity.
  - unfold Unlock, bind at 1. rewrite (endpoint_of_run _ _ _ _ Hep).
    assert (Hc : call_if_present o unlock (set_handler h1 s)
                 = (Return tt, set_handler h1 s)).
    { destruct o as [e | ]; [ | reflexivity]. simpl in Hl |- *.
      apply negb_true_iff in Hl. rewrite Hl. reflexivity. }
    unfold bind at 1. rewrite Hc. unfold bind at 1, timestamp.
    unfold bind at 1. rewrite (log_request_directive _ _ Hd).
    rewrite api_message_directive by assumption. reflexivity.
Qed.

(** X16.  [SetTargetTemperature] resolves the endpoint, converts the
    setpoint of the payload to Celsius, calls the endpoint with that
    temperature and reports it with the scale [CELSIUS]. *)
Theorem SetTargetTemperature_reports_celsius request o temp e h1
    (s : session H) :
  directive request = true ->
  at_path ["payload"; "targetSetpoint"] request = Some o ->
  temperature_from_object py o = Return temp ->
  getEndpoint request (handler s) = (Return (Some e), h1) ->
  exists out s',
    SetTargetTemperature py request s = (out, s')
    /\ journal s' = journal s
                    ++ [(endpointId (alexa e), setTargetSetPoint temp)]
    /\ forall r, out = Return r ->
         at_path ["context"; "properties"] r
         = Some (VList [reading (VStr "targetSetpoint")
                          "Alexa.ThermostatController"
                          (setpoint temp "CELSIUS")
                          (String.append (utcnow py (ticks s)) "Z")]).
Proof.
  intros Hd Hp Ht Hep.
  destruct request as [ | | | | | | rd]; try discriminate.
  simpl in Hp.
  destruct (assoc "payload" rd) as [[ | | | | | | p] | ] eqn:Hpl;
    try discriminate.
  destruct (assoc "targetSetpoint" p) as [o' | ] eqn:Ho; [ | discriminate].
  injection Hp as ->.
  unfold SetTargetTemperature. cbv zeta.
  unfold bind at 1, lift at 1. simpl subscript. rewrite Hpl.
  unfold bind at 1. rewrite (endpoint_of_run _ _ _ _ Hep).
  unfold bind at 1, lift at 1. simpl contains. rewrite Ho.
  unfold bind at 1, lift at 1. simpl subscript. rewrite Ho.
  unfold bind at 1, lift at 1. rewrite Ht.
  unfold bind at 1. rewrite (log_request_directive _ _ Hd).
  destruct (call_run e (setTargetSetPoint temp) (set_handler h1 s))
    as (out & h2 & _ & Hcall).
  unfold bind at 1. rewrite Hcall.
  destruct out as [e1 | x0].
  - unfold bind, timestamp. rewrite api_message_directive by assumption.
    eexists _, _. split; [reflexivity | ]. split; [reflexivity | ].
    intros r [= <-]. rewrite envelope_context by reflexivity. reflexivity.
  - eexists _, _. split; [reflexivity | ]. split; [reflexivity | ].
    intros r [=].
Qed.

(** X17.  A [SetTargetTemperature] directive whose payload has no
    [targetSetpoint] is answered with [INTERNAL_ERROR]: the endpoint was
    resolved, but no method of it was called. *)
Theorem SetTargetTemperature_without_setpoint request p (s : session H) :
  directive request = true ->
  at_path ["payload"] request = Some (VDict p) ->
  assoc "targetSetpoint" p = None ->
  invoke py reflection (VStr "Alexa.ThermostatController")
    (VStr "SetTargetTemperature") request s
  = (Return (error_envelope request (uuid4 py (uuids s)) "INTERNAL_ERROR"
               internal_error_request),
     drawn (set_handler (snd (getEndpoint request (handler s))) s)).
Proof.
  intros Hd Hp Ho.
  change (invoke py reflection (VStr "Alexa.ThermostatController")
            (VStr "SetTargetTemperature") request s)
    with (try_except
            (try_except (SetTargetTemperature py request)
               (fun _ => api_error py request "Alexa" "INTERNAL_ERROR"
                           internal_error_request VNone))
            (fun _ => api_error py request "Alexa" "INTERNAL_ERROR"
                        internal_error_directive VNone) s).
  assert (Hop : exists x,
             SetTargetTemperature py request s
             = (Raise x,
                set_handler (snd (getEndpoint request (handler s))) s)).
  { destruct request as [ | | | | | | rd]; try discriminate.
    simpl in Hp.
    destruct (assoc "payload" rd) as [pl | ] eqn:Hpl; [ | discriminate].
    injection Hp as ->.
    unfold SetTargetTemperature. cbv zeta.
    unfold bind at 1, lift at 1. simpl subscript. rewrite Hpl.
    unfold bind at 1, endpoint_of, on_handler.
    destruct (getEndpoint (VDict rd) (handler s)) as [[e | x] h1];
      [ | eexists; reflexivity].
    unfold bind, lift. simpl contains. rewrite Ho. eexists. reflexivity. }
  destruct Hop as [x Hop].
  unfold try_except at 1.
  rewrite (guarded_raises py request internal_error_request _ s x _ Hd Hop).
  reflexivity.
Qed.

End Operations.

(** ** The Domoticz handler *)

Lemma item_last {A : Type} (l : list A) (x : A) :
  item (l ++ [x]) (-1) = Return x.
Proof.
  unfold item. rewrite length_app. simpl List.length.
  replace (-1 <? 0) with true by reflexivity.
  replace (-1 + Z.of_nat (List.length l + 1)) with (Z.of_nat (List.length l))
    by lia.
  replace (Z.of_nat (List.length l) <? 0) with false
    by (symmetry; apply Z.ltb_ge; lia).
  replace (Z.of_nat (List.length l + 1) <=? Z.of_nat (List.length l))
    with false by (symmetry; apply Z.leb_gt; lia).
  rewrite Nat2Z.id, nth_error_app2, Nat.sub_diag by lia. reflexivity.
Qed.

Lemma item_first {A : Type} (x : A) (l : list A) : item (x :: l) 0 = Return x.
Proof.
  unfold item. simpl List.length.
  replace (0 <? 0) with false by reflexivity.
  replace (Z.of_nat (S (List.length l)) <=? 0) with false
    by (symmetry; apply Z.leb_gt; lia).
  reflexivity.
Qed.

Section Decoding.
Import DomoticzHandler DomoticzSpec.
Variable py : Python.
Variable server : list query -> query -> value.
Variable reflection : @Reflection Domoticz.

(** [getEndpoint] on an endpoint id [<prefix>-<idx>]. *)
Lemma getEndpoint_run request prefix i (h : Domoticz) :
  free_of "-" prefix = true ->
  at_path ["endpoint"; "endpointId"] request
  = Some (VStr (String.append prefix (String "-" i))) ->
  Domoticz_getEndpoint request h
  = match lookup prefix ENDPOINT_ADAPTERS with
    | Some cls => (Return (Some (decoded cls prefix i request h)), h)
    | None =>
        (Raise (Exception (String.append "Unknown endpoint type " prefix)), h)
    end.
Proof.
  intros Hp Hid. unfold decoded, friendly_name, cached.
  destruct request as [ | | | | | | rd]; try discriminate. simpl in Hid.
  simpl at_path.
  destruct (assoc "endpoint" rd) as [[ | | | | | | ed] | ] eqn:Hed;
    try discriminate.
  simpl in Hid.
  destruct (assoc "endpointId" ed) as [x | ] eqn:Hx; [ | discriminate].
  injection Hid as ->.
  unfold Domoticz_getEndpoint, bind, lift, the_devices, ret.
  cbn -[lookup ENDPOINT_ADAPTERS]. rewrite Hed.
  cbn -[lookup ENDPOINT_ADAPTERS]. rewrite Hx, (split1_app _ _ _ Hp).
  cbn -[lookup ENDPOINT_ADAPTERS].
  destruct (lookup prefix ENDPOINT_ADAPTERS) as [cls | ]; [ | reflexivity].
  destruct (assoc "friendlyName" ed); reflexivity.
Qed.

Lemma decoded_fields cls prefix i request h :
  class (decoded cls prefix i request h) = cls
  /\ idx (decoded cls prefix i request h) = Some i
  /\ has_handler (decoded cls prefix i request h) = true
  /\ endpointId (super (decoded cls prefix i request h))
     = VStr (String.append prefix (String "-" i))
  /\ capabilities (super (decoded cls prefix i request h))
     = capabilities (super (construct cls (VStr "") (VStr "") (VStr "")
                              (VStr ""))).
Proof.
  unfold decoded. destruct (truthy (cached i h)); destruct cls; repeat split.
Qed.

(** An endpoint id without a dash cannot be unpacked. *)
Lemma getEndpoint_no_dash request id (h : Domoticz) :
  free_of "-" id = true ->
  at_path ["endpoint"; "endpointId"] request = Some (VStr id) ->
  Domoticz_getEndpoint request h = (Raise ValueError, h).
Proof.
  intros Hp Hid.
  destruct request as [ | | | | | | rd]; try discriminate. simpl in Hid.
  destruct (assoc "endpoint" rd) as [[ | | | | | | ed] | ] eqn:Hed;
    try discriminate.
  simpl in Hid.
  destruct (assoc "endpointId" ed) as [x | ] eqn:Hx; [ | discriminate].
  injection Hid as ->.
  unfold Domoticz_getEndpoint, bind, lift, the_devices, ret. simpl.
  rewrite Hed. simpl. rewrite Hx. rewrite (split1_free _ _ Hp). reflexivity.
Qed.

(** [getEndpoint] never changes the handler. *)
Lemma getEndpoint_pure request (h : Domoticz) :
  snd (Domoticz_getEndpoint request h) = h.
Proof.
  unfold Domoticz_getEndpoint, bind, lift, the_devices, ret.
  repeat match goal with
         | |- context [match ?x with _ => _ end] =>
             match x with
             | context [match _ with _ => _ end] => fail 1
             | _ => destruct x; simpl; try reflexivity
             end
         end.
Qed.

(** X19.  [getEndpoint] decodes the endpoint id [<prefix>-<idx>] at its first
    dash: it builds an endpoint of the class registered under the prefix,
    with the index, the friendly name of the request and the cached device
    when there is one; an unknown prefix raises, and so does an id without
    a dash.  In no case is the server contacted or the cache changed. *)
Theorem getEndpoint_decodes request id (h : Domoticz) :
  at_path ["endpoint"; "endpointId"] request = Some (VStr id) ->
  (forall prefix i,
     id = String.append prefix (String "-" i) ->
     free_of "-" prefix = true ->
     Domoticz_getEndpoint request h
     = match lookup prefix ENDPOINT_ADAPTERS with
       | Some cls => (Return (Some (decoded cls prefix i request h)), h)
       | None =>
           (Raise (Exception (String.append "Unknown endpoint type " prefix)),
            h)
       end)
  /\ (free_of "-" id = true ->
      Domoticz_getEndpoint request h = (Raise ValueError, h)).
Proof.
  intros Hid. split.
  - intros prefix i -> Hp. exact (getEndpoint_run request prefix i h Hp Hid).
  - intros Hf. exact (getEndpoint_no_dash request id h Hf Hid).
Qed.

End Decoding.

Section Actions.
Import DomoticzHandler DomoticzSpec.
Variable py : Python.
Variable server : list query -> query -> value.
Variable reflection : @Reflection Domoticz.

Ltac run_step Hr :=
  match type of Hr with
  | context [match ?x with _ => _ end] =>
      lazymatch x with
      | context [match _ with _ => _ end] => fail
      | _ => destruct x eqn:?
      end
  | context [if ?x then _ else _] =>
      lazymatch x with
      | context [match _ with _ => _ end] => fail
      | context [if _ then _ else _] => fail
      | _ => destruct x eqn:?
      end
  end.

(** X20.  A method of an endpoint sends the server at most one request, for
    the endpoint's own index; it never changes the device cache, and when
    it raises it has sent nothing. *)
Theorem perform_sends_at_most_one c e (h : Domoticz) o h' :
  endpoint_perform py server c e h = (o, h') ->
  (h' = h \/ exists q, h' = asked q h /\ query_idx q = idx e)
  /\ (forall x, o = Raise x -> h' = h)
  /\ (forall e', o = Return e' -> e' = e).
Proof.
  intros Hr.
  unfold endpoint_perform, endpoint_setColor, self_idx, setSwitch, setLevel,
    Domoticz_setColor, Domoticz_setColorTemperature, setSetpoint,
    setLevelByName, setLevel, setScene, api, the_devices, bind, lift, ret,
    raise in Hr.
  destruct (class e), c; cbv beta iota in Hr;
    repeat (run_step Hr; cbv beta iota in Hr; try discriminate);
    injection Hr as <- <-;
    (split; [ | split; [intros ? [=]; try reflexivity
                       | intros ? [=]; try congruence ]]);
    try (left; reflexivity);
    try (right; eexists; split; [reflexivity | simpl; congruence]).
Qed.

End Actions.

Section Classes.
Import DomoticzHandler DomoticzSpec.
Variable py : Python.
Variable server : list query -> query -> value.
Variable reflection : @Reflection Domoticz.

(** X18.  A blind is switched the other way round: [TurnOn] for a [Blind]
    endpoint sends Domoticz the switch command [Off] and reports [ON],
    [TurnOff] sends [On] and reports [OFF]. *)
Theorem Blind_power_inverted request i (s : session Domoticz) :
  directive request = true ->
  at_path ["endpoint"; "endpointId"] request
  = Some (VStr (String.append "Blind-" i)) ->
  (exists r s',
     invoke py (adapter := Domoticz_adapter py server) reflection
       (VStr "Alexa.PowerController") (VStr "TurnOn") request s
     = (Return r, s')
     /\ at_path ["context"; "properties"] r
        = Some (VList [reading (VStr "powerState") "Alexa.PowerController"
                         (VStr "ON")
                         (String.append (utcnow py (ticks s)) "Z")])
     /\ handler s' = asked (switchlight i "Off") (handler s))
  /\ (exists r s',
        invoke py (adapter := Domoticz_adapter py server) reflection
          (VStr "Alexa.PowerController") (VStr "TurnOff") request s
        = (Return r, s')
        /\ at_path ["context"; "properties"] r
           = Some (VList [reading (VStr "powerState") "Alexa.PowerController"
                            (VStr "OFF")
                            (String.append (utcnow py (ticks s)) "Z")])
        /\ handler s' = asked (switchlight i "On") (handler s)).
Proof.
  intros Hd Hid.
  pose proof (getEndpoint_run request "Blind" i (handler s) eq_refl Hid)
    as Hep.
  cbn [lookup ENDPOINT_ADAPTERS String.eqb Ascii.eqb Bool.eqb] in Hep.
  destruct (decoded_fields BlindEndpoint "Blind" i request (handler s))
    as (Hc & Hi & Hh & _).
  set (e := decoded BlindEndpoint "Blind" i request (handler s)) in *.
  assert (Hon : endpoint_perform py server turnOn e (handler s)
                = (Return e, asked (switchlight i "Off") (handler s))).
  { unfold endpoint_perform, bind, self_idx, setSwitch, bind, api, ret.
    rewrite Hc, Hh, Hi. reflexivity. }
  assert (Hoff : endpoint_perform py server turnOff e (handler s)
                 = (Return e, asked (switchlight i "On") (handler s))).
  { unfold endpoint_perform, bind, self_idx, setSwitch, bind, api, ret.
    rewrite Hc, Hh, Hi. reflexivity. }
  destruct (power_run py (adapter := Domoticz_adapter py server)
              request e (handler s) e
              (asked (switchlight i "Off") (handler s)) s Hd Hep)
    as [Hrun _].
  destruct (power_run py (adapter := Domoticz_adapter py server)
              request e (handler s) e
              (asked (switchlight i "On") (handler s)) s Hd Hep)
    as [_ Hrun'].
  split.
  - eexists _, _. split.
    + apply (invoke_operation_returns py reflection _ _ request
               Alexa_PowerController
               (TurnOn py (adapter := Domoticz_adapter py server)));
        [reflexivity | exact (Hrun Hon)].
    + split; [ | reflexivity].
      rewrite envelope_context by reflexivity. reflexivity.
  - eexists _, _. split.
    + apply (invoke_operation_returns py reflection _ _ request
               Alexa_PowerController
               (TurnOff py (adapter := Domoticz_adapter py server)));
        [reflexivity | exact (Hrun' Hoff)].
    + split; [ | reflexivity].
      rewrite envelope_context by reflexivity. reflexivity.
Qed.

(** No endpoint class of the Domoticz handler has a [lock] or an [unlock]
    method. *)
Lemma endpoint_cannot_lock (e : DomoticzEndpoint) :
  endpoint_hasattr e "lock" = false /\ endpoint_hasattr e "unlock" = false.
Proof. unfold endpoint_hasattr. destruct (class e); split; reflexivity. Qed.

(** X15.  With the Domoticz handler a [Lock] or [Unlock] directive changes
    nothing: whatever endpoint the directive names, Domoticz is sent no
    request, and the response reports [LOCKED], or [UNLOCKED]. *)
Theorem Domoticz_lock_sends_nothing request o h1 (s : session Domoticz) :
  directive request = true ->
  Domoticz_getEndpoint request (handler s) = (Return o, h1) ->
  (exists r s',
     invoke py (adapter := Domoticz_adapter py server) reflection
       (VStr "Alexa.LockController") (VStr "Lock") request s
     = (Return r, s')
     /\ at_path ["context"; "properties"] r
        = Some (VList [reading (VStr "lockState") "Alexa.LockController"
                         (VStr "LOCKED")
                         (String.append (utcnow py (ticks s)) "Z")])
     /\ handler s' = handler s /\ journal s' = journal s)
  /\ (exists r s',
        invoke py (adapter := Domoticz_adapter py server) reflection
          (VStr "Alexa.LockController") (VStr "Unlock") request s
        = (Return r, s')
        /\ at_path ["context"; "properties"] r
           = Some (VList [reading (VStr "lockState") "Alexa.LockController"
                            (VStr "UNLOCKED")
                            (String.append (utcnow py (ticks s)) "Z")])
        /\ handler s' = handler s /\ journal s' = journal s).
Proof.
  intros Hd Hep.
  pose proof (getEndpoint_pure request (handler s)) as Hpure.
  rewrite Hep in Hpure. simpl in Hpure. subst h1.
  assert (Hl : forall m, m = "lock" \/ m = "unlock" ->
               lacks (adapter := Domoticz_adapter py server) o m = true).
  { intros m Hm. destruct o as [e | ]; [ | reflexivity]. simpl.
    destruct (endpoint_cannot_lock e) as [H1 H2].
    destruct Hm as [-> | ->]; [rewrite H1 | rewrite H2]; reflexivity. }
  destruct (lock_run py
              (adapter := Domoticz_adapter py server) request o (handler s) s
              Hd Hep) as [Hlock Hunlock].
  split.
  - eexists _, _. split.
    + apply (invoke_operation_returns py reflection _ _ request
               Alexa_LockController
               (Lock py (adapter := Domoticz_adapter py server)));
        [reflexivity | apply Hlock, Hl; auto].
    + split; [rewrite envelope_context by reflexivity; reflexivity | ].
      split; reflexivity.
  - eexists _, _. split.
    + apply (invoke_operation_returns py reflection _ _ request
               Alexa_LockController
               (Unlock py (adapter := Domoticz_adapter py server)));
        [reflexivity | apply Hunlock, Hl; auto].
    + split; [rewrite envelope_context by reflexivity; reflexivity | ].
      split; reflexivity.
Qed.

End Classes.

Lemma assoc_dict_set k v d : assoc k (dict_set k v d) = Some v.
Proof.
  induction d as [ | [k' v'] d IH]; simpl.
  - rewrite String.eqb_refl. reflexivity.
  - destruct (String.eqb k k') eqn:Hk; simpl; rewrite Hk; [reflexivity | exact IH].
Qed.

Section Cache.
Import DomoticzHandler DomoticzSpec.
Variable py : Python.
Variable server : list query -> query -> value.
Variable reflection : @Reflection Domoticz.

(** X21.  The handler's [getDevice] answers from the cache when it can, and
    sends nothing then; for a device that is not cached it asks Domoticz
    once for that device, keeps the first result under the index, and
    answers the next call from the cache; when Domoticz has no result it
    answers [None]. *)
Theorem getDevice_caches prefix i (h : Domoticz) :
  free_of "-" i = true ->
  (forall d, assoc i (devices h) = Some d ->
     Domoticz_getDevice py server
       (VStr (String.append prefix (String "-" i))) h
     = (Return d, h))
  /\ (assoc i (devices h) = None ->
      free_of "-" prefix = true -> prefix <> "Scene" ->
      (forall d rest,
         get (server (sent h) (getdevices_rid i)) "result" VNone
         = Return (VList (d :: rest)) ->
         let h' := {| devices := dict_set i d (devices h);
                      includeScenesGroups := includeScenesGroups h;
                      sent := sent h ++ [getdevices_rid i] |} in
         Domoticz_getDevice py server
           (VStr (String.append prefix (String "-" i))) h
         = (Return d, h')
         /\ Domoticz_getDevice py server
              (VStr (String.append prefix (String "-" i))) h'
            = (Return d, h'))
      /\ (forall res,
            get (server (sent h) (getdevices_rid i)) "result" VNone
            = Return res ->
            truthy res = false ->
            Domoticz_getDevice py server
              (VStr (String.append prefix (String "-" i))) h
            = (Return VNone, asked (getdevices_rid i) h))).
Proof.
  intros Hi.
  assert (Hparts : split "-" (String.append prefix (String "-" i))
                   = split "-" prefix ++ [i])
    by (rewrite split_app, (split_free _ _ Hi); reflexivity).
  assert (Hhit : forall h0 d, assoc i (devices h0) = Some d ->
            Domoticz_getDevice py server
              (VStr (String.append prefix (String "-" i))) h0
            = (Return d, h0)).
  { intros h0 d Hd. unfold Domoticz_getDevice, bind, lift, the_devices, ret.
    simpl split_. rewrite Hparts, item_last, Hd. reflexivity. }
  split; [apply Hhit | ].
  intros Hmiss Hp Hscene.
  assert (Hs : String.eqb prefix "Scene" = false)
    by (apply String.eqb_neq; exact Hscene).
  split.
  - intros d rest Hres h'. split.
    + unfold Domoticz_getDevice, bind, lift, the_devices, ret.
      simpl split_. rewrite Hparts, item_last, Hmiss.
      rewrite (split_free _ _ Hp). simpl app. rewrite item_first, Hs.
      unfold api, set_devices. rewrite Hres. cbn [truthy].
      destruct (server (sent h) (getdevices_rid i)) as [ | | | | | | rd];
        try discriminate.
      simpl in Hres |- *.
      destruct (assoc "result" rd) as [v | ]; [ | discriminate].
      injection Hres as ->. simpl. rewrite assoc_dict_set. reflexivity.
    + apply Hhit. simpl. apply assoc_dict_set.
  - intros res Hres Hfalse.
    unfold Domoticz_getDevice, bind, lift, the_devices, ret.
    simpl split_. rewrite Hparts, item_last, Hmiss.
    rewrite (split_free _ _ Hp). simpl app. rewrite item_first, Hs.
    unfold api. rewrite Hres, Hfalse. cbn [devices]. rewrite Hmiss.
    reflexivity.
Qed.

(** X22.  [setColorTemperature] sends a level between 0 and 100, whatever
    the temperature asked for: 2000 K is level 0, 4250 K level 50, 6500 K
    level 100; when the conversion overflows nothing is sent. *)
Theorem setColorTemperature_level_in_range i kelvin (h : Domoticz) :
  ((exists t, 0 <= t <= 100
              /\ Domoticz_setColorTemperature server i kelvin h
                 = (Return tt, asked (setcolbrightnessvalue_temp i t) h))
   \/ exists x, Domoticz_setColorTemperature server i kelvin h = (Raise x, h))
  /\ Domoticz_setColorTemperature server i 2000 h
     = (Return tt, asked (setcolbrightnessvalue_temp i 0) h)
  /\ Domoticz_setColorTemperature server i 4250 h
     = (Return tt, asked (setcolbrightnessvalue_temp i 50) h)
  /\ Domoticz_setColorTemperature server i 6500 h
     = (Return tt, asked (setcolbrightnessvalue_temp i 100) h).
Proof.
  split.
  - unfold Domoticz_setColorTemperature, bind, lift, api, ret.
    destruct (int_truediv (kelvin - 2000) (6500 - 2000)) as [q | x];
      [ | right; eexists; reflexivity].
    destruct (trunc (q * 100)%float) as [level | x];
      [ | right; eexists; reflexivity].
    left. exists (Z.max 0 (Z.min 100 level)). split; [lia | reflexivity].
  - unfold Domoticz_setColorTemperature, bind, lift, api, ret.
    assert (H0 : int_truediv (2000 - 2000) (6500 - 2000) = Return 0%float)
      by (vm_compute; reflexivity).
    assert (H1 : int_truediv (4250 - 2000) (6500 - 2000) = Return 0.5%float)
      by (vm_compute; reflexivity).
    assert (H2 : int_truediv (6500 - 2000) (6500 - 2000) = Return 1%float)
      by (vm_compute; reflexivity).
    assert (T0 : trunc (0 * 100)%float = Return 0) by (vm_compute; reflexivity).
    assert (T1 : trunc (0.5 * 100)%float = Return 50)
      by (vm_compute; reflexivity).
    assert (T2 : trunc (1 * 100)%float = Return 100)
      by (vm_compute; reflexivity).
    rewrite H0, H1, H2, T0, T1, T2. repeat split.
Qed.

(** X3.  [setLevelByName] finds the mode among the level names of the
    cached device without regard to case, but takes its position from the
    names as they are written: a mode listed in another case raises, and a
    device that is not cached raises; only a mode listed in upper case is
    sent, as its position times the level step. *)
Theorem setLevelByName_takes_names_as_written i m (h : Domoticz) :
  (assoc i (devices h) = None ->
   setLevelByName py server i (VStr m) h = (Raise (AttributeError "get"), h))
  /\ (forall d names,
        assoc i (devices h) = Some d ->
        get d "LevelNames" (VStr "") = Return (VStr names) ->
        (mem (upper py m) (map (upper py) (split "|" names)) = false ->
         setLevelByName py server i (VStr m) h = (Return tt, h))
        /\ (mem (upper py m) (map (upper py) (split "|" names)) = true ->
            index (upper py m) (split "|" names) = None ->
            setLevelByName py server i (VStr m) h = (Raise ValueError, h))
        /\ (forall n step lvl,
              mem (upper py m) (map (upper py) (split "|" names)) = true ->
              index (upper py m) (split "|" names) = Some n ->
              get d "LevelInt" (VInt 10) = Return step ->
              int_mul n step = Return lvl ->
              setLevelByName py server i (VStr m) h
              = (Return tt, asked (switchlight_level i lvl) h))).
Proof.
  split.
  - intros Hd. unfold setLevelByName, bind, the_devices, lift.
    rewrite Hd. reflexivity.
  - intros d names Hd Hn.
    unfold setLevelByName, bind, the_devices, lift. rewrite Hd, Hn.
    simpl split_. simpl upper_.
    split; [ | split].
    + intros ->. reflexivity.
    + intros ->. cbn [upper_]. intros ->. reflexivity.
    + intros n step lvl ->. cbn [upper_]. intros -> -> ->. reflexivity.
Qed.

End Cache.

Section Cold.
Import DomoticzHandler DomoticzSpec.
Variable py : Python.
Variable server : list query -> query -> value.
Variable reflection : @Reflection Domoticz.

(** X23.  A thermostat whose device is not in the handler's cache cannot be
    set: [getEndpoint] does not load it and [setLevelByName] reads the
    level names from the cache, so [SetThermostatMode] is answered with
    [INTERNAL_ERROR] and Domoticz is sent nothing. *)
Theorem SetThermostatMode_needs_cached_device request i m mode
    (s : session Domoticz) :
  directive request = true ->
  at_path ["endpoint"; "endpointId"] request
  = Some (VStr (String.append "Thermostat-" i)) ->
  at_path ["payload"; "thermostatMode"] request = Some m ->
  bare_mode m = Some mode ->
  assoc i (devices (handler s)) = None ->
  exists s',
    invoke py (adapter := Domoticz_adapter py server) reflection
      (VStr "Alexa.ThermostatController") (VStr "SetThermostatMode") request s
    = (Return (error_envelope request (uuid4 py (uuids s)) "INTERNAL_ERROR"
                 internal_error_request), s')
    /\ handler s' = handler s.
Proof.
  intros Hd Hid Hp Hm Hmiss.
  pose proof (getEndpoint_run request "Thermostat" i (handler s)
                eq_refl Hid) as Hep.
  cbn [lookup ENDPOINT_ADAPTERS String.eqb Ascii.eqb Bool.eqb] in Hep.
  destruct (decoded_fields ThermostatEndpoint "Thermostat" i request
              (handler s)) as (Hc & Hi & Hh & _).
  set (e := decoded ThermostatEndpoint "Thermostat" i request (handler s))
    in *.
  assert (Hset : endpoint_perform py server (setThermostatMode mode) e
                   (handler s)
                 = (Raise (AttributeError "get"), handler s)).
  { unfold endpoint_perform, bind, self_idx, setLevelByName, bind,
      the_devices, lift, ret.
    rewrite Hc, Hh, Hi, Hmiss. reflexivity. }
  assert (Hop : exists s1,
             SetThermostatMode py (adapter := Domoticz_adapter py server)
               request s
             = (Raise (AttributeError "get"), s1)
             /\ handler s1 = handler s /\ uuids s1 = uuids s).
  { unfold SetThermostatMode, bind at 1.
    rewrite (payload_field_directive _ _ _ s Hp).
    assert (Hmode : (match m with
                     | VStr _ => ret m
                     | _ => lift (subscript m "value")
                     end) s = (Return mode, s)).
    { destruct m as [ | | | | x | | d]; simpl in Hm; try discriminate.
      - injection Hm as <-. reflexivity.
      - unfold lift. simpl. rewrite Hm. reflexivity. }
    unfold bind at 1. rewrite Hmode.
    unfold bind at 1. rewrite (log_request_directive _ s Hd).
    unfold bind at 1, endpoint_of, on_handler at 1.
    cbn [getEndpoint Domoticz_adapter]. rewrite Hep.
    unfold bind at 1, call, bind at 1, note, on_handler.
    cbn [handler set_handler noted perform Domoticz_adapter].
    rewrite Hset. eexists. split; [reflexivity | split; reflexivity]. }
  destruct Hop as (s1 & Hop & Hh1 & Hu1).
  rewrite (invoke_operation py reflection
             (VStr "Alexa.ThermostatController") (VStr "SetThermostatMode")
             request Alexa_ThermostatController
             (SetThermostatMode py (adapter := Domoticz_adapter py server))
             eq_refl).
  unfold try_except at 1.
  rewrite (guarded_raises py request internal_error_request _ s _ _ Hd Hop).
  rewrite Hu1. eexists. split; [reflexivity | exact Hh1].
Qed.

(** X24.  When Domoticz cannot be reached, or lists nothing, discovery
    empties the device cache and answers with no endpoints. *)
Theorem Discover_offline request (s : session Domoticz) :
  directive request = true ->
  get (server (sent (handler s)) getdevices_all) "result" (VList [])
  = Return (VList []) ->
  (includeScenesGroups (handler s) = true ->
   get (server (sent (handler s) ++ [getdevices_all]) getscenes) "result"
     (VList [])
   = Return (VList [])) ->
  exists r s',
    invoke py (adapter := Domoticz_adapter py server) reflection
      (VStr "Alexa.Discovery") (VStr "Discover") request s
    = (Return r, s')
    /\ at_path ["event"; "payload"; "endpoints"] r = Some (VList [])
    /\ devices (handler s') = []
    /\ sent (handler s')
       = sent (handler s)
         ++ getdevices_all
            :: (if includeScenesGroups (handler s) then [getscenes] else []).
Proof.
  intros Hd Hall Hscenes.
  assert (Hget : exists h',
             Domoticz_getEndpoints py server (handler s) = (Return [], h')
             /\ devices h' = []
             /\ sent h'
                = sent (handler s)
                  ++ getdevices_all
                     :: (if includeScenesGroups (handler s)
                         then [getscenes] else [])).
  { unfold Domoticz_getEndpoints, loadDevices, bind at 1, bind at 1, api.
    unfold bind at 1, lift at 1. rewrite Hall.
    unfold bind at 1, lift at 1. cbn [iterate].
    unfold bind at 1. cbn [for_each]. unfold ret at 1.
    unfold bind at 1, set_devices.
    unfold bind at 1. cbn [includeScenesGroups].
    destruct (includeScenesGroups (handler s)) eqn:Hinc.
    - unfold bind at 1, api. cbn [sent]. unfold cache_results.
      unfold bind at 1, lift at 1. rewrite (Hscenes eq_refl).
      unfold bind at 1, lift at 1. cbn [iterate for_each]. unfold ret at 1.
      unfold bind, the_devices. cbn [devices for_each]. unfold ret.
      eexists. split; [reflexivity | ]. split; [reflexivity | ].
      cbn [sent]. rewrite <- app_assoc. reflexivity.
    - unfold ret at 1. unfold bind, the_devices. cbn [devices for_each].
      unfold ret. eexists. split; [reflexivity | ]. split; reflexivity. }
  destruct Hget as (h' & Hget & Hdev & Hsent).
  assert (Hop : Discover py (adapter := Domoticz_adapter py server) request s
                = (Return (envelope request "Discover.Response"
                             "Alexa.Discovery" (uuid4 py (uuids s))
                             (VDict [("endpoints", VList [])]) VNone),
                   drawn (set_handler h' s))).
  { unfold Discover, bind at 1, on_handler.
    cbn [getEndpoints Domoticz_adapter]. rewrite Hget. cbn [flat_map].
    unfold bind at 1. rewrite (log_request_directive _ _ Hd).
    rewrite api_message_directive by assumption. reflexivity. }
  eexists _, _. split.
  - apply (invoke_operation_returns py reflection _ _ request
             Alexa_Discovery
             (Discover py (adapter := Domoticz_adapter py server)));
      [reflexivity | exact Hop].
  - split; [reflexivity | ]. split; assumption.
Qed.

End Cold.

Section Discovery.
Import DomoticzHandler DomoticzSpec.
Variable py : Python.
Variable server : list query -> query -> value.
Variable reflection : @Reflection Domoticz.

Ltac case_step Hr :=
  match type of Hr with
  | context [match ?x with _ => _ end] =>
      lazymatch x with
      | context [match _ with _ => _ end] => fail
      | context [if _ then _ else _] => fail
      | _ => destruct x eqn:?
      end
  end.

(** X25.  The endpoint id discovery publishes for a device leads back to the
    device: [getEndpoint] decodes it to an endpoint of the same class with
    the same index.  The capabilities of that endpoint are those of its
    class; the colour capabilities discovery adds for a colour lamp are
    not among them. *)
Theorem discovered_endpoint_resolves i d e request (h : Domoticz) :
  endpoint_for py i d = Return e ->
  at_path ["endpoint"; "endpointId"] request = Some (endpointId (super e)) ->
  endpointId (super e)
  = VStr (String.append (registered_name (class e)) (String "-" i))
  /\ idx e = Some i
  /\ lookup (registered_name (class e)) ENDPOINT_ADAPTERS = Some (class e)
  /\ Domoticz_getEndpoint request h
     = (Return (Some (decoded (class e) (registered_name (class e)) i
                        request h)), h)
  /\ exists extra,
       capabilities (super e)
       = capabilities
           (super (decoded (class e) (registered_name (class e)) i request h))
         ++ extra.
Proof.
  intros He Hid. unfold endpoint_for in He.
  repeat (case_step He; try discriminate);
    injection He as <-; cbn [class setHandler set_idx construct with_super]
      in Hid |- *;
    cbn [registered_name];
    (split; [reflexivity | ]); (split; [reflexivity | ]);
    (split; [reflexivity | ]);
    (split;
     [ match goal with
       | |- context [decoded _ ?p _ _ _] =>
           rewrite (getEndpoint_run request p i h eq_refl Hid)
       end; reflexivity
     | match goal with
       | |- context [decoded ?c ?p _ _ _] =>
           destruct (decoded_fields c p i request h) as (_ & _ & _ & _ & ->)
       end; eexists; reflexivity ]).
Qed.

End Discovery.

Section Attached.
Import DomoticzHandler DomoticzSpec.
Variable py : Python.
Variable server : list query -> query -> value.
Variable reflection : @Reflection Domoticz.

Lemma getDevice_attached e (h : Domoticz) :
  truthy (_device e) = true ->
  endpoint_getDevice py server e h = (Return (_device e, e), h).
Proof. intros Ht. unfold endpoint_getDevice. rewrite Ht. reflexivity. Qed.

(** An endpoint that holds its device answers [getProperty] from it: the
    handler is not involved and the endpoint stays as it is. *)
Lemma getProperty_attached name e (h : Domoticz) :
  truthy (_device e) = true ->
  exists o,
    endpoint_getProperty py server name e h = (o, h)
    /\ forall v e', o = Return (v, e') -> e' = e.
Proof.
  intros Ht. unfold endpoint_getProperty, bind at 1.
  rewrite (getDevice_attached e h Ht). rewrite Ht. cbn [negb].
  unfold bind, lift, ret.
  repeat match goal with
         | |- context [match ?x with _ => _ end] =>
             lazymatch x with
             | context [match _ with _ => _ end] => fail
             | context [if _ then _ else _] => fail
             | _ => destruct x
             end
         | |- context [if ?x then _ else _] =>
             lazymatch x with
             | context [match _ with _ => _ end] => fail
             | context [if _ then _ else _] => fail
             | _ => destruct x
             end
         end;
    (eexists; split; [reflexivity | intros ? ? [=]; subst; reflexivity]).
Qed.

Lemma serialize_attached i props :
  forall (acc : list value * DomoticzEndpoint) (s : session Domoticz),
    truthy (_device (snd acc)) = true ->
    exists o s',
      for_each
        (fun (acc : list value * DomoticzEndpoint) (prop : value) =>
           prop_name <- lift (subscript prop "name") ;;
           ' (prop_value, e') <-
               on_handler (getProperty (Adapter := Domoticz_adapter py server)
                             prop_name (snd acc)) ;;
           if is_None prop_value then ret (fst acc, e')
           else t <- timestamp py ;;
                ret (fst acc ++ [reading prop_name (name i) prop_value t], e'))
        props acc s = (o, s')
      /\ handler s' = handler s
      /\ forall l e', o = Return (l, e') -> e' = snd acc.
Proof.
  induction props as [ | p props IH]; intros acc s Ht.
  - eexists _, _. split; [reflexivity | ]. split; [reflexivity | ].
    intros l e' [= ->]. reflexivity.
  - cbn [for_each]. unfold bind at 1, bind at 1, lift at 1.
    destruct (subscript p "name") as [n | x];
      [ | eexists _, _; split; [reflexivity | ]; split; [reflexivity | ];
          intros ? ? [=]].
    unfold bind at 1, on_handler at 1.
    destruct (getProperty_attached n (snd acc) (handler s) Ht)
      as (o & Ho & Hsame).
    change (endpoint_getProperty py server n (snd acc) (handler s))
      with (getProperty (Adapter := Domoticz_adapter py server) n (snd acc)
              (handler s)) in Ho.
    rewrite Ho.
    destruct o as [[v e1] | x];
      [ | eexists _, _; split; [reflexivity | ]; split; [reflexivity | ];
          intros ? ? [=]].
    pose proof (Hsame v e1 eq_refl) as ->.
    destruct (is_None v).
    + unfold ret at 1.
      destruct (IH (fst acc, snd acc) (set_handler (handler s) s) Ht)
        as (o' & s' & -> & Hh & He).
      eexists _, _. split; [reflexivity | ]. split; [exact Hh | exact He].
    + unfold bind at 1, timestamp at 1, ret at 1.
      destruct (IH (fst acc ++ [reading n (name i) v
                                  (String.append
                                     (utcnow py
                                        (ticks (set_handler (handler s) s)))
                                     "Z")], snd acc)
                  (ticked (set_handler (handler s) s)) Ht)
        as (o' & s' & -> & Hh & He).
      eexists _, _. split; [reflexivity | ]. split; [exact Hh | exact He].
Qed.

Lemma report_attached caps :
  forall (acc : list value * DomoticzEndpoint) (s : session Domoticz),
    truthy (_device (snd acc)) = true ->
    exists o s',
      for_each
        (fun (acc : list value * DomoticzEndpoint) (i : interface) =>
           ' (l, e') <- serializeProperties py
                          (adapter := Domoticz_adapter py server) i (snd acc) ;;
           ret (fst acc ++ l, e'))
        caps acc s = (o, s')
      /\ handler s' = handler s.
Proof.
  induction caps as [ | i caps IH]; intros acc s Ht.
  - eexists _, _. split; reflexivity.
  - cbn [for_each]. unfold bind at 1, bind at 1, serializeProperties at 1.
    destruct (serialize_attached i (propertiesSupported i) ([], snd acc) s Ht)
      as (o & s1 & -> & Hh & He).
    destruct o as [[l e1] | x];
      [ | eexists _, _; split; [reflexivity | exact Hh]].
    pose proof (He l e1 eq_refl) as ->. cbn [snd]. unfold ret at 1.
    destruct (IH (fst acc ++ l, snd acc) s1 Ht) as (o' & s' & -> & Hh').
    eexists _, _. split; [reflexivity | congruence].
Qed.

(** X27.  A state report for a device that is in the handler's cache is
    answered from the cache: Domoticz is not asked, the cache stays as it
    is, and the endpoint is never reported unreachable. *)
Theorem ReportState_answers_from_cache request cls i (s : session Domoticz) :
  directive request = true ->
  at_path ["endpoint"; "endpointId"] request
  = Some (VStr (String.append (registered_name cls) (String "-" i))) ->
  truthy (cached i (handler s)) = true ->
  exists r s',
    invoke py (adapter := Domoticz_adapter py server) reflection
      (VStr "Alexa") (VStr "ReportState") request s
    = (Return r, s')
    /\ handler s' = handler s
    /\ at_path ["event"; "payload"; "type"] r
       <> Some (VStr "ENDPOINT_UNREACHABLE").
Proof.
  intros Hd Hid Hc.
  assert (Hep : Domoticz_getEndpoint request (handler s)
                = (Return (Some (decoded cls (registered_name cls) i request
                                   (handler s))), handler s)).
  { rewrite (getEndpoint_run request (registered_name cls) i (handler s));
      [ | destruct cls; reflexivity | exact Hid].
    destruct cls; reflexivity. }
  set (e := decoded cls (registered_name cls) i request (handler s)) in *.
  assert (Hdev : _device e = cached i (handler s))
    by (unfold e, decoded; rewrite Hc; reflexivity).
  assert (Ht : truthy (_device e) = true) by (rewrite Hdev; exact Hc).
  rewrite (invoke_operation py reflection (VStr "Alexa") (VStr "ReportState")
             request Alexa_ReportState
             (ReportState py (adapter := Domoticz_adapter py server)) eq_refl).
  assert (Hop : exists o s1,
             ReportState py (adapter := Domoticz_adapter py server) request s
             = (o, s1)
             /\ handler s1 = handler s
             /\ forall r, o = Return r ->
                  at_path ["event"; "payload"; "type"] r = None).
  { unfold ReportState, bind at 1, endpoint_of, on_handler at 1.
    cbn [getEndpoint Domoticz_adapter]. rewrite Hep.
    unfold bind at 1, on_handler at 1. cbn [getDevice Domoticz_adapter].
    cbn [handler set_handler]. rewrite (getDevice_attached e (handler s) Ht).
    assert (Hn : is_None (_device e) = false)
      by (destruct (_device e); try reflexivity; discriminate).
    rewrite Hn. unfold bind at 1, report.
    destruct (report_attached
                (capabilities
                   (alexa (Adapter := Domoticz_adapter py server) e)) ([], e)
                (set_handler (handler s) (set_handler (handler s) s)) Ht)
      as (o & s1 & -> & Hh).
    destruct o as [[l e1] | x].
    - unfold bind at 1. rewrite (log_request_directive _ _ Hd).
      rewrite api_message_directive by assumption.
      eexists _, _. split; [reflexivity | ]. split; [exact Hh | ].
      intros r [= <-]. reflexivity.
    - eexists _, _. split; [reflexivity | ]. split; [exact Hh | ].
      intros r [=]. }
  destruct Hop as (o & s1 & Hop & Hh & Hr).
  unfold try_except at 1.
  destruct o as [r | x].
  - unfold try_except. rewrite Hop. eexists _, _.
    split; [reflexivity | ]. split; [exact Hh | ].
    rewrite (Hr r eq_refl). discriminate.
  - rewrite (guarded_raises py request internal_error_request _ s x s1 Hd Hop).
    eexists _, _. split; [reflexivity | ]. split; [exact Hh | ].
    discriminate.
Qed.

End Attached.

(** ** Capabilities *)

(** X29.  What a capability publishes in discovery: its type, interface name
    and version always; [properties] exactly when it supports any, with
    the list and the two flags; [configuration] exactly when it is a
    thermostat controller with supported modes; a scene controller
    publishes [supportsDeactivation] instead and neither of the two. *)
Theorem serializeDiscovery_shape (i : interface) :
  at_path ["type"] (serializeDiscovery i) = Some (VStr "AlexaInterface")
  /\ at_path ["interface"] (serializeDiscovery i) = Some (VStr (name i))
  /\ at_path ["version"] (serializeDiscovery i) = Some (VStr "3")
  /\ (class_ i = AlexaSceneController ->
      at_path ["supportsDeactivation"] (serializeDiscovery i)
      = Some (supportsDeactivation i)
      /\ at_path ["properties"] (serializeDiscovery i) = None
      /\ at_path ["configuration"] (serializeDiscovery i) = None)
  /\ (class_ i <> AlexaSceneController ->
      at_path ["supportsDeactivation"] (serializeDiscovery i) = None
      /\ at_path ["properties"] (serializeDiscovery i)
         = match propertiesSupported i with
           | [] => None
           | props =>
               Some (VDict [("supported", VList props);
                            ("proactivelyReported",
                             VBool (propertiesProactivelyReported i));
                            ("retrievable", VBool (propertiesRetrievable i))])
           end
      /\ at_path ["configuration"] (serializeDiscovery i)
         = if is_None (configuration i) then None else Some (configuration i)).
Proof.
  unfold serializeDiscovery, configuration, propertiesSupported, name.
  destruct i as [c n props pr rt modes deact]; simpl.
  destruct c; simpl;
    repeat split; try (intros; congruence); try reflexivity;
    try (destruct props; reflexivity);
    try (destruct props; destruct (is_None modes); reflexivity);
    try (destruct (is_None modes); reflexivity).
Qed.

(** X30.  Each capability class is registered under the interface name its
    instances report, and each endpoint class under a name without a
    dash, which is what lets an endpoint id be cut at its first dash. *)
Theorem registries_are_consistent :
  (forall k c, lookup k INTERFACES = Some c -> name (new c) = k)
  /\ (forall k c,
        lookup k DomoticzHandler.ENDPOINT_ADAPTERS = Some c ->
        k = DomoticzSpec.registered_name c /\ free_of "-" k = true).
Proof.
  split; intros k c Hl; simpl in Hl;
    repeat match type of Hl with
           | (if String.eqb k ?s then _ else _) = _ =>
               destruct (String.eqb_spec k s) as [-> | _]
           end;
    try discriminate; injection Hl as <-; repeat split.
Qed.

Section Reading.
Import DomoticzHandler DomoticzSpec.
Variable py : Python.
Variable server : list query -> query -> value.

(** X28.  [getProperty] knows eight property names; for any other name, as
    [colorTemperatureInKelvin] or [lockState], it answers [None]. *)
Theorem getProperty_unknown_name_is_None name e (h : Domoticz) o h' :
  existsb (eq_str name) known_properties = false ->
  endpoint_getProperty py server name e h = (o, h') ->
  forall v e', o = Return (v, e') -> v = VNone.
Proof.
  intros Hk Hr v e' ->. simpl in Hk.
  repeat match type of Hk with
         | _ || _ = false => apply orb_false_elim in Hk as [? Hk]
         end.
  unfold endpoint_getProperty, bind at 1 in Hr.
  destruct (endpoint_getDevice py server e h) as [[[d e0] | x] h0];
    [ | discriminate].
  destruct (negb (truthy d)); [injection Hr as <- _ _; reflexivity | ].
  repeat match goal with
         | Hf : eq_str name _ = false |- _ => rewrite Hf in Hr; clear Hf
         end.
  simpl in Hr. injection Hr as <- _ _. reflexivity.
Qed.

End Reading.

Section Enumeration.
Import DomoticzHandler DomoticzSpec.
Variable py : Python.
Variable server : list query -> query -> value.

Ltac case_for Hr :=
  match type of Hr with
  | context [match ?x with _ => _ end] =>
      lazymatch x with
      | context [match _ with _ => _ end] => fail
      | context [if _ then _ else _] => fail
      | _ => destruct x eqn:?
      end
  end.

Lemma endpoint_for_idx i d e : endpoint_for py i d = Return e -> idx e = Some i.
Proof.
  intros He. unfold endpoint_for in He.
  repeat (case_for He; try discriminate); injection He as <-; reflexivity.
Qed.

(** X4.  What discovery builds for a cached device, by the class it
    chooses: a light, a temperature sensor, a thermostat and a scene are
    given their display category, a blind none; every endpoint names
    Domoticz as its manufacturer, carries the identity capability and at
    least one more, is bound to the handler and holds no device yet. *)
Theorem discovered_endpoint_shape i d e :
  endpoint_for py i d = Return e ->
  displayCategories (super e)
  = match class e with
    | SwitchLightEndpoint => [VStr "LIGHT"]
    | BlindEndpoint => []
    | TemperatureSensorEndpoint => [VStr "TEMPERATURE_SENSOR"]
    | ThermostatEndpoint => [VStr "THERMOSTAT"]
    | SceneEndpoint => [VStr "SCENE"]
    end
  /\ manufacturerName (super e) = VStr "Domoticz"
  /\ (exists c rest,
        capabilities (super e) = new AlexaInterface :: c :: rest)
  /\ has_handler e = true
  /\ _device e = VNone.
Proof.
  intros He. unfold endpoint_for in He.
  repeat (case_for He; try discriminate); injection He as <-;
    (split; [reflexivity | ]); (split; [reflexivity | ]);
    (split; [eexists _, _; reflexivity | ]); split; reflexivity.
Qed.

Lemma getEndpoints_loop ds :
  forall acc (h : Domoticz) eps h',
    for_each (fun (eps : list DomoticzEndpoint) (kv : string * value) =>
                ep <- lift (endpoint_for py (fst kv) (snd kv)) ;;
                ret (eps ++ [ep]))
      ds acc h = (Return eps, h') ->
    h' = h
    /\ map idx eps = map idx acc ++ map (fun kv => Some (fst kv)) ds.
Proof.
  induction ds as [ | [k v] ds IH]; intros acc h eps h'.
  - intros [= <- <-]. split; [reflexivity | ]. rewrite app_nil_r. reflexivity.
  - cbn [for_each]. unfold bind at 1, bind at 1, lift at 1. cbn [fst snd].
    destruct (endpoint_for py k v) as [e | x] eqn:He; [ | discriminate].
    unfold ret at 1. intros Hr. apply IH in Hr as [-> ->].
    split; [reflexivity | ].
    rewrite map_app, <- app_assoc. cbn [map app fst].
    rewrite (endpoint_for_idx _ _ _ He). reflexivity.
Qed.

(** X26.  [getEndpoints] returns one endpoint for each device of the cache
    it has just loaded, in the order of the cache, each with the key of
    its device as index. *)
Theorem getEndpoints_one_per_device (h : Domoticz) eps h' :
  Domoticz_getEndpoints py server h = (Return eps, h') ->
  map idx eps = map (fun kv => Some (fst kv)) (devices h')
  /\ snd (loadDevices py server h) = h'.
Proof.
  unfold Domoticz_getEndpoints, bind at 1.
  destruct (loadDevices py server h) as [[u | x] h1]; [ | discriminate].
  unfold bind at 1, the_devices. intros Hr.
  apply getEndpoints_loop in Hr as [-> Hr]. split; [exact Hr | reflexivity].
Qed.

End Enumeration.

(** *** The further theorems at concrete directives *)
Section Instances.
Import DomoticzHandler Examples DomoticzSpec.

(** [Alexa.Speaker] is no handler group of the router. *)
Lemma unresolved_directive_leaves_backend_witness :
  invoke python (adapter := Domoticz_adapter python silent) no_reflection
    (VStr "Alexa.Speaker") (VStr "SetVolume")
    (request_for "Alexa.Speaker" "SetVolume" "SwitchLight-7" (VDict []))
    (domoticz dimmer)
  = (Return (error_envelope
               (request_for "Alexa.Speaker" "SetVolume" "SwitchLight-7"
                  (VDict []))
               "id-0" "INTERNAL_ERROR" internal_error_directive),
     drawn (domoticz dimmer)).
Proof.
  apply (proj1 (unresolved_directive_leaves_backend python
                  (adapter := Domoticz_adapter python silent) no_reflection
                  (request_for "Alexa.Speaker" "SetVolume" "SwitchLight-7"
                     (VDict []))
                  (VStr "Alexa.Speaker") (VStr "SetVolume")
                  (domoticz dimmer) eq_refl)).
  reflexivity.
Defined.

Lemma handle_message_dispatches_witness :
  handle_message python (adapter := Domoticz_adapter python silent)
    no_reflection (VDict [("directive", brighten)]) (domoticz dimmer)
  = invoke python (adapter := Domoticz_adapter python silent) no_reflection
      (VStr "Alexa.BrightnessController") (VStr "AdjustBrightness") brighten
      (domoticz dimmer).
Proof.
  apply (proj1 (handle_message_dispatches python
                  (adapter := Domoticz_adapter python silent) no_reflection
                  (VDict [("directive", brighten)]) brighten (domoticz dimmer)
                  eq_refl));
    reflexivity.
Defined.

Lemma response_echoes_endpoint_witness :
  exists r s',
    invoke python (adapter := Domoticz_adapter python silent) no_reflection
      (VStr "Alexa.BrightnessController") (VStr "AdjustBrightness") brighten
      (domoticz dimmer)
    = (Return r, s')
    /\ at_path ["event"; "header"; "payloadVersion"] r = Some (VStr "3")
    /\ at_path ["event"; "endpoint"] r
       = Some (VDict [("endpointId", VStr "SwitchLight-7")]).
Proof.
  destruct (response_echoes_endpoint python
              (adapter := Domoticz_adapter python silent) no_reflection
              (VStr "Alexa.BrightnessController") (VStr "AdjustBrightness")
              brighten (domoticz dimmer) eq_refl)
    as (r & s' & Hr & Hv & He & _).
  - vm_compute. discriminate.
  - exists r, s'. split; [exact Hr | ]. split; [exact Hv | exact He].
Defined.

Lemma invoke_raises_when_endpoint_uncopyable_witness :
  exists s',
    invoke python (adapter := Domoticz_adapter python silent) no_reflection
      (VStr "Alexa.PowerController") (VStr "TurnOn") malformed (domoticz dimmer)
    = (Raise (AttributeError "copy"), s').
Proof.
  apply (invoke_raises_when_endpoint_uncopyable python
           (adapter := Domoticz_adapter python silent) no_reflection
           malformed (VStr "SwitchLight-7") (AttributeError "copy")).
  - discriminate.
  - discriminate.
  - reflexivity.
  - reflexivity.
  - vm_compute. discriminate.
Defined.

(** An endpoint id without a dash: [getEndpoint] cannot unpack it. *)
Lemma endpoint_error_is_internal_error_witness :
  exists s',
    invoke python (adapter := Domoticz_adapter python silent) no_reflection
      (VStr "Alexa.PowerController") (VStr "TurnOff")
      (request_for "Alexa.PowerController" "TurnOff" "Lamp7" (VDict []))
      (domoticz dimmer)
    = (Return (error_envelope
                 (request_for "Alexa.PowerController" "TurnOff" "Lamp7"
                    (VDict []))
                 "id-0" "INTERNAL_ERROR" internal_error_request), s')
    /\ journal s' = [].
Proof.
  destruct (endpoint_error_is_internal_error python
              (adapter := Domoticz_adapter python silent) no_reflection
              (request_for "Alexa.PowerController" "TurnOff" "Lamp7" (VDict []))
              (handler (domoticz dimmer)) (handler (domoticz dimmer))
              ValueError eq_refl eq_refl
              (VStr "Alexa.PowerController") (VStr "TurnOff")
              Alexa_PowerController
              (TurnOff python (adapter := Domoticz_adapter python silent))
              (domoticz dimmer) eq_refl eq_refl)
    as (s' & Hr & _ & Hj).
  - discriminate.
  - exists s'. split; [exact Hr | exact Hj].
Defined.

(** A brightness of 150 is passed on and reported as it is. *)
Lemma SetBrightness_passes_value_witness :
  exists out s',
    SetBrightness python (adapter := Domoticz_adapter python silent)
      (request_for "Alexa.BrightnessController" "SetBrightness" "SwitchLight-7"
         (VDict [("brightness", VInt 150)]))
      (domoticz dimmer)
    = (out, s')
    /\ journal s' = [(VStr "SwitchLight-7", setBrightness (VInt 150))]
    /\ forall r, out = Return r ->
         at_path ["context"; "properties"] r
         = Some (VList [reading (VStr "brightness") "Alexa.BrightnessController"
                          (VInt 150) "2024-01-01T00:00:00Z"]).
Proof.
  unshelve epose proof
    (SetBrightness_passes_value python
       (adapter := Domoticz_adapter python silent)
       (request_for "Alexa.BrightnessController" "SetBrightness"
          "SwitchLight-7" (VDict [("brightness", VInt 150)]))
       (VInt 150) 150 _ _ (domoticz dimmer) eq_refl eq_refl eq_refl _) as W;
    [ | | vm_compute; reflexivity | exact W].
Defined.

(** A dimmer at level 90 asked to brighten by 50. *)
Lemma AdjustBrightness_adds_delta_witness :
  exists out s',
    AdjustBrightness python (adapter := Domoticz_adapter python silent)
      brighten (domoticz dimmer)
    = (out, s')
    /\ journal s' = [(VStr "SwitchLight-7", setBrightness (VInt (90 + 50)))]
    /\ forall r, out = Return r ->
         at_path ["context"; "properties"] r
         = Some (VList [reading (VStr "brightness") "Alexa.BrightnessController"
                          (VInt (90 + 50)) "2024-01-01T00:00:00Z"]).
Proof.
  unshelve epose proof
    (AdjustBrightness_adds_delta python
       (adapter := Domoticz_adapter python silent) brighten
       (VInt 50) 50 _ _ 90 _ _ (domoticz dimmer)
       eq_refl eq_refl eq_refl _ _ _) as W;
    [ | | | | vm_compute; reflexivity | vm_compute; reflexivity | discriminate
    | exact W].
Defined.


Lemma scene_events_witness :
  exists out s',
    Activate python (adapter := Domoticz_adapter python silent)
      (request_for "Alexa.SceneController" "Activate" "Scene-3" (VDict []))
      (domoticz [])
    = (out, s')
    /\ journal s' = [(VStr "Scene-3", activate)]
    /\ forall r, out = Return r ->
         r = envelope
               (request_for "Alexa.SceneController" "Activate" "Scene-3"
                  (VDict []))
               "ActivationStarted" "Alexa.SceneController" "id-0"
               (scene_payload "2024-01-01T00:00:00Z") VNone.
Proof.
  unshelve epose proof
    (proj1 (scene_events python (adapter := Domoticz_adapter python silent)
              (request_for "Alexa.SceneController" "Activate" "Scene-3"
                 (VDict []))
              _ _ (domoticz []) eq_refl _)) as W;
    [ | | vm_compute; reflexivity | exact W].
Defined.

Lemma Domoticz_lock_sends_nothing_witness :
  exists r s',
    invoke python (adapter := Domoticz_adapter python silent) no_reflection
      (VStr "Alexa.LockController") (VStr "Lock")
      (request_for "Alexa.LockController" "Lock" "SwitchLight-7" (VDict []))
      (domoticz dimmer)
    = (Return r, s')
    /\ at_path ["context"; "properties"] r
       = Some (VList [reading (VStr "lockState") "Alexa.LockController"
                        (VStr "LOCKED") "2024-01-01T00:00:00Z"])
    /\ handler s' = handler (domoticz dimmer)
    /\ journal s' = [].
Proof.
  unshelve epose proof
    (proj1 (Domoticz_lock_sends_nothing python silent no_reflection
              (request_for "Alexa.LockController" "Lock" "SwitchLight-7"
                 (VDict []))
              _ _ (domoticz dimmer) eq_refl _)) as W;
    [ | | vm_compute; reflexivity | exact W].
Defined.

(** 212 Fahrenheit for a thermostat. *)
Lemma SetTargetTemperature_reports_celsius_witness :
  exists out s',
    SetTargetTemperature python (adapter := Domoticz_adapter python silent)
      (request_for "Alexa.ThermostatController" "SetTargetTemperature"
         "Thermostat-5"
         (VDict [("targetSetpoint", setpoint 212 "FAHRENHEIT")]))
      (domoticz thermostat)
    = (out, s')
    /\ journal s' = [(VStr "Thermostat-5", setTargetSetPoint 100)]
    /\ forall r, out = Return r ->
         at_path ["context"; "properties"] r
         = Some (VList [reading (VStr "targetSetpoint")
                          "Alexa.ThermostatController"
                          (setpoint 100 "CELSIUS") "2024-01-01T00:00:00Z"]).
Proof.
  unshelve epose proof
    (SetTargetTemperature_reports_celsius python
       (adapter := Domoticz_adapter python silent)
       (request_for "Alexa.ThermostatController" "SetTargetTemperature"
          "Thermostat-5"
          (VDict [("targetSetpoint", setpoint 212 "FAHRENHEIT")]))
       (setpoint 212 "FAHRENHEIT") 100 _ _ (domoticz thermostat)
       eq_refl eq_refl _ _) as W;
    [ | | vm_compute; reflexivity | vm_compute; reflexivity | exact W].
Defined.

Lemma SetTargetTemperature_without_setpoint_witness :
  invoke python (adapter := Domoticz_adapter python silent) no_reflection
    (VStr "Alexa.ThermostatController") (VStr "SetTargetTemperature")
    (request_for "Alexa.ThermostatController" "SetTargetTemperature"
       "Thermostat-5" (VDict [("lowerSetpoint", setpoint 18 "CELSIUS")]))
    (domoticz thermostat)
  = (Return (error_envelope
               (request_for "Alexa.ThermostatController" "SetTargetTemperature"
                  "Thermostat-5"
                  (VDict [("lowerSetpoint", setpoint 18 "CELSIUS")]))
               "id-0" "INTERNAL_ERROR" internal_error_request),
     drawn (domoticz thermostat)).
Proof.
  apply (SetTargetTemperature_without_setpoint python
           (adapter := Domoticz_adapter python silent) no_reflection
           (request_for "Alexa.ThermostatController" "SetTargetTemperature"
              "Thermostat-5"
              (VDict [("lowerSetpoint", setpoint 18 "CELSIUS")]))
           [("lowerSetpoint", setpoint 18 "CELSIUS")] (domoticz thermostat)
           eq_refl eq_refl eq_refl).
Defined.

Lemma Blind_power_inverted_witness :
  exists r s',
    invoke python (adapter := Domoticz_adapter python silent) no_reflection
      (VStr "Alexa.PowerController") (VStr "TurnOn")
      (request_for "Alexa.PowerController" "TurnOn" "Blind-4" (VDict []))
      (domoticz [])
    = (Return r, s')
    /\ at_path ["context"; "properties"] r
       = Some (VList [reading (VStr "powerState") "Alexa.PowerController"
                        (VStr "ON") "2024-01-01T00:00:00Z"])
    /\ handler s' = asked (switchlight "4" "Off") (handler (domoticz [])).
Proof.
  apply (proj1 (Blind_power_inverted python silent no_reflection
                  (request_for "Alexa.PowerController" "TurnOn" "Blind-4"
                     (VDict []))
                  "4" (domoticz []) eq_refl eq_refl)).
Defined.

Lemma getEndpoint_decodes_witness :
  Domoticz_getEndpoint
    (request_for "Alexa.PowerController" "TurnOn" "SwitchLight-7" (VDict []))
    (handler (domoticz dimmer))
  = (Return (Some (decoded SwitchLightEndpoint "SwitchLight" "7"
                     (request_for "Alexa.PowerController" "TurnOn"
                        "SwitchLight-7" (VDict []))
                     (handler (domoticz dimmer)))),
     handler (domoticz dimmer)).
Proof.
  apply (proj1 (getEndpoint_decodes
                  (request_for "Alexa.PowerController" "TurnOn" "SwitchLight-7"
                     (VDict []))
                  "SwitchLight-7" (handler (domoticz dimmer)) eq_refl)
           "SwitchLight" "7" eq_refl eq_refl).
Defined.

(** A thermostat set to a mode its level names do not list in upper case:
    the method raises and nothing was sent. *)
Lemma perform_sends_at_most_one_witness :
  exists x h',
    endpoint_perform python silent (setThermostatMode (VStr "HEAT"))
      (setHandler (set_idx "5"
         (construct ThermostatEndpoint (VStr "Thermostat-5") (VStr "")
            (VStr "") (VStr "Domoticz"))))
      {| devices := [("5", VDict [("LevelNames", VStr "Off|Heat|Cool|Auto")])];
         includeScenesGroups := false; sent := [] |}
    = (Raise x, h')
    /\ h' = {| devices := [("5", VDict [("LevelNames",
                                          VStr "Off|Heat|Cool|Auto")])];
               includeScenesGroups := false; sent := [] |}.
Proof.
  eexists _, _. split; [vm_compute; reflexivity | ].
  eapply (proj1 (proj2 (perform_sends_at_most_one python silent
                          (setThermostatMode (VStr "HEAT"))
                          (setHandler (set_idx "5"
                             (construct ThermostatEndpoint
                                (VStr "Thermostat-5") (VStr "") (VStr "")
                                (VStr "Domoticz"))))
                          {| devices := [("5", VDict [("LevelNames",
                                                       VStr "Off|Heat|Cool|Auto")])];
                             includeScenesGroups := false; sent := [] |}
                          (Raise ValueError) _ _))
            ValueError eq_refl).
  Unshelve. vm_compute. reflexivity.
Defined.

(** A lamp that is not cached is fetched once and cached. *)
Lemma getDevice_caches_witness :
  Domoticz_getDevice python stocked (VStr "SwitchLight-7")
    {| devices := []; includeScenesGroups := false; sent := [] |}
  = (Return (lamp "7"),
     {| devices := [("7", lamp "7")]; includeScenesGroups := false;
        sent := [getdevices_rid "7"] |})
  /\ Domoticz_getDevice python stocked (VStr "SwitchLight-7")
       {| devices := [("7", lamp "7")]; includeScenesGroups := false;
          sent := [getdevices_rid "7"] |}
     = (Return (lamp "7"),
        {| devices := [("7", lamp "7")]; includeScenesGroups := false;
           sent := [getdevices_rid "7"] |}).
Proof.
  apply (proj1 (proj2 (getDevice_caches python stocked "SwitchLight" "7"
                         {| devices := []; includeScenesGroups := false;
                            sent := [] |} eq_refl)
                  eq_refl eq_refl ltac:(discriminate))
           (lamp "7") [] eq_refl).
Defined.

Lemma SetThermostatMode_needs_cached_device_witness :
  exists s',
    invoke python (adapter := Domoticz_adapter python silent) no_reflection
      (VStr "Alexa.ThermostatController") (VStr "SetThermostatMode") heat
      (domoticz [])
    = (Return (error_envelope heat "id-0" "INTERNAL_ERROR"
                 internal_error_request), s')
    /\ handler s' = handler (domoticz []).
Proof.
  apply (SetThermostatMode_needs_cached_device python silent no_reflection
           heat "5" (VDict [("value", VStr "heat")]) (VStr "heat")
           (domoticz []) eq_refl eq_refl eq_refl eq_refl eq_refl).
Defined.

(** Discovery against a server that cannot be reached forgets the dimmer. *)
Lemma Discover_offline_witness :
  exists r s',
    invoke python (adapter := Domoticz_adapter python silent) no_reflection
      (VStr "Alexa.Discovery") (VStr "Discover") discover (domoticz dimmer)
    = (Return r, s')
    /\ at_path ["event"; "payload"; "endpoints"] r = Some (VList [])
    /\ devices (handler s') = []
    /\ sent (handler s') = [getdevices_all].
Proof.
  apply (Discover_offline python silent no_reflection discover
           (domoticz dimmer) eq_refl eq_refl).
  discriminate.
Defined.

Lemma discovered_endpoint_resolves_witness :
  exists e,
    endpoint_for python "7" (lamp "7") = Return e
    /\ endpointId (super e) = VStr "SwitchLight-7"
    /\ Domoticz_getEndpoint
         (request_for "Alexa.PowerController" "TurnOn" "SwitchLight-7"
            (VDict []))
         (handler (domoticz dimmer))
       = (Return (Some (decoded SwitchLightEndpoint "SwitchLight" "7"
                          (request_for "Alexa.PowerController" "TurnOn"
                             "SwitchLight-7" (VDict []))
                          (handler (domoticz dimmer)))),
          handler (domoticz dimmer)).
Proof.
  eexists. split; [vm_compute; reflexivity | ].
  unshelve epose proof
    (discovered_endpoint_resolves python "7" (lamp "7") _
       (request_for "Alexa.PowerController" "TurnOn" "SwitchLight-7" (VDict []))
       (handler (domoticz dimmer)) _ _) as W;
    [ | vm_compute; reflexivity | reflexivity | ].
  destruct W as (Hid & _ & _ & Hget & _).
  split; [exact Hid | exact Hget].
Defined.

Lemma ReportState_answers_from_cache_witness :
  exists r s',
    invoke python (adapter := Domoticz_adapter python silent) no_reflection
      (VStr "Alexa") (VStr "ReportState") report_switch (domoticz dimmer)
    = (Return r, s')
    /\ handler s' = handler (domoticz dimmer)
    /\ at_path ["event"; "payload"; "type"] r
       <> Some (VStr "ENDPOINT_UNREACHABLE").
Proof.
  apply (ReportState_answers_from_cache python silent no_reflection
           report_switch SwitchLightEndpoint "7" (domoticz dimmer)
           eq_refl eq_refl eq_refl).
Defined.

(** A lamp advertises [colorTemperatureInKelvin]; its value is [None]. *)
Lemma getProperty_unknown_name_is_None_witness :
  exists v e' h',
    endpoint_getProperty python silent (VStr "colorTemperatureInKelvin")
      (decoded SwitchLightEndpoint "SwitchLight" "7" report_switch
         (handler (domoticz dimmer)))
      (handler (domoticz dimmer))
    = (Return (v, e'), h')
    /\ v = VNone.
Proof.
  eexists _, _, _. split; [vm_compute; reflexivity | ].
  eapply (getProperty_unknown_name_is_None python silent
            (VStr "colorTemperatureInKelvin")
            (decoded SwitchLightEndpoint "SwitchLight" "7" report_switch
               (handler (domoticz dimmer)))
            (handler (domoticz dimmer)) _ _ eq_refl);
    [vm_compute; reflexivity | reflexivity].
Defined.

Lemma discovered_endpoint_shape_witness :
  exists e,
    endpoint_for python "4" (VDict [("Type", VStr "RFY")]) = Return e
    /\ class e = BlindEndpoint
    /\ displayCategories (super e) = [].
Proof.
  eexists. split; [vm_compute; reflexivity | ]. split; [reflexivity | ].
  apply (proj1 (discovered_endpoint_shape python "4"
                  (VDict [("Type", VStr "RFY")]) _ eq_refl)).
Defined.

Lemma getEndpoints_one_per_device_witness :
  exists eps h',
    Domoticz_getEndpoints python
      (fun _ q => match q with
                  | getdevices_all =>
                      VDict [("result", VList [lamp "7"; lamp "8"])]
                  | _ => VDict []
                  end)
      (handler (domoticz [])) = (Return eps, h')
    /\ map idx eps = [Some "7"; Some "8"].
Proof.
  eexists _, _. split; [vm_compute; reflexivity | ].
  apply (proj1 (getEndpoints_one_per_device python
                  (fun _ q => match q with
                              | getdevices_all =>
                                  VDict [("result", VList [lamp "7"; lamp "8"])]
                              | _ => VDict []
                              end)
                  (handler (domoticz [])) _ _ eq_refl)).
Defined.

End Instances.
